(* ===== verification/_CoqProject ===== *)
-Q . S2P
Prelude.v
Device.v
Shape.v
Net.v
Loader.v
Transform.v
Model.v
Eval.v
Train.v
Adadelta.v
Format.v
Checkpoint.v
Predict.v
Notebook.v
TfPlacement.v
