(* ===== verification/Prelude.v ===== *)
(** * A verification library for the getting-started-with-gpus notebooks

  The repository is three Jupyter notebooks under [src/]:
  - [torch-use-gpu.ipynb]: picks a device ([torch.device("cuda:0" if
    torch.cuda.is_available() else "cpu")]), moves integer tensors onto it,
    defines the two-layer classifier [SimpleNet], loads FashionMNIST with a
    [DataLoader] of batch size 100, trains it for [EPOCHS = 5] epochs with
    [train]/[test], and saves [model.state_dict()];
  - [torch-test-model.ipynb]: rebuilds [SimpleNet] with batch size 1,
    loads the saved weights, and runs [get_probs] on one test image,
    printing the predicted label through [labels_map];
  - [tf-use-gpu.ipynb]: counts the GPUs TensorFlow sees and shows where
    [tf.math.add] and [tf.matmul] are placed, inside and outside a
    [with tf.device('/CPU:0')] scope.

  The notebooks are glue around a framework, so a faithful model has two
  layers: the cells themselves (the control flow, the order of calls,
  the constants, the guards) translated one definition per cell or
  function, and the framework calls they make (device parsing,
  [Tensor.to], [view], [nn.Linear], [F.relu], [F.softmax], [argmax],
  [F.nll_loss], [DataLoader] batching, [zero_grad]/[backward]/[step],
  [state_dict] save and load), modelled from their documented behaviour at
  exactly the points the cells call them, errors included.

  ** Files (in dependency order)
  - [Prelude] (this file): the error type [Error] of the Python exceptions
    the cells can raise, the result monad [result] with stdpp's [mbind]
    notation and [raise e] in [gpu_scope], [fold_result]/[map_result] for
    loops whose body may raise, the [chunk] function shared by [view] and
    [DataLoader] with its lemmas (induction along pieces, [concat] round
    trip, divisibility), the hint database [gpu], the tactic [gpu_side]
    that discharges the side conditions of concrete runs and [inv_ok] that
    inverts a successful chain of binds.
  - [Device] (Module [Dev]): devices and their string form
    ([torch.device]/[print(device)]), the host ([is_available],
    [device_count], [get_device_name]), tensor placement ([IntTensor],
    [.cuda()], [.to(device)], [torch.cuda.IntTensor(.., device=)]) and the
    device cells of [torch-use-gpu.ipynb] lines 128-213 run in order.
  - [Shape]: the shape calculus of [SimpleNet.forward] ([view(batch_size,
    -1)] with torch's inference of [-1], the two [nn.Linear] layers,
    [softmax(dim=1)]), [squeeze], the loader's batch shapes.
  - [Net]: the numeric network over [Q]: [nn.Linear], [relu], [softmax]
    against the typeclass [QExp] for the exponential (positive, strictly
    increasing; a piecewise-linear instance makes the model executable),
    [forward], [argmax], [nll_loss].
  - [Loader]: [DataLoader(..., shuffle=False)] as [chunk] of the dataset
    and the default collate.
  - [Transform]: [transforms.Compose([ToTensor(), Normalize(..)])] over PIL
    images and tensors with torchvision's checks, [datasets.FashionMNIST]'s
    [__getitem__].
  - [Model]: the [nn.Module] state (parameters, device, training flag,
    [.grad]), [model.to], [data.to], and the device check of [model(x)].
  - [Eval]: [test] (lines 437-457, and its first, identical definition
    at lines 410-427): summed loss, correct count, report.
  - [Train]: [train] (lines 383-402) as explicit state passing through
    [zero_grad], [model(data)], [nll_loss], [backward], [step], against the
    typeclasses [Autograd] (the gradient) and [Optimizer] (a freshly built
    state [opt_init], the update [opt_step] and the invariant [opt_inv]
    its state keeps), and the epoch driver.
  - [Adadelta]: the notebook's optimizer [optim.Adadelta(...,
    lr=0.01)] (line 468, stepped at line 400) as an instance of
    [Optimizer]: lazily created [square_avg]/[acc_delta] accumulators and
    torch's update, over the interface [QSqrt] for the square root (a
    Newton instance makes it executable).
  - [Format] (Module [Fmt]): the printed text: Python's [format(x,
    '.<d>f')] over exact rationals (sign, rounding half to even, at
    least one integer digit, [d] padded fractional digits), the report
    line of [test] (lines 453-455), and the text of the epoch loop
    ([EPOCH: k], [print(device)] in [train], the report), with a reader
    of decimal text [parse_fixed] that states what the printed text
    means.
  - [Checkpoint]: [model.state_dict()], [torch.save], [torch.load] without
    [map_location] and strict [load_state_dict] over a file store (gmaps),
    and the device and load cells of [torch-test-model.ipynb].
  - [Predict]: torch-test-model's [SimpleNet] (with its [batch_size = 1]),
    its test loader, [labels_map] (a gmap), the iterator, [get_probs], the
    prediction cell run repeatedly (also as a step relation on the model
    and the iterator), and the label lookups of the plotting cell of
    [torch-use-gpu.ipynb].
  - [Notebook]: torch-use-gpu's device, model, data, epoch and saving
    cells composed, followed by torch-test-model's loading cells.
  - [TfPlacement] (Module [Tf]): [tf-use-gpu.ipynb]: the eager runtime's
    state (logging flag, device-scope stack, placement log), [tf.device]
    scopes with soft placement, [tf.constant], [tf.math.add], [tf.matmul],
    and the three cells in order.

  ** The theorems
  - Composition: [notebooks_end_to_end]: from raw FashionMNIST records the
    training notebook runs to the end on any host, its reports are the
    reference evaluations after each epoch, and the test notebook loads
    the final parameters; the run uses the notebook's Adadelta.
  - Refinement: [train] is per-batch gradient descent ([Train]), [test]
    computes the per-sample loss and accuracy whatever the batching
    ([Eval]), and the model torch-test-model loads is the one
    torch-use-gpu saved ([Checkpoint]).
  - Functional behaviour: the device cells' output on hosts with and
    without a GPU, the TensorFlow cells' output and placement on any host,
    [tf.matmul] as the matrix product (each entry the sum of products of
    the operands' entries), [forward]'s accepted shapes and its probability rows,
    [argmax], the loader's batches, the prediction cell's output over [k]
    runs, the plotting cell's titles.
  - Errors: every cell that raises is shown to raise the exception the
    framework raises ([.cuda()] without GPU, [torch.load] of GPU weights
    without GPU, the missing weights file, [StopIteration], the shape error
    of [train] and of [test] when [batch_size] does not divide the
    training or test set).
  - Invariants: a [tf.device] scope, as the notebook opens it around its
    [tf.constant]s, places them on the named device when the host lists
    it and on the default device otherwise, and leaves the runtime state
    as it was; training keeps the optimizer's
    invariant, and for Adadelta this makes the denominator
    [sqrt(square_avg + eps)] of every step positive
    ([adadelta_train_std_pos]).
  - Termination and liveness: repeated runs of the prediction cell form a
    well-founded order ([predict_terminates]); on the notebook's test
    loader they succeed once per test image and then raise
    [StopIteration] ([predict_reaches_stop]).
  - Round trips: [print(device)]/[torch.device], loader batches/dataset,
    [state_dict]/[load_state_dict], and [format(x, '.<d>f')] read back
    ([format_fixed_roundtrip]: within half a unit of the last printed
    place).
  - Printed output: [test_prints_reference]: the line [test] prints shows
    the reference correct count and test-set size, a loss that reads
    back within [0.00005] of the reference mean loss (always with a minus
    sign) and a whole percentage in [[0, 100]] within [0.5] of the
    accuracy.
  - Bounds: the printed loss lies in [[-1, 0)], the printed confidence in
    (0, 1], the normalised pixels in [[-0.1307/0.3081, 0.8693/0.3081]], and
    a loop over a loader runs [ceil(n / batch_size)] times.

  ** Bounds and fuel
  [chunk] recurses on fuel equal to the list's length, which is enough
  since each piece removes at least one element ([chunk_go_enough]); the
  digit count [ndigits] of [Format] recurses on the binary size of the
  number, enough since each step divides by [10] ([ndigits_bound]); no
  other definition uses fuel but Newton's square root of the executable
  [QSqrt] instance, whose eight steps only matter for the values computed
  (the theorems use only the positivity law of [QSqrt]).  Numbers are exact: parameters and pixels
  are rationals ([Q]); integer tensors are [Z].  The FashionMNIST sizes
  60000 and 10000 are constants; the theorems are stated for any dataset.

  ** What is not modelled
  Shell cells ([!nvidia-smi], [!pip install]), imports, plotting
  ([plt.*]), [tqdm] progress bars (written to stderr), the dataset
  download and its file format, float32 rounding (the formatted values
  are the exact rationals of the model; Python's correct rounding of
  them to the printed digits is modelled), and the numeric kernel of autograd: the
  gradient is the [Autograd] interface (Section variable), since it
  belongs to the framework and the notebook's role is only the order in
  which it is called; Adadelta's update is modelled, its square root is
  the [QSqrt] interface.  The notebook lines outside the map are
  markdown, [import] statements, shell commands and notebook metadata:
  every code line that computes something is modelled. *)

From stdpp Require Import base list option sets.

Declare Scope gpu_scope.
Delimit Scope gpu_scope with gpu.

(** The [gpu] database: the well-formedness facts of the concrete fixtures
    (networks, samples) that the components declare, and rewriting lemmas
    of the shared list functions. *)
Create HintDb gpu.
Create Rewrite HintDb gpu.

(** ** Errors raised by the cells *)

(** The Python exceptions the modelled cells can raise.  Each constructor
  names the framework check that raises it. *)
Inductive Error :=
| ENoCuda            (** CUDA requested on a host without a GPU *)
| EInvalidDevice     (** a device string or ordinal torch rejects *)
| ELegacyDeviceType  (** [torch.cuda.IntTensor(..., device=cpu)] *)
| EShape             (** [view] or a matrix product with mismatched sizes *)
| EDeviceMismatch    (** operands of one op on different devices *)
| EIndex             (** index or target out of range *)
| EKey               (** a missing key of a Python dict *)
| EValue             (** [ValueError], e.g. a batch size of 0 *)
| EStateDict         (** [load_state_dict]: missing/unexpected key or size *)
| EFileNotFound      (** [torch.load] of a missing file *)
| EZeroDivision      (** Python's [ZeroDivisionError] *)
| EStopIteration     (** [next] on an exhausted iterator *)
| ETypeError.        (** an argument of the wrong Python type *)

#[export] Instance Error_eq_dec : EqDecision Error.
Proof. solve_decision. Defined.

(** ** The result monad *)

Inductive result (A : Type) : Type :=
| Ok (a : A)
| Err (e : Error).
Arguments Ok {A} a.
Arguments Err {A} e.

#[export] Instance result_ret : MRet result := fun _ a => Ok a.
#[export] Instance result_bind : MBind result :=
fun _ _ f r => match r with Ok a => f a | Err e => Err e end.

(** Python's [raise e], in the scope of this development. *)
Notation "'raise' e" := (Err e) (at level 10, e at level 9) : gpu_scope.

Definition is_ok {A} (r : result A) : bool :=
match r with Ok _ => true | Err _ => false end.

(** A boolean guard of the code: raise [e] unless [b]. *)
Definition guard_or (b : bool) (e : Error) : result unit :=
if b then Ok tt else Err e.

(** A list of results run in order, stopping at the first error, like a
  Python [for] loop whose body may raise. *)
Fixpoint fold_result {A B} (f : A -> B -> result A) (a : A) (l : list B)
: result A :=
match l with
| [] => Ok a
| b :: l' => a' ← f a b; fold_result f a' l'
end.

(** [map] with a body that may raise, stopping at the first error. *)
Fixpoint map_result {A B} (f : A -> result B) (l : list A) : result (list B) :=
match l with
| [] => Ok []
| a :: l' => b ← f a; bs ← map_result f l'; mret (b :: bs)
end.

Section ResultLemmas.
Context {A B : Type}.

Lemma bind_Ok (c : result A) (k : A -> result B) (v : B) :
  (c ≫= k) = Ok v <-> exists a, c = Ok a /\ k a = Ok v.
Proof.
  destruct c as [a|e]; simpl; split.
  - eauto.
  - intros (a' & [= ->] & H). exact H.
  - discriminate.
  - intros (? & ? & ?); discriminate.
Qed.

Lemma bind_ret (a : A) (k : A -> result B) : (Ok a ≫= k) = k a.
Proof. reflexivity. Qed.

Lemma bind_Err (e : Error) (k : A -> result B) : (Err e ≫= k) = Err e.
Proof. reflexivity. Qed.

Lemma guard_or_Ok b e : guard_or b e = Ok tt <-> b = true.
Proof. destruct b; simpl; split; congruence. Qed.

Lemma fold_result_app (f : A -> B -> result A) a l1 l2 :
  fold_result f a (l1 ++ l2) = (a' ← fold_result f a l1; fold_result f a' l2).
Proof.
  revert a. induction l1 as [|b l1 IH]; intros a; simpl; [done|].
  destruct (f a b); simpl; [apply IH|done].
Qed.

(** A loop whose body succeeds on every element succeeds, and its result
    is the pure fold of the body. *)
Lemma fold_result_total (f : A -> B -> result A) (g : A -> B -> A) a l :
  (forall a b, b ∈ l -> f a b = Ok (g a b)) ->
  fold_result f a l = Ok (foldl g a l).
Proof.
  revert a. induction l as [|b l IH]; intros a Hf; simpl; [done|].
  rewrite Hf by set_solver. simpl. apply IH. intros. apply Hf. set_solver.
Qed.
Lemma map_result_total (f : A -> result B) (g : A -> B) l :
  (forall a, a ∈ l -> f a = Ok (g a)) -> map_result f l = Ok (map g l).
Proof.
  induction l as [|a l IH]; intros Hf; simpl; [done|].
  rewrite Hf by set_solver. simpl. rewrite IH; [done|]. intros. apply Hf. set_solver.
Qed.
End ResultLemmas.

(** ** Lists *)

(** Indexing into the Standard Library's [map], which the models use for
    Python's comprehensions. *)
Lemma lookup_map_Some {A B} (f : A -> B) (l : list A) (i : nat) :
  map f l !! i = f <$> l !! i.
Proof. revert i. induction l as [|x l IH]; intros [|i]; simpl; auto. Qed.

#[export] Hint Rewrite @lookup_map_Some : gpu.

(** ** Chunking: [view(n, -1)] rows and [DataLoader] batches *)

Section Chunk.
Context {A : Type}.

(** Split [l] into consecutive pieces of [n] elements, the last one
    shorter when [n] does not divide [length l].  The fuel is the length
    of the list, which bounds the number of pieces when [n > 0]. *)
Fixpoint chunk_go (fuel n : nat) (l : list A) : list (list A) :=
  match fuel with
  | O => []
  | S f =>
      match l with
      | [] => []
      | _ :: _ => take n l :: chunk_go f n (drop n l)
      end
  end.

Definition chunk (n : nat) (l : list A) : list (list A) :=
  chunk_go (length l) n l.

Lemma chunk_go_enough f1 f2 n l :
  0 < n -> length l <= f1 -> length l <= f2 ->
  chunk_go f1 n l = chunk_go f2 n l.
Proof.
  revert f2 l. induction f1 as [|f1 IH]; intros f2 l Hn H1 H2.
  - destruct l; [destruct f2|]; simpl in *; [done..|lia].
  - destruct f2 as [|f2]; [destruct l; simpl in *; [done|lia]|].
    destruct l as [|x l]; simpl; [done|].
    f_equal. apply IH; [done| |]; rewrite length_drop; simpl in *; lia.
Qed.

Lemma chunk_go_sub f n l c x :
  c ∈ chunk_go f n l -> x ∈ c -> x ∈ l.
Proof.
  revert l. induction f as [|f IH]; intros l; simpl; [set_solver|].
  destruct l as [|y l']; [set_solver|].
  intros [->|Hc]%elem_of_cons Hx; rewrite <- (take_drop n (y :: l'));
    apply elem_of_app; [by left|right]. eauto.
Qed.

(** Every element of a piece is an element of the list. *)
Lemma chunk_elem_sub n l c x : c ∈ chunk n l -> x ∈ c -> x ∈ l.
Proof. apply chunk_go_sub. Qed.

Lemma chunk_nil n : chunk n [] = [].
Proof. reflexivity. Qed.

Lemma chunk_cons n l :
  0 < n -> l <> [] -> chunk n l = take n l :: chunk n (drop n l).
Proof.
  intros Hn Hl. unfold chunk. destruct l as [|x l']; [done|].
  simpl. f_equal. apply chunk_go_enough; [done| |];
    rewrite length_drop; simpl; lia.
Qed.

(** Induction along the pieces of [chunk n]. *)
Lemma chunk_ind (n : nat) (Hn : 0 < n) (P : list A -> Prop) :
  P [] ->
  (forall l, l <> [] -> P (drop n l) -> P l) ->
  forall l, P l.
Proof.
  intros Hnil Hstep l. remember (length l) as m eqn:Hm.
  revert l Hm. induction m as [m IH] using lt_wf_ind.
  intros [|x l'] Hm; [done|]. apply Hstep; [done|].
  eapply IH; [|reflexivity]. rewrite length_drop. simpl in *. lia.
Qed.

(** Concatenating the pieces gives the list back. *)
Lemma concat_chunk n l : 0 < n -> concat (chunk n l) = l.
Proof.
  intros Hn. induction l as [|l Hl IH] using (chunk_ind n Hn); [done|].
  rewrite chunk_cons by done. simpl. rewrite IH. apply take_drop.
Qed.

(** Every piece is non-empty and has at most [n] elements. *)
Lemma chunk_piece_length n l b :
  0 < n -> b ∈ chunk n l -> 0 < length b <= n.
Proof.
  intros Hn. induction l as [|l Hl IH] using (chunk_ind n Hn); [set_solver|].
  rewrite chunk_cons by done. intros [->|Hin]%elem_of_cons; [|auto].
  rewrite length_take. destruct l; [done|simpl; lia].
Qed.

(** Pieces are full exactly when [n] divides the length. *)
Lemma chunk_all_full n l :
  0 < n -> (Forall (fun b => length b = n) (chunk n l) <-> Nat.divide n (length l)).
Proof.
  intros Hn. induction l as [|l Hl IH] using (chunk_ind n Hn).
  - split; [intros _; exists 0; done|constructor].
  - rewrite chunk_cons by done. rewrite Forall_cons, IH, length_take,
      length_drop.
    split.
    + intros [Hb [k Hk]]. exists (S k). lia.
    + intros [k Hk]. destruct l as [|x l']; [done|].
      destruct k as [|k]; simpl in Hk; [lia|].
      simpl. split; [lia|]. exists k. lia.
Qed.

(** Cutting a concatenation of [n]-element pieces gives the pieces back. *)
Lemma chunk_concat n (L : list (list A)) :
  0 < n -> Forall (fun b => length b = n) L -> chunk n (concat L) = L.
Proof.
  intros Hn. induction 1 as [|b L Hb HL IH]; [done|]. simpl.
  destruct b as [|x b']; [simpl in Hb; lia|].
  rewrite chunk_cons by done.
  assert (E1 : take n ((x :: b') ++ concat L) = x :: b')
    by (rewrite <- Hb; apply take_app_length).
  assert (E2 : drop n ((x :: b') ++ concat L) = concat L)
    by (rewrite <- Hb; apply drop_app_length).
  rewrite E1, E2, IH. done.
Qed.

Lemma length_chunk n l :
  0 < n -> length (chunk n l) = (length l + n - 1) / n.
Proof.
  intros Hn. induction l as [|l Hl IH] using (chunk_ind n Hn).
  - simpl. symmetry. apply Nat.div_small. lia.
  - rewrite chunk_cons by done. simpl. rewrite IH, length_drop.
    destruct l as [|x l']; [done|]. simpl length.
    destruct (decide (n <= S (length l'))).
    + replace (S (length l') + n - 1) with
        ((S (length l') - n + n - 1) + 1 * n) by lia.
      rewrite Nat.div_add by lia. lia.
    + rewrite (Nat.div_small (S (length l') - n + n - 1)) by lia.
      replace (S (length l') + n - 1) with (S (length l') - 1 + 1 * n)
        by lia. rewrite Nat.div_add, Nat.div_small by lia. lia.
Qed.
End Chunk.

(** ** Automation *)

(** Side conditions of a concrete run: an evaluation, a fixture's
    well-formedness from [gpu], or arithmetic. *)
#[export] Hint Resolve Nat.divide_1_l : gpu.

(** Invert a hypothesis [H : c = Ok v] where [c] is a chain of binds,
    pattern matches and returns: every intermediate result is named and
    its equation kept. *)
Ltac inv_ok H :=
  repeat match type of H with
  | (_ ≫= _) = Ok _ =>
      let x := fresh "x" in let Hx := fresh "Hx" in
      apply bind_Ok in H as (x & Hx & H)
  | (match ?x with _ => _ end) = Ok _ => destruct x eqn:?; simpl in H
  | mret _ = Ok _ => unfold mret, result_ret in H
  | Ok _ = Ok _ => injection H as; subst
  | Err _ = Ok _ => discriminate H
  end.

Ltac gpu_side := first [reflexivity | solve [eauto with gpu] | simpl; lia].
