(* ===== verification/Device.v ===== *)
(** * Devices, hosts and tensor placement

    Models the device handling of [src/torch-use-gpu.ipynb] (cells at lines
    93-212) and [src/torch-test-model.ipynb] (line 86): the string form of a
    [torch.device], the choice [torch.device("cuda:0" if
    torch.cuda.is_available() else "cpu")], the queries on the host, and the
    placement of integer tensors by [torch.IntTensor], [.cuda()],
    [.to(device)] and [torch.cuda.IntTensor(..., device=device)].  The
    printed lines of the cells are part of the model, so the notebook's
    instruction "if the output of the print command is cuda:0, continue" can
    be stated and proved. *)

From Stdlib Require Import String Ascii DecimalString DecimalNat Decimal
  DecimalFacts.
From stdpp Require Import base list option sets.
From S2P Require Import Prelude.

Open Scope string_scope.

Module Dev.

(** ** Devices and their string form *)

Inductive DeviceType := CPU | CUDA.

#[export] Instance DeviceType_eq_dec : EqDecision DeviceType.
Proof. solve_decision. Defined.

(** [torch.device]: a type and an optional index. *)
Record device := mk_device { dev_type : DeviceType; dev_index : option nat }.

#[export] Instance device_eq_dec : EqDecision device.
Proof. solve_decision. Defined.

Definition type_str (t : DeviceType) : string :=
  match t with CPU => "cpu" | CUDA => "cuda" end.

Definition index_str (i : nat) : string :=
  NilZero.string_of_uint (Nat.to_uint i).

(** [str(device)], as [print(device)] shows it. *)
Definition device_str (d : device) : string :=
  match dev_index d with
  | None => type_str (dev_type d)
  | Some i => type_str (dev_type d) ++ ":" ++ index_str i
  end.

(** Split a device string at its first colon. *)
Fixpoint split_colon (s : string) : string * option string :=
  match s with
  | EmptyString => (EmptyString, None)
  | String c s' =>
      if Ascii.eqb c ":" then (EmptyString, Some s')
      else let '(a, b) := split_colon s' in (String c a, b)
  end.

Definition parse_type (s : string) : result DeviceType :=
  if String.eqb s "cpu" then Ok CPU
  else if String.eqb s "cuda" then Ok CUDA
  else Err EInvalidDevice.

(** The index of a device string, [0|[1-9][0-9]*]: no leading zero. *)
Definition parse_index (o : option string) : result (option nat) :=
  match o with
  | None => Ok None
  | Some (String "0" (String _ _)) => Err EInvalidDevice
  | Some s =>
      match NilZero.uint_of_string s with
      | Some u => Ok (Some (Nat.of_uint u))
      | None => Err EInvalidDevice
      end
  end.

(** [torch.device(s)]. *)
Definition parse_device (s : string) : result device :=
  let '(ty, idx) := split_colon s in
  t ← parse_type ty; i ← parse_index idx; mret (mk_device t i).

(** ** The host: what [torch.cuda] reports *)

Record host := mk_host { gpu_names : list string }.

(** [torch.cuda.is_available()] (line 93). *)
Definition is_available (h : host) : bool := negb (bool_decide (gpu_names h = [])).

(** [torch.cuda.device_count()] (line 103). *)
Definition device_count (h : host) : nat := length (gpu_names h).

(** [torch.cuda.get_device_name(i)] (line 164). *)
Definition get_device_name (h : host) (i : nat) : result string :=
  if is_available h then
    match gpu_names h !! i with Some s => Ok s | None => Err EInvalidDevice end
  else Err ENoCuda.

(** The device chosen at line 135 of torch-use-gpu and line 86 of
    torch-test-model. *)
Definition select_device (h : host) : result device :=
  parse_device (if is_available h then "cuda:0" else "cpu").

(** Resolve a device on the host: a CUDA device needs a GPU and an ordinal
    in range; [cuda] without an index is the current device, 0. *)
Definition resolve_device (h : host) (d : device) : result device :=
  match dev_type d with
  | CPU => Ok (mk_device CPU None)
  | CUDA =>
      if is_available h then
        let i := default 0 (dev_index d) in
        if decide (i < device_count h) then Ok (mk_device CUDA (Some i))
        else Err EInvalidDevice
      else Err ENoCuda
  end.

(** ** Tensors and their placement *)

Record tensor := mk_tensor { t_data : list Z; t_device : device }.

Definition cpu : device := mk_device CPU None.

(** [torch.IntTensor(l)]: created on the CPU (line 184). *)
Definition IntTensor (l : list Z) : tensor := mk_tensor l cpu.

(** [t.to(d)] (line 198, and every [.to(device)] of the notebooks). *)
Definition tensor_to (h : host) (t : tensor) (d : device) : result tensor :=
  d' ← resolve_device h d; mret (mk_tensor (t_data t) d').

(** [t.cuda()]: the current CUDA device (line 196). *)
Definition tensor_cuda (h : host) (t : tensor) : result tensor :=
  tensor_to h t (mk_device CUDA None).

(** [torch.cuda.IntTensor(l, device=d)] (line 211): the legacy CUDA
    constructor rejects a device of another type. *)
Definition cuda_IntTensor (h : host) (l : list Z) (d : device) : result tensor :=
  match dev_type d with
  | CPU => Err ELegacyDeviceType
  | CUDA => d' ← resolve_device h d; mret (mk_tensor l d')
  end.

Definition is_cuda (t : tensor) : bool := bool_decide (dev_type (t_device t) = CUDA).

Definition bool_str (b : bool) : string := if b then "True" else "False".

(** [print(X.is_cuda, ",", X.device)]. *)
Definition show_tensor (t : tensor) : string :=
  bool_str (is_cuda t) ++ " , " ++ device_str (t_device t).

(** ** The device cells of torch-use-gpu.ipynb *)

(** Lines 135-136: choose the device and print it. *)
Definition cell_device (h : host) : result (device * string) :=
  d ← select_device h; mret (d, device_str d).

(** Lines 184-200: create [X_train] on the CPU, print it, move it with
    [.cuda()], print it again. *)
Definition cell_X_train (h : host) : result (tensor * list string) :=
  let x := IntTensor [0; 30; 50; 75; 70]%Z in
  x' ← tensor_cuda h x; mret (x', [show_tensor x; show_tensor x']).

(** Lines 210-212: create [X_test] directly on [device]. *)
Definition cell_X_test (h : host) (d : device) : result (tensor * string) :=
  x ← cuda_IntTensor h [30; 40; 50]%Z d; mret (x, show_tensor x).

(** The cells of lines 129-213 run in order; the result is what they print. *)
Definition run_device_cells (h : host) : result (list string) :=
  '(d, o1) ← cell_device h;
  name ← get_device_name h 0;
  '(_, o2) ← cell_X_train h;
  '(_, o3) ← cell_X_test h d;
  mret ([o1; name] ++ o2 ++ [o3])%list.

(** Concrete hosts: one with a GPU, one without. *)
Definition gpu_host : host := mk_host ["Tesla T4"].
Definition cpu_host : host := mk_host [].
Definition cuda0 : device := mk_device CUDA (Some 0).

(** ** Properties *)

(** [Nat.to_uint] produces no leading zero. *)
Lemma to_uint_no_lead_zero (i : nat) (u : uint) :
  Nat.to_uint i = D0 u -> u = Nil.
Proof.
  intros H. pose proof (Unsigned.to_of (Nat.to_uint i)) as Hn.
  rewrite Unsigned.of_to, H in Hn. unfold unorm in Hn.
  destruct (nzhead (D0 u)) eqn:E; try congruence.
  exfalso. eapply nzhead_nonzero. rewrite E. done.
Qed.

Lemma parse_index_str (i : nat) : parse_index (Some (index_str i)) = Ok (Some i).
Proof.
  unfold parse_index, index_str.
  assert (Hnil : Nat.to_uint i <> Nil).
  { intros H. pose proof (Unsigned.of_to i) as E. rewrite H in E.
    simpl in E. subst i. discriminate. }
  destruct (Nat.to_uint i) as [|u|u|u|u|u|u|u|u|u|u] eqn:E; [done| | | | | | | | | |];
  try (rewrite (NilZero.usu _ Hnil); f_equal; f_equal; rewrite <- E;
       apply Unsigned.of_to).
  pose proof (to_uint_no_lead_zero _ _ E) as ->. simpl.
  rewrite <- (Unsigned.of_to i), E. done.
Qed.

(** The value line 135 computes, and that it resolves to itself. *)
Lemma select_device_value (h : host) :
  select_device h = Ok (if is_available h then cuda0 else cpu).
Proof. unfold select_device. by destruct (is_available h). Qed.

Lemma resolve_selected (h : host) :
  resolve_device h (if is_available h then cuda0 else cpu) =
    Ok (if is_available h then cuda0 else cpu).
Proof. destruct h as [[|n ns]]; reflexivity. Qed.

(** C24: printing a device and parsing the text back gives the same device. *)
Lemma split_colon_type (t : DeviceType) (s : string) :
  split_colon (type_str t ++ ":" ++ s) = (type_str t, Some s).
Proof. by destruct t. Qed.

Lemma parse_type_str (t : DeviceType) : parse_type (type_str t) = Ok t.
Proof. by destruct t. Qed.

Theorem device_str_roundtrip (d : device) : parse_device (device_str d) = Ok d.
Proof.
  destruct d as [t [i|]]; unfold device_str, parse_device; cbn [dev_index dev_type].
  - rewrite split_colon_type. cbv zeta. rewrite parse_type_str.
    change (Ok t ≫= _) with (i' ← parse_index (Some (index_str i));
                            mret (mk_device t i')).
    rewrite parse_index_str. done.
  - by destruct t.
Qed.

Lemma is_available_cons n ns : is_available (mk_host (n :: ns)) = true.
Proof. reflexivity. Qed.

Lemma is_available_false h : is_available h = false <-> gpu_names h = [].
Proof.
  unfold is_available. destruct (gpu_names h); simpl; split; done.
Qed.

(** C20: The cell at line 135 picks [cuda:0] exactly when a GPU is available,
    and [print(device)] shows [cuda:0] or [cpu] accordingly. *)
Theorem cell_device_spec (h : host) :
  cell_device h =
    if is_available h then Ok (mk_device CUDA (Some 0), "cuda:0")
    else Ok (cpu, "cpu").
Proof. unfold cell_device, select_device. destruct (is_available h); done. Qed.

(** C21: Moving a tensor to the selected device never raises, and the tensor
    is on CUDA exactly when a GPU is available. *)
Theorem to_selected_device (h : host) (t : tensor) :
  (d ← select_device h; tensor_to h t d) =
    Ok (mk_tensor (t_data t)
          (if is_available h then mk_device CUDA (Some 0) else cpu)).
Proof.
  destruct h as [[|n ns]]; [done|].
  unfold select_device, tensor_to, resolve_device, device_count. simpl.
  reflexivity.
Qed.

(** C22: On a host with a GPU named [n], the device cells print, in order, the
    device, the GPU's name, [X_train] before and after [.cuda()], and
    [X_test]: all on [cuda:0] except the freshly created [X_train]. *)
Theorem run_device_cells_gpu (h : host) (n : string) (ns : list string) :
  gpu_names h = n :: ns ->
  run_device_cells h =
    Ok ["cuda:0"; n; "False , cpu"; "True , cuda:0"; "True , cuda:0"]%list.
Proof.
  intros Hg. destruct h as [g]; simpl in Hg; subst g. vm_compute. reflexivity.
Qed.

Lemma run_device_cells_gpu_witness :
  gpu_names gpu_host = ["Tesla T4"] /\
  run_device_cells gpu_host =
    Ok ["cuda:0"; "Tesla T4"; "False , cpu"; "True , cuda:0"; "True , cuda:0"]%list.
Proof. split; [reflexivity|]. apply (run_device_cells_gpu _ "Tesla T4" []). reflexivity. Defined.

(** On a host without a GPU the cells raise: [get_device_name(0)] at line
    164 fails before any tensor is created. *)
Theorem run_device_cells_cpu (h : host) :
  gpu_names h = [] -> run_device_cells h = Err ENoCuda.
Proof. intros Hg. destruct h as [g]; simpl in Hg; subst g. reflexivity. Qed.

Lemma run_device_cells_cpu_witness :
  gpu_names cpu_host = [] /\ run_device_cells cpu_host = Err ENoCuda.
Proof. split; [reflexivity|]. apply run_device_cells_cpu. reflexivity. Defined.

(** C23: The CPU fallback chosen at line 135 is honoured by [.to(device)] but
    not by [.cuda()] (line 196) nor by [torch.cuda.IntTensor(...,
    device=device)] (line 211): without a GPU both raise. *)
Theorem cuda_cells_ignore_fallback (h : host) (t : tensor) (l : list Z) :
  gpu_names h = [] ->
  select_device h = Ok cpu /\
  tensor_to h t cpu = Ok (mk_tensor (t_data t) cpu) /\
  tensor_cuda h t = Err ENoCuda /\
  cuda_IntTensor h l cpu = Err ELegacyDeviceType.
Proof.
  intros Hg. destruct h as [g]; simpl in Hg; subst g. repeat split.
Qed.

Lemma cuda_cells_ignore_fallback_witness :
  gpu_names cpu_host = [] /\
  select_device cpu_host = Ok cpu /\
  tensor_to cpu_host (IntTensor [0; 30]%Z) cpu = Ok (mk_tensor [0; 30]%Z cpu) /\
  tensor_cuda cpu_host (IntTensor [0; 30]%Z) = Err ENoCuda /\
  cuda_IntTensor cpu_host [30; 40; 50]%Z cpu = Err ELegacyDeviceType.
Proof. split; [reflexivity|]. apply cuda_cells_ignore_fallback. reflexivity. Defined.

End Dev.
