(* ===== verification/Shape.v ===== *)
(** * Shapes through [SimpleNet.forward]

    The shape calculus of the calls in [SimpleNet.forward]
    ([src/torch-use-gpu.ipynb] lines 247-259, [src/torch-test-model.ipynb]
    lines 113-125): [x.view(batch_size, -1)], the two [nn.Linear] layers
    declared in [__init__], [F.relu] and [F.softmax(x, dim=1)]; the
    [squeeze] calls of [torch-test-model.ipynb]; and the batch shape the
    [DataLoader] produces.  [view] follows torch's [infer_size]: at most one
    [-1], whose size is the element count divided by the product of the
    other sizes, which must be non-zero and divide it. *)

From stdpp Require Import base list option sets.
From S2P Require Import Prelude.

Module Shape.

Definition shape := list nat.

Definition numel (s : shape) : nat := foldr Nat.mul 1 s.

(** An argument of [view]: a size or [-1]. *)
Inductive vdim := Dim (n : nat) | Infer.

#[export] Instance vdim_eq_dec : EqDecision vdim.
Proof. solve_decision. Defined.

Definition infer_count (spec : list vdim) : nat :=
  length (filter (fun d => d = Infer) spec).

Definition fixed_prod (spec : list vdim) : nat :=
  foldr (fun d acc => match d with Dim n => n * acc | Infer => acc end) 1 spec.

Definition fill (m : nat) (d : vdim) : nat :=
  match d with Dim n => n | Infer => m end.

(** [x.view(d1, .., dn)] on a tensor of shape [s]. *)
Definition view_shape (s : shape) (spec : list vdim) : result shape :=
  let n := numel s in
  let k := fixed_prod spec in
  match infer_count spec with
  | 0 => if decide (k = n) then Ok (map (fill 0) spec) else Err EShape
  | 1 => if decide (k <> 0 /\ n mod k = 0) then Ok (map (fill (n / k)) spec)
         else Err EShape
  | _ => Err EShape
  end.

(** [nn.Linear(in_features, out_features)]. *)
Record linear_dims := mk_linear_dims { in_features : nat; out_features : nat }.

(** Lines 250-251 of torch-use-gpu ([__init__]). *)
Definition fc1_dims : linear_dims := mk_linear_dims 784 784.
Definition fc2_dims : linear_dims := mk_linear_dims 784 10.

(** A linear layer acts on the last dimension, which must be
    [in_features]. *)
Definition linear_shape (L : linear_dims) (s : shape) : result shape :=
  match reverse s with
  | [] => Err EShape
  | x :: rpre =>
      if decide (x = in_features L) then Ok (reverse rpre ++ [out_features L])
      else Err EShape
  end.

(** [F.softmax(x, dim)]: the dimension must exist; the shape is kept. *)
Definition softmax_shape (dim : nat) (s : shape) : result shape :=
  if decide (dim < length s) then Ok s else Err EIndex.

(** [SimpleNet.forward] at the level of shapes (lines 253-259). [F.relu]
    keeps the shape. *)
Definition forward_shape (batch_size : nat) (s : shape) : result shape :=
  s1 ← view_shape s [Dim batch_size; Infer];
  s2 ← linear_shape fc1_dims s1;
  s3 ← linear_shape fc2_dims s2;
  softmax_shape 1 s3.

(** [t.squeeze(d)]: drops dimension [d] when it has size 1. *)
Definition squeeze_dim (d : nat) (s : shape) : result shape :=
  match s !! d with
  | None => Err EIndex
  | Some 1 => Ok (delete d s)
  | Some _ => Ok s
  end.

(** [t.squeeze()]: drops every dimension of size 1. *)
Definition squeeze_all (s : shape) : shape := filter (fun n => n <> 1) s.

(** The FashionMNIST sample shape after [transforms.ToTensor()], and the
    shape of a batch of [b] samples stacked by the [DataLoader]. *)
Definition image_shape : shape := [1; 28; 28].
Definition batch_shape (b : nat) : shape := b :: image_shape.

(** ** Properties *)

Lemma numel_cons n s : numel (n :: s) = n * numel s.
Proof. reflexivity. Qed.

Lemma numel_batch_shape b : numel (batch_shape b) = b * 784.
Proof. unfold numel, batch_shape, image_shape. simpl. lia. Qed.

Lemma linear_shape_2d (L : linear_dims) (b x : nat) :
  linear_shape L [b; x] =
    if decide (x = in_features L) then Ok [b; out_features L] else Err EShape.
Proof. unfold linear_shape. simpl. by case_decide. Qed.

Lemma view_shape_row (s : shape) (b : nat) :
  0 < b ->
  view_shape s [Dim b; Infer] =
    if decide (numel s mod b = 0) then Ok [b; numel s / b] else Err EShape.
Proof.
  intros Hb. unfold view_shape. simpl. rewrite Nat.mul_1_r.
  destruct (decide (numel s mod b = 0));
    [rewrite decide_True by lia|rewrite decide_False by lia]; done.
Qed.

Lemma forward_shape_eq (bs : nat) (s : shape) :
  0 < bs ->
  forward_shape bs s =
    if decide (numel s = bs * 784) then Ok [bs; 10] else Err EShape.
Proof.
  intros Hbs. unfold forward_shape. rewrite view_shape_row by done.
  destruct (decide (numel s mod bs = 0)) as [Hm|Hm]; simpl.
  - rewrite linear_shape_2d. simpl.
    pose proof (Nat.div_mod_eq (numel s) bs) as Hd. rewrite Hm in Hd.
    destruct (decide (numel s / bs = 784)) as [E|E]; simpl.
    + rewrite decide_True by lia. done.
    + rewrite decide_False; [done|]. intros H'. apply E.
      rewrite H', Nat.mul_comm, Nat.div_mul; lia.
  - rewrite decide_False; [done|]. intros E. apply Hm. rewrite E.
    rewrite Nat.mul_comm. apply Nat.Div0.mod_mul.
Qed.

(** C7: [SimpleNet.forward] accepts exactly the inputs with
    [batch_size * 784] elements, whatever their shape, and then returns a
    [batch_size x 10] tensor; every other input raises a shape error. *)
Theorem forward_shape_spec (bs : nat) (s : shape) :
  0 < bs ->
  forward_shape bs s =
    if decide (numel s = bs * 784) then Ok [bs; 10] else Err EShape.
Proof. apply forward_shape_eq. Qed.

Lemma forward_shape_spec_witness :
  0 < 2 /\ forward_shape 2 (batch_shape 2) = Ok [2; 10] /\
  forward_shape 2 (batch_shape 1) = Err EShape.
Proof.
  split_and!; [lia| |]; rewrite (forward_shape_spec 2) by lia; reflexivity.
Defined.

(** A stacked batch of [b] images goes through [forward] exactly when
    [b] is the notebook's [batch_size]. *)
Corollary forward_batch_shape (bs b : nat) :
  0 < bs ->
  forward_shape bs (batch_shape b) =
    if decide (b = bs) then Ok [bs; 10] else Err EShape.
Proof.
  intros Hbs. rewrite forward_shape_eq, numel_batch_shape by done.
  destruct (decide (b = bs)) as [->|Hne];
    [rewrite decide_True by lia|rewrite decide_False by lia]; done.
Qed.

End Shape.
