(* ===== verification/Net.v ===== *)
(** * The numeric [SimpleNet]

    The values computed by [SimpleNet.forward] ([src/torch-use-gpu.ipynb]
    lines 247-259): [x.view(batch_size, -1)] cuts the flat data into rows
    of 784 values, [self.fc1]/[self.fc2] are [nn.Linear] layers
    ([x W^T + b]), [F.relu] is [max 0], and [F.softmax(x, dim=1)] normalises
    each row.  Values are rationals [Q]; the exponential is not rational, so
    the softmax is written against the interface [QExp] (positive, strictly
    increasing, compatible with [Qeq]), of which [exp_pw] is one instance
    used for concrete runs.  Also here: [argmax] (first maximal index, as
    [torch.argmax] documents) and [F.nll_loss] as the notebook applies it,
    to the softmax output. *)

From Stdlib Require Import QArith Qminmax Lqa.
From stdpp Require Import base list option sets.
From S2P Require Import Prelude Shape.

Module Net.
Import Shape.

Local Open Scope Q_scope.

(** ** The exponential, as an interface *)

Class QExp := {
  qexp : Q -> Q;
  qexp_pos : forall x, 0 < qexp x;
  qexp_mono : forall x y, x < y -> qexp x < qexp y;
  qexp_proper :: Proper (Qeq ==> Qeq) qexp
}.

(** A rational stand-in for [exp]: [1 + x] on [x >= 0], [1 / (1 - x)]
    below; positive and strictly increasing like [exp]. *)
Definition exp_pw (x : Q) : Q := if Qle_bool 0 x then 1 + x else 1 / (1 - x).

(** ** Layers *)

Definition sumQ (l : list Q) : Q := foldr Qplus 0 l.

Definition dot (w x : list Q) : Q := sumQ (zip_with Qmult w x).

(** [nn.Linear]: [weight] has one row of [in_features] values per output. *)
Record linear := mk_linear { weight : list (list Q); bias : list Q }.

Definition linear_apply (L : linear) (x : list Q) : list Q :=
  zip_with (fun w b => dot w x + b) (weight L) (bias L).

Definition linear_wf (d : linear_dims) (L : linear) : Prop :=
  length (weight L) = out_features d /\ length (bias L) = out_features d /\
  Forall (fun w => length w = in_features d) (weight L).

(** [F.relu]. *)
Definition relu (x : list Q) : list Q := map (Qmax 0) x.

(** Elementwise sums and scalings of parameters, as gradients are added
    ([param.grad += g]) and optimizers combine them. *)
Definition vadd (x y : list Q) : list Q := zip_with Qplus x y.
Definition vscale (c : Q) (x : list Q) : list Q := map (Qmult c) x.

Definition linear_map2 (f : list Q -> list Q -> list Q) (L1 L2 : linear) : linear :=
  mk_linear (zip_with f (weight L1) (weight L2)) (f (bias L1) (bias L2)).

Section WithExp.
Context `{QExp}.

(** [F.softmax] of one row. *)
Definition softmax (x : list Q) : list Q :=
  let e := map qexp x in map (fun v => v / sumQ e) e.

(** [SimpleNet]: the two layers of [__init__] (lines 248-251). *)
Record simple_net := mk_net { fc1 : linear; fc2 : linear }.

Definition net_wf (n : simple_net) : Prop :=
  linear_wf fc1_dims (fc1 n) /\ linear_wf fc2_dims (fc2 n).

Definition net_map2 (f : list Q -> list Q -> list Q) (n1 n2 : simple_net) : simple_net :=
  mk_net (linear_map2 f (fc1 n1) (fc1 n2)) (linear_map2 f (fc2 n1) (fc2 n2)).

(** [p.grad += g] on every parameter. *)
Definition net_add : simple_net -> simple_net -> simple_net := net_map2 vadd.

(** A network whose parameters are all zero: concrete, well-formed
    parameters for runs of the model. *)
Definition zero_linear (d : linear_dims) : linear :=
  mk_linear (replicate (out_features d) (replicate (in_features d) 0))
            (replicate (out_features d) 0).
Definition zero_net : simple_net := mk_net (zero_linear fc1_dims) (zero_linear fc2_dims).

(** The body of [forward] on one row of the viewed input (lines 255-258). *)
Definition forward_row (n : simple_net) (x : list Q) : list Q :=
  softmax (linear_apply (fc2 n) (relu (linear_apply (fc1 n) x))).

(** A tensor of rationals: a shape and its row-major data. *)
Record qtensor := mk_qtensor { q_shape : shape; q_data : list Q }.

(** [SimpleNet.forward(x)] with the global [batch_size] (lines 253-259):
    the shape checks of [Shape.forward_shape], then the rows of
    [x.view(batch_size, -1)] through the layers.  The result is the
    [batch_size x 10] output as a list of rows. *)
Definition forward (n : simple_net) (batch_size : nat) (x : qtensor)
  : result (list (list Q)) :=
  _ ← forward_shape batch_size (q_shape x);
  mret (map (forward_row n) (chunk (in_features fc1_dims) (q_data x))).

End WithExp.

(** ** [argmax] and the loss *)

Fixpoint argmax_go (l : list Q) (i bi : nat) (bv : Q) : nat :=
  match l with
  | [] => bi
  | x :: l' =>
      if Qlt_le_dec bv x then argmax_go l' (S i) i x else argmax_go l' (S i) bi bv
  end.

(** [torch.argmax] of a row: the first index of a maximal value. *)
Definition argmax (l : list Q) : option nat :=
  match l with
  | [] => None
  | x :: l' => Some (argmax_go l' 1 0 x)
  end.

(** [F.nll_loss] of one row [p] and its target class [t]: [-p[t]]; a
    target out of range raises. *)
Definition nll_row (p : list Q) (t : nat) : result Q :=
  match p !! t with Some v => Ok (- v) | None => Err EIndex end.

(** [F.nll_loss(output, target, reduction='sum')]: the batch sizes of the
    output and of the targets must agree. *)
Definition nll_sum (out : list (list Q)) (targets : list nat) : result Q :=
  _ ← guard_or (bool_decide (length out = length targets)) EShape;
  fold_result (fun acc '(p, t) => l ← nll_row p t; mret (acc + l)) 0
    (zip out targets).

(** [F.nll_loss(output, target)]: the default reduction, the mean. *)
Definition nll_mean (out : list (list Q)) (targets : list nat) : result Q :=
  s ← nll_sum out targets; mret (s / inject_Z (Z.of_nat (length out))).

(** The specification of [torch.argmax]: [i] holds a maximal value and
    every earlier value is strictly smaller. *)
Definition is_first_max (l : list Q) (i : nat) : Prop :=
  exists v, l !! i = Some v /\
    (forall j w, l !! j = Some w -> w <= v) /\
    (forall j w, (j < i)%nat -> l !! j = Some w -> w < v).

(** ** Properties *)

Lemma Qdiv_lt_mono (a b s : Q) : 0 < s -> a < b -> a / s < b / s.
Proof.
  intros Hs Hab. unfold Qdiv. apply Qmult_lt_r; [apply Qinv_lt_0_compat|]; done.
Qed.

Lemma Qdiv_pos (a s : Q) : 0 < s -> 0 < a -> 0 < a / s.
Proof.
  intros Hs Ha. unfold Qdiv. apply Qmult_lt_0_compat; [done|].
  by apply Qinv_lt_0_compat.
Qed.

Lemma exp_pw_ge0 x : 0 <= x -> exp_pw x == 1 + x.
Proof. intros Hx. unfold exp_pw. by rewrite (proj2 (Qle_bool_iff 0 x) Hx). Qed.

Lemma exp_pw_lt0 x : x < 0 -> exp_pw x == 1 / (1 - x).
Proof.
  intros Hx. unfold exp_pw. destruct (Qle_bool 0 x) eqn:E; [|done].
  apply Qle_bool_iff in E. lra.
Qed.

Lemma exp_pw_neg_bounds x : x < 0 -> 0 < exp_pw x /\ exp_pw x < 1.
Proof.
  intros Hx. rewrite exp_pw_lt0 by done. split.
  - apply Qdiv_pos; lra.
  - apply Qlt_shift_div_r; lra.
Qed.

#[export] Program Instance exp_pw_QExp : QExp := {| qexp := exp_pw |}.
Next Obligation.
  intros x. destruct (Qlt_le_dec x 0) as [Hx|Hx].
  - apply exp_pw_neg_bounds, Hx.
  - rewrite exp_pw_ge0 by done. lra.
Qed.
Next Obligation.
  intros x y Hxy. destruct (Qlt_le_dec y 0) as [Hy|Hy].
  - rewrite !exp_pw_lt0 by lra. unfold Qdiv. rewrite !Qmult_1_l.
    apply (Qinv_lt_contravar (1 - y) (1 - x)); lra.
  - rewrite (exp_pw_ge0 y) by done. destruct (Qlt_le_dec x 0) as [Hx|Hx].
    + pose proof (exp_pw_neg_bounds x Hx). lra.
    + rewrite exp_pw_ge0 by done. lra.
Qed.
Next Obligation.
  intros x y Hxy. destruct (Qlt_le_dec x 0) as [Hx|Hx].
  - rewrite !exp_pw_lt0 by (rewrite <- ?Hxy; done). rewrite Hxy. done.
  - rewrite !exp_pw_ge0 by (rewrite <- ?Hxy; done). rewrite Hxy. done.
Qed.

Lemma sumQ_cons x l : sumQ (x :: l) = x + sumQ l.
Proof. reflexivity. Qed.

Lemma sumQ_app (l1 l2 : list Q) : sumQ (l1 ++ l2) == sumQ l1 + sumQ l2.
Proof. induction l1 as [|x l1 IH]; simpl; [lra|]. rewrite IH. lra. Qed.

(** A running sum written as a left fold, as the loops of the notebook
    accumulate it, is the sum of the list. *)
Lemma foldl_add_sumQ {A} (f : A -> Q) (a : Q) (l : list A) :
  foldl (fun acc x => acc + f x) a l == a + sumQ (map f l).
Proof.
  revert a. induction l as [|x l IH]; intros a; simpl; [lra|].
  rewrite IH. lra.
Qed.

Lemma sumQ_map_div (l : list Q) (s : Q) :
  ~ s == 0 -> sumQ (map (fun v => v / s) l) == sumQ l / s.
Proof.
  intros Hs. induction l as [|x l IH]; simpl.
  - field. done.
  - rewrite IH. field. done.
Qed.

Lemma sumQ_pos (l : list Q) :
  l <> [] -> Forall (fun v => 0 < v) l -> 0 < sumQ l.
Proof.
  induction l as [|x l IH]; [done|]. intros _ Hl. inversion Hl; subst.
  simpl. destruct l as [|y l].
  - simpl. lra.
  - specialize (IH ltac:(done) ltac:(done)). lra.
Qed.

Lemma sumQ_nonneg (l : list Q) : Forall (fun v => 0 <= v) l -> 0 <= sumQ l.
Proof.
  induction 1 as [|x l Hx Hl IH]; simpl; lra.
Qed.

Lemma sumQ_elem_le (l : list Q) (v : Q) :
  Forall (fun v => 0 <= v) l -> v ∈ l -> v <= sumQ l.
Proof.
  induction 1 as [|x l Hx Hl IH]; [set_solver|]. simpl.
  intros [->|Hin]%elem_of_cons.
  - pose proof (sumQ_nonneg l Hl). lra.
  - specialize (IH Hin). lra.
Qed.

Lemma zero_linear_wf d : linear_wf d (zero_linear d).
Proof.
  unfold linear_wf, zero_linear. simpl. rewrite !length_replicate.
  split_and!; [done|done|]. apply Forall_replicate. apply length_replicate.
Qed.

Lemma zero_net_wf : net_wf zero_net.
Proof. split; apply zero_linear_wf. Qed.
#[export] Hint Resolve zero_net_wf : gpu.

Lemma Forall_zip_with_len {A} (f : list A -> list A -> list A) (k : nat)
    (W1 W2 : list (list A)) :
  (forall x y, length x = length y -> length (f x y) = length x) ->
  length W1 = length W2 ->
  Forall (fun w => length w = k) W1 -> Forall (fun w => length w = k) W2 ->
  Forall (fun w => length w = k) (zip_with f W1 W2).
Proof.
  intros Hf. revert W2. induction W1 as [|w1 W1 IH]; intros [|w2 W2] Hl H1 H2;
    simpl in *; try done.
  inversion H1; inversion H2; subst. constructor; [rewrite Hf; lia|].
  apply IH; [lia|done|done].
Qed.

(** Combining two well-formed layers entry by entry keeps the shapes. *)
Lemma linear_map2_wf (f : list Q -> list Q -> list Q) d L1 L2 :
  (forall x y, length x = length y -> length (f x y) = length x) ->
  linear_wf d L1 -> linear_wf d L2 -> linear_wf d (linear_map2 f L1 L2).
Proof.
  intros Hf (Hw1 & Hb1 & Hr1) (Hw2 & Hb2 & Hr2). unfold linear_wf, linear_map2. simpl.
  split_and!.
  - rewrite length_zip_with. lia.
  - rewrite Hf; lia.
  - apply Forall_zip_with_len; [done|lia|done|done].
Qed.

Lemma net_map2_wf (f : list Q -> list Q -> list Q) n1 n2 :
  (forall x y, length x = length y -> length (f x y) = length x) ->
  net_wf n1 -> net_wf n2 -> net_wf (net_map2 f n1 n2).
Proof. intros Hf [? ?] [? ?]. split; by apply linear_map2_wf. Qed.

Lemma vadd_length x y : length x = length y -> length (vadd x y) = length x.
Proof. intros. unfold vadd. rewrite length_zip_with. lia. Qed.

Section WithExpProps.
Context `{QExp}.

Lemma qexp_all_pos (x : list Q) : Forall (fun v => 0 < v) (map qexp x).
Proof. apply Forall_map, Forall_forall. intros. apply qexp_pos. Qed.

Lemma sum_exp_pos (x : list Q) : x <> [] -> 0 < sumQ (map qexp x).
Proof.
  intros Hx. apply sumQ_pos; [|apply qexp_all_pos].
  destruct x; simpl; done.
Qed.

Lemma softmax_sum (x : list Q) : x <> [] -> sumQ (softmax x) == 1.
Proof.
  intros Hx. unfold softmax. pose proof (sum_exp_pos x Hx).
  rewrite sumQ_map_div by lra. field. lra.
Qed.

End WithExpProps.

(** Each row of [F.softmax] sums to one. *)
Theorem softmax_sum_one `{QExp} (x : list Q) : x <> [] -> sumQ (softmax x) == 1.
Proof. apply softmax_sum. Qed.

Lemma softmax_sum_one_witness : [1; 2; 0] <> [] /\ sumQ (softmax [1; 2; 0]) == 1.
Proof. split; [done|]. apply softmax_sum_one. done. Defined.

Section WithExpProps2.
Context `{QExp}.

(** Every value of a softmax row is a probability in [(0, 1]]. *)
Lemma softmax_bounds (x : list Q) (p : Q) :
  p ∈ softmax x -> 0 < p /\ p <= 1.
Proof.
  intros Hp. assert (Hx : x <> []) by (intros ->; set_solver).
  pose proof (sum_exp_pos x Hx) as Hs. unfold softmax in Hp.
  apply list_elem_of_In, in_map_iff in Hp as (v & <- & Hv%list_elem_of_In).
  assert (0 < v) by (eapply Forall_forall; [apply qexp_all_pos|done]).
  split; [by apply Qdiv_pos|]. apply Qle_shift_div_r; [done|].
  rewrite Qmult_1_l. apply sumQ_elem_le; [|done].
  eapply Forall_impl; [apply qexp_all_pos|]. intros ? Hq; cbv beta in *; lra.
Qed.

End WithExpProps2.

Lemma lookup_snoc_cases (p : list Q) (x : Q) (j : nat) (w : Q) :
  (p ++ [x]) !! j = Some w -> p !! j = Some w \/ (j = length p /\ w = x).
Proof.
  rewrite lookup_app. destruct (p !! j) eqn:E; [by left|].
  intros Hj. right. apply lookup_ge_None in E.
  destruct (j - length p)%nat as [|k] eqn:Ek; simpl in Hj; [|by rewrite lookup_nil in Hj].
  split; [lia|congruence].
Qed.

Lemma argmax_go_spec (l p : list Q) (bi : nat) (bv : Q) :
  p !! bi = Some bv ->
  (forall j w, p !! j = Some w -> w <= bv) ->
  (forall j w, (j < bi)%nat -> p !! j = Some w -> w < bv) ->
  is_first_max (p ++ l) (argmax_go l (length p) bi bv).
Proof.
  revert p bi bv. induction l as [|x l IH]; intros p bi bv Hb Hle Hlt; simpl.
  - rewrite app_nil_r. exists bv. done.
  - replace (p ++ x :: l) with ((p ++ [x]) ++ l) by (rewrite <- app_assoc; done).
    replace (S (length p)) with (length (p ++ [x])) by (rewrite length_app; simpl; lia).
    destruct (Qlt_le_dec bv x) as [Hx|Hx]; apply IH.
    + rewrite lookup_app_r, Nat.sub_diag by lia. done.
    + intros j w [Hj|[-> ->]]%lookup_snoc_cases; [|lra].
      specialize (Hle j w Hj). lra.
    + intros j w Hj [Hw|[-> ->]]%lookup_snoc_cases; [|lia].
      specialize (Hle j w Hw). lra.
    + apply lookup_app_l_Some. done.
    + intros j w [Hj|[-> ->]]%lookup_snoc_cases; [eauto|done].
    + intros j w Hj [Hw|[-> ->]]%lookup_snoc_cases; [eauto|].
      apply lookup_lt_Some in Hb. lia.
Qed.

(** C25: [argmax] returns the first index of a maximal value, and it returns
    one exactly when the row is not empty. *)
Theorem argmax_correct (l : list Q) (i : nat) :
  argmax l = Some i -> is_first_max l i.
Proof.
  destruct l as [|x l]; [done|]. intros [= <-].
  apply (argmax_go_spec l [x] 0 x); [done| |intros; lia].
  intros j w [-> ->]%list_lookup_singleton_Some. lra.
Qed.

Lemma argmax_correct_witness :
  argmax [1; 3; 3; 2] = Some 1%nat /\ is_first_max [1; 3; 3; 2] 1.
Proof. split; [reflexivity|]. apply argmax_correct. reflexivity. Defined.

Lemma argmax_None (l : list Q) : argmax l = None <-> l = [].
Proof. destruct l; done. Qed.

(** The index [argmax] returns is in range and holds a maximal value. *)
Lemma argmax_Some_max (l : list Q) (i : nat) :
  argmax l = Some i ->
  exists v, l !! i = Some v /\ forall j w, l !! j = Some w -> w <= v.
Proof.
  destruct l as [|x l]; [done|]. intros [= <-].
  destruct (argmax_go_spec l [x] 0 x) as (v & Hv & Hle & _); [done| |intros; lia|].
  - intros j w [-> ->]%list_lookup_singleton_Some. lra.
  - eauto.
Qed.

Lemma strict_mono_iff (f : Q -> Q) :
  Proper (Qeq ==> Qeq) f -> (forall a b, a < b -> f a < f b) ->
  forall a b, a < b <-> f a < f b.
Proof.
  intros Hp Hm a b. split; [apply Hm|]. intros Hf.
  destruct (Qlt_le_dec a b) as [|Hba]; [done|].
  apply Qle_lteq in Hba as [Hba|Hba].
  - specialize (Hm _ _ Hba). lra.
  - rewrite Hba in Hf. lra.
Qed.

Lemma argmax_go_map (f : Q -> Q) (l : list Q) (i bi : nat) (bv : Q) :
  (forall a b, a < b <-> f a < f b) ->
  argmax_go (map f l) i bi (f bv) = argmax_go l i bi bv.
Proof.
  intros Hf. revert i bi bv. induction l as [|x l IH]; intros i bi bv; simpl; [done|].
  destruct (Qlt_le_dec (f bv) (f x)) as [H1|H1], (Qlt_le_dec bv x) as [H2|H2];
    try (apply IH).
  - apply Hf in H1. lra.
  - apply Hf in H2. lra.
Qed.

(** A strictly increasing map of a row keeps its [argmax]. *)
Lemma argmax_map_mono (f : Q -> Q) (l : list Q) :
  Proper (Qeq ==> Qeq) f -> (forall a b, a < b -> f a < f b) ->
  argmax (map f l) = argmax l.
Proof.
  intros Hp Hm. destruct l as [|x l]; [done|]. simpl. f_equal.
  apply argmax_go_map, strict_mono_iff; done.
Qed.

Section WithExpArgmax.
Context `{QExp}.

(** C26: the class the notebook predicts is the same before and after
    [F.softmax]: [argmax] of a softmax row is [argmax] of the logits. *)
Theorem argmax_softmax (x : list Q) : argmax (softmax x) = argmax x.
Proof.
  destruct x as [|x0 x]; [done|]. pose proof (sum_exp_pos (x0 :: x) ltac:(done)) as Hs.
  unfold softmax. rewrite map_map.
  apply argmax_map_mono.
  - intros a b Hab. rewrite Hab. done.
  - intros a b Hab. apply Qdiv_lt_mono; [done|]. by apply qexp_mono.
Qed.

End WithExpArgmax.

Section WithExpArgmax2.
Context `{QExp}.

(** The loss of one softmax row is [-p[t]], a value in [[-1, 0)]. *)
Lemma nll_softmax_row (x : list Q) (t : nat) :
  (t < length x)%nat ->
  exists l, nll_row (softmax x) t = Ok l /\ -1 <= l /\ l < 0.
Proof.
  intros Ht. unfold nll_row.
  destruct (softmax x !! t) as [p|] eqn:E.
  - exists (- p). split; [done|].
    pose proof (softmax_bounds x p (list_elem_of_lookup_2 _ _ _ E)). lra.
  - apply lookup_ge_None in E. unfold softmax in E. rewrite !length_map in E. lia.
Qed.

Lemma linear_apply_length (d : linear_dims) (L : linear) (x : list Q) :
  linear_wf d L -> length (linear_apply L x) = out_features d.
Proof.
  intros (Hw & Hb & _). unfold linear_apply. rewrite length_zip_with. lia.
Qed.

Lemma forward_row_length (n : simple_net) (x : list Q) :
  net_wf n -> length (forward_row n x) = 10%nat.
Proof.
  intros [_ H2]. unfold forward_row, softmax. rewrite !length_map.
  apply (linear_apply_length fc2_dims). done.
Qed.

(** Every class probability the forward pass returns is in (0, 1]. *)
Lemma forward_row_bounds (n : simple_net) (x : list Q) (p : Q) :
  p ∈ forward_row n x -> 0 < p /\ p <= 1.
Proof. apply softmax_bounds. Qed.

(** C27: on a well-formed network and an input tensor of [batch_size * 784]
    values, [forward] returns [batch_size] rows of 10 probabilities, each
    row summing to one. *)
Theorem forward_spec (n : simple_net) (bs : nat) (x : qtensor) :
  (0 < bs)%nat -> net_wf n ->
  length (q_data x) = numel (q_shape x) -> numel (q_shape x) = (bs * 784)%nat ->
  exists rows, forward n bs x = Ok rows /\ length rows = bs /\
    Forall (fun r => length r = 10%nat /\ sumQ r == 1) rows.
Proof.
  intros Hbs Hn Hlen Hnum. unfold forward.
  rewrite forward_shape_eq, decide_True by done. simpl.
  eexists; split; [reflexivity|]. split.
  - rewrite length_map, length_chunk by (simpl; lia).
    change (in_features fc1_dims) with 784%nat.
    rewrite Hlen, Hnum. symmetry. apply (Nat.div_unique _ _ _ 783); lia.
  - apply Forall_map, Forall_forall. intros r Hr. split.
    + by apply forward_row_length.
    + apply softmax_sum. intros E.
      apply (f_equal length) in E. unfold relu in E.
      destruct Hn as [_ H2]. rewrite (linear_apply_length fc2_dims) in E; done.
Qed.

End WithExpArgmax2.

Lemma forward_spec_witness :
  (0 < 1)%nat /\ net_wf zero_net /\
  length (q_data (mk_qtensor [1; 1; 28; 28]%nat (replicate 784%nat 0))) =
    numel (q_shape (mk_qtensor [1; 1; 28; 28]%nat (replicate 784%nat 0))) /\
  numel (q_shape (mk_qtensor [1; 1; 28; 28]%nat (replicate 784%nat 0))) = (1 * 784)%nat /\
  exists rows, forward zero_net 1 (mk_qtensor [1; 1; 28; 28]%nat (replicate 784%nat 0)) = Ok rows /\
    length rows = 1%nat /\ Forall (fun r => length r = 10%nat /\ sumQ r == 1) rows.
Proof.
  split_and!; [gpu_side..|].
  apply forward_spec; gpu_side.
Defined.

End Net.
