(* ===== verification/Loader.v ===== *)
(** * [DataLoader] batching

    [torch.utils.data.DataLoader(dataset, batch_size=batch_size,
    shuffle=False, num_workers=2)] as the notebooks build it
    ([src/torch-use-gpu.ipynb] lines 321-331, [src/torch-test-model.ipynb]
    lines 172-175): the samples in dataset order, cut into consecutive
    batches of [batch_size], the last batch shorter when [batch_size] does
    not divide the dataset ([drop_last=False], the default).  Each batch is
    collated: the images stacked into a [b x 1 x 28 x 28] tensor, the labels
    into a vector.  Worker processes only change where batches are built,
    not which, so [num_workers] is not modelled. *)

From Stdlib Require Import QArith.
From stdpp Require Import base list option sets.
From S2P Require Import Prelude Shape Net.

Module Loader.
Import Shape Net.

(** A FashionMNIST sample after [transforms.ToTensor()]: 784 pixel values
    and a class index. *)
Record sample := mk_sample { s_image : list Q; s_label : nat }.

Definition sample_wf (s : sample) : Prop :=
  length (s_image s) = 784 /\ s_label s < 10.

(** A batch: the stacked images and the label vector. *)
Record batch := mk_batch { b_data : qtensor; b_target : list nat }.

(** The default collate function. *)
Definition collate (b : list sample) : batch :=
  mk_batch (mk_qtensor (batch_shape (length b)) (concat (map s_image b)))
           (map s_label b).

(** The loader: its dataset ([test_loader.dataset]) and batch size. *)
Record data_loader := mk_loader { dl_dataset : list sample; dl_batch_size : nat }.

(** [DataLoader(dataset, batch_size=bs, shuffle=False)]: a batch size of 0
    is rejected with a [ValueError]. *)
Definition DataLoader (ds : list sample) (bs : nat) : result data_loader :=
  _ ← guard_or (bool_decide (0 < bs)) EValue; mret (mk_loader ds bs).

(** Iterating over the loader ([for data, target in loader]). *)
Definition batches (dl : data_loader) : list batch :=
  map collate (chunk (dl_batch_size dl) (dl_dataset dl)).

(** The sizes of the two FashionMNIST splits. *)
#[warning="-abstract-large-number"]
Definition fashion_train_size : nat := 60000.
#[warning="-abstract-large-number"]
Definition fashion_test_size : nat := 10000.

(** Three samples, for concrete runs of the loader. *)
Definition three_samples : list sample :=
  [mk_sample [] 0; mk_sample [] 1; mk_sample [] 2].

(** ** Properties *)

Lemma DataLoader_Ok ds bs dl :
  DataLoader ds bs = Ok dl -> dl = mk_loader ds bs /\ 0 < bs.
Proof.
  unfold DataLoader. destruct (bool_decide (0 < bs)) eqn:E; simpl; [|done].
  apply bool_decide_eq_true in E. intros [= <-]. done.
Qed.

(** C28: the loader is a partition of the dataset in order: the labels of the
    batches, concatenated, are the labels of the dataset, and likewise the
    pixel data. *)
Theorem batches_roundtrip (dl : data_loader) :
  0 < dl_batch_size dl ->
  concat (map b_target (batches dl)) = map s_label (dl_dataset dl) /\
  concat (map (fun b => q_data (b_data b)) (batches dl)) =
    concat (map s_image (dl_dataset dl)).
Proof.
  intros Hbs. unfold batches. rewrite !map_map. simpl.
  pose proof (concat_chunk _ (dl_dataset dl) Hbs) as E.
  set (L := chunk (dl_batch_size dl) (dl_dataset dl)) in *.
  rewrite <- E. clearbody L. clear E.
  induction L as [|b L IH]; [done|]. simpl.
  rewrite !map_app, !concat_app. destruct IH as [-> ->]. done.
Qed.

Lemma batches_roundtrip_witness :
  0 < dl_batch_size (mk_loader three_samples 2) /\
  concat (map b_target (batches (mk_loader three_samples 2))) = [0; 1; 2] /\
  concat (map (fun b => q_data (b_data b)) (batches (mk_loader three_samples 2))) = [].
Proof.
  split; [simpl; lia|]. apply (batches_roundtrip (mk_loader three_samples 2)). simpl. lia.
Defined.

Lemma batch_shape_inj a b : batch_shape a = batch_shape b <-> a = b.
Proof. unfold batch_shape. split; [by intros [=]|by intros ->]. Qed.

(** C8: with [shuffle=False], every batch the loader yields has exactly
    [batch_size] samples if and only if [batch_size] divides the dataset
    size; otherwise the last batch is short. *)
Theorem batches_full_iff (dl : data_loader) :
  0 < dl_batch_size dl ->
  Forall (fun b => q_shape (b_data b) = batch_shape (dl_batch_size dl)) (batches dl) <->
  Nat.divide (dl_batch_size dl) (length (dl_dataset dl)).
Proof.
  intros Hbs. rewrite <- chunk_all_full by done. unfold batches.
  rewrite Forall_map. apply Forall_iff. intros b. simpl. apply batch_shape_inj.
Qed.

Lemma batches_full_iff_witness :
  0 < dl_batch_size (mk_loader three_samples 2) /\
  ~ Forall (fun b => q_shape (b_data b) = batch_shape 2) (batches (mk_loader three_samples 2)).
Proof.
  split; [simpl; lia|].
  rewrite (batches_full_iff (mk_loader three_samples 2)) by (simpl; lia).
  simpl. intros [k Hk]. lia.
Defined.

Lemma length_concat_images (b : list sample) :
  Forall sample_wf b -> length (concat (map s_image b)) = length b * 784.
Proof.
  induction 1 as [|s b [Hs _] _ IH]; [done|]. simpl.
  rewrite length_app, Hs, IH. lia.
Qed.

(** Each collated batch of well-formed samples is a well-formed tensor
    whose labels are class indices. *)
Lemma batch_wf (dl : data_loader) (b : batch) :
  Forall sample_wf (dl_dataset dl) -> b ∈ batches dl ->
  length (q_data (b_data b)) = numel (q_shape (b_data b)) /\
  Forall (fun t => t < 10) (b_target b).
Proof.
  intros Hwf Hb. unfold batches in Hb.
  apply list_elem_of_In, in_map_iff in Hb as (c & <- & Hc%list_elem_of_In).
  assert (Hcw : Forall sample_wf c).
  { apply Forall_forall. intros s Hs. eapply Forall_forall; [exact Hwf|].
    eapply chunk_elem_sub; [|exact Hs]. exact Hc. }
  simpl. split.
  - rewrite length_concat_images by done. unfold numel, batch_shape. simpl. lia.
  - apply Forall_map. eapply Forall_impl; [exact Hcw|]. intros s [_ Hs]. done.
Qed.

(** The batches of a well-formed dataset hold well-formed samples. *)
Lemma chunk_samples_wf (bs : nat) (ds : list sample) :
  Forall sample_wf ds -> Forall (Forall sample_wf) (chunk bs ds).
Proof.
  intros Hwf. apply Forall_forall. intros c Hc. apply Forall_forall. intros s Hs.
  eapply Forall_forall; [exact Hwf|]. eapply chunk_elem_sub; [exact Hc|exact Hs].
Qed.

(** A loader whose batch size divides a well-formed dataset yields full
    batches of well-formed samples. *)
Lemma DataLoader_chunks (ds : list sample) (bs : nat) (dl : data_loader) :
  DataLoader ds bs = Ok dl -> Forall sample_wf ds -> Nat.divide bs (length ds) ->
  dl = mk_loader ds bs /\ 0 < bs /\
  Forall (fun c => length c = bs /\ Forall sample_wf c) (chunk bs ds).
Proof.
  intros Hdl Hwf Hdiv. apply DataLoader_Ok in Hdl as [-> Hbs].
  split_and!; [done|done|]. apply Forall_and. split.
  - by apply chunk_all_full.
  - by apply chunk_samples_wf.
Qed.

(** With [batch_size=1] every sample is a batch of its own. *)
Lemma batches_size_one (ds : list sample) :
  batches (mk_loader ds 1) = map (fun s => collate [s]) ds.
Proof.
  unfold batches; simpl. induction ds as [|s ds IH]; [by rewrite chunk_nil|].
  rewrite chunk_cons by (lia || done). simpl. rewrite drop_0. by rewrite IH.
Qed.

(** C38: [len(train_loader)]: a loop over the loader runs
    [ceil(n / batch_size)] iterations for a dataset of [n] samples (600
    batches of 100 for the 60000 training images, 100 for the test set). *)
Theorem batches_count (ds : list sample) (bs : nat) (dl : data_loader) :
  DataLoader ds bs = Ok dl -> length (batches dl) = (length ds + bs - 1) / bs.
Proof.
  intros [-> Hbs]%DataLoader_Ok. unfold batches. simpl.
  by rewrite length_map, length_chunk.
Qed.

Lemma batches_count_witness :
  DataLoader three_samples 2 = Ok (mk_loader three_samples 2) /\
  length (batches (mk_loader three_samples 2)) = 2.
Proof.
  split; [reflexivity|]. by rewrite (batches_count three_samples 2).
Defined.

End Loader.
