(* ===== verification/Transform.v ===== *)
(** * torchvision transforms and the FashionMNIST dataset

    Lines 310-331 of [src/torch-use-gpu.ipynb] and 166-175 of
    [src/torch-test-model.ipynb] build
    [transforms.Compose([transforms.ToTensor(), transforms.Normalize((0.1307,),
    (0.3081,))])] and hand it to [datasets.FashionMNIST], whose
    [__getitem__] turns the stored 28 x 28 uint8 array into a PIL image of
    mode ['L'] and applies the transform.

    An image is a PIL image (height, width, row-major bytes) or a tensor.
    [ToTensor] maps a PIL image to a [1 x H x W] tensor of the bytes divided
    by 255 and raises [TypeError] on anything else; [Normalize] raises
    [TypeError] on a non-tensor, [ValueError] on a tensor of fewer than
    three dimensions or a zero standard deviation, and otherwise maps each
    value [x] to [(x - mean) / std] (one channel, as in the notebooks).
    [Compose] applies its transforms in order.  Values are exact rationals
    where torch computes in float32.

    The dataset is materialised eagerly: a transform error is raised when
    the dataset is built, where torch raises when the batch holding the
    sample is fetched; [fashion_mnist_samples] shows no such error happens
    for the notebooks' pipeline. *)

From Stdlib Require Import QArith Lqa ZArith.
From stdpp Require Import base list option sets.
From S2P Require Import Prelude Shape Net Loader.

Module Transform.
Import Shape Net Loader.
Local Open Scope gpu_scope.

(** ** Images and transforms *)

Inductive img :=
| PIL (h w : nat) (px : list Z)
| Tens (t : qtensor).

Inductive transform :=
| ToTensor
| Normalize (mean std : Q).

(** [transforms.ToTensor()] on a mode ['L'] image. *)
Definition to_tensor (i : img) : result img :=
  match i with
  | PIL h w px => mret (Tens (mk_qtensor [1; h; w] (map (fun b => inject_Z b / 255)%Q px)))
  | Tens _ => raise ETypeError
  end.

Definition normalize_px (mean std x : Q) : Q := ((x - mean) / std)%Q.

(** [transforms.Normalize((mean,), (std,))], checks in torchvision's order. *)
Definition normalize (mean std : Q) (i : img) : result img :=
  match i with
  | PIL _ _ _ => raise ETypeError
  | Tens t =>
      _ ← guard_or (bool_decide (3 <= length (q_shape t))) EValue;
      _ ← guard_or (negb (Qeq_bool std 0%Q)) EValue;
      mret (Tens (mk_qtensor (q_shape t) (map (normalize_px mean std) (q_data t))))
  end.

Definition apply_transform (t : transform) (i : img) : result img :=
  match t with
  | ToTensor => to_tensor i
  | Normalize mean std => normalize mean std i
  end.

(** [transforms.Compose(ts)(i)]. *)
Definition compose (ts : list transform) (i : img) : result img :=
  fold_result (fun i t => apply_transform t i) i ts.

(** The constants of lines 313 and 318. *)
Definition fmnist_mean : Q := 1307 # 10000.
Definition fmnist_std : Q := 3081 # 10000.

Definition train_transform : list transform := [ToTensor; Normalize fmnist_mean fmnist_std].
Definition test_transform : list transform := [ToTensor; Normalize fmnist_mean fmnist_std].

(** ** The dataset *)

(** A stored FashionMNIST record: 784 bytes and a class. *)
Record raw_sample := mk_raw { r_px : list Z; r_label : nat }.

Definition raw_wf (r : raw_sample) : Prop :=
  length (r_px r) = 784 /\ Forall (fun b => 0 <= b <= 255)%Z (r_px r) /\ r_label r < 10.

(** What the default collate takes from one item: a [1 x 28 x 28] tensor
    (anything else raises). *)
Definition to_sample (i : img) (label : nat) : result sample :=
  match i with
  | Tens t =>
      _ ← guard_or (bool_decide (q_shape t = image_shape)) EShape;
      mret (mk_sample (q_data t) label)
  | PIL _ _ _ => raise ETypeError
  end.

(** [dataset[i]]: the record as a 28 x 28 PIL image, transformed. *)
Definition getitem (tf : list transform) (r : raw_sample) : result sample :=
  i ← compose tf (PIL 28 28 (r_px r));
  to_sample i (r_label r).

(** [datasets.FashionMNIST(..., transform=tf)], all items in order. *)
Definition FashionMNIST (raw : list raw_sample) (tf : list transform) : result (list sample) :=
  map_result (getitem tf) raw.

(** The value a stored byte has after the notebooks' pipeline, and the
    sample they make of a record. *)
Definition fmnist_px (b : Z) : Q := normalize_px fmnist_mean fmnist_std (inject_Z b / 255)%Q.

Definition fmnist_sample (r : raw_sample) : sample :=
  mk_sample (map fmnist_px (r_px r)) (r_label r).

(** A black image of class 3, for concrete runs. *)
Definition raw0 : raw_sample := mk_raw (replicate 784 0%Z) 3.

(** ** Properties *)


Lemma getitem_notebook (r : raw_sample) :
  raw_wf r -> getitem train_transform r = Ok (fmnist_sample r).
Proof.
  intros (Hl & _ & _). unfold getitem, compose, train_transform. cbn.
  unfold normalize, guard_or. cbn. unfold to_sample.
  rewrite bool_decide_eq_true_2 by done. cbn. unfold fmnist_sample. by rewrite map_map.
Qed.

Lemma FashionMNIST_notebook (raw : list raw_sample) :
  Forall raw_wf raw -> FashionMNIST raw train_transform = Ok (map fmnist_sample raw).
Proof.
  intros Hraw. apply map_result_total. intros r Hr. apply getitem_notebook.
  by eapply Forall_forall.
Qed.

Lemma fmnist_sample_wf (r : raw_sample) : raw_wf r -> sample_wf (fmnist_sample r).
Proof. intros (Hl & _ & Hc). split; [simpl; by rewrite length_map|done]. Qed.

(** C12: with the notebooks' pipeline ([train_transform] and [test_transform]
    are the same [Compose]) and well-formed records, building the dataset
    raises nothing, keeps the records' order and classes, and yields
    well-formed samples (784 values, a class below 10): the hypothesis the
    loader, [train] and [test] theorems take. *)
Theorem fashion_mnist_spec (raw : list raw_sample) (tf : list transform) :
  tf = train_transform \/ tf = test_transform -> Forall raw_wf raw ->
  FashionMNIST raw tf = Ok (map fmnist_sample raw) /\
  Forall sample_wf (map fmnist_sample raw) /\
  map s_label (map fmnist_sample raw) = map r_label raw.
Proof.
  intros Htf Hraw. assert (tf = train_transform) as -> by (by destruct Htf).
  split_and!.
  - by apply FashionMNIST_notebook.
  - apply Forall_map. eapply Forall_impl; [exact Hraw|]. apply fmnist_sample_wf.
  - by rewrite map_map.
Qed.


Lemma raw0_wf : raw_wf raw0.
Proof.
  split_and!; [apply length_replicate|apply Forall_replicate; lia|unfold raw0; simpl; lia].
Qed.

#[export] Hint Resolve raw0_wf : gpu.

Lemma fashion_mnist_spec_witness :
  (test_transform = train_transform \/ test_transform = test_transform) /\
  Forall raw_wf [raw0; raw0] /\
  FashionMNIST [raw0; raw0] test_transform = Ok (map fmnist_sample [raw0; raw0]) /\
  Forall sample_wf (map fmnist_sample [raw0; raw0]) /\
  map s_label (map fmnist_sample [raw0; raw0]) = map r_label [raw0; raw0].
Proof.
  assert (Hw : Forall raw_wf [raw0; raw0]) by (apply Forall_replicate with (n := 2), raw0_wf).
  split; [by right|]. split; [exact Hw|].
  apply fashion_mnist_spec; [by right|exact Hw].
Defined.


End Transform.
