(* ===== verification/Model.v ===== *)
(** * The [SimpleNet] module object and the placement of batches

    The state a [torch.nn.Module] carries across the cells of
    [src/torch-use-gpu.ipynb]: its parameters, the device they live on, its
    training flag ([model.train()]/[model.eval()]) and the [.grad] of its
    parameters, which [backward] accumulates and [zero_grad] clears.  Also
    the moves [model.to(device)] (line 279), [data.to(device)],
    [target.to(device)] (lines 395, 417, 445) and the call [model(data)],
    which raises when the input is not on the model's device. *)

From Stdlib Require Import QArith.
From stdpp Require Import base list option sets.
From S2P Require Import Prelude Device Shape Net Loader.

Module Model.
Import Dev Shape Net Loader.

(** The module object. [m_grad] is [None] while no gradient is stored
    (PyTorch's [param.grad is None]). *)
Record model := mk_model {
  m_net : simple_net;
  m_device : device;
  m_training : bool;
  m_grad : option simple_net
}.

(** [SimpleNet()]: fresh parameters (torch's random initialisation, a
    parameter here), on the CPU, in training mode, without gradients. *)
Definition SimpleNet (init : simple_net) : model := mk_model init cpu true None.

(** [model.to(device)]. *)
Definition model_to (h : host) (m : model) (d : device) : result model :=
  d' ← resolve_device h d;
  mret (mk_model (m_net m) d' (m_training m) (m_grad m)).

(** [model.train()] and [model.eval()]. *)
Definition set_mode (b : bool) (m : model) : model :=
  mk_model (m_net m) (m_device m) b (m_grad m).

(** A batch with the devices of its two tensors. *)
Record placed := mk_placed {
  p_batch : batch;
  p_data_dev : device;
  p_target_dev : device
}.

(** The loader yields CPU tensors. *)
Definition from_loader (b : batch) : placed := mk_placed b cpu cpu.

(** [data, target = data.to(device), target.to(device)]. *)
Definition batch_to (h : host) (p : placed) (d : device) : result placed :=
  dd ← resolve_device h d;
  td ← resolve_device h d;
  mret (mk_placed (p_batch p) dd td).

(** [model(data)]: the input must be on the model's device; the forward
    pass reads the notebook's global [batch_size]. *)
Definition model_call `{QExp} (batch_size : nat) (m : model) (p : placed)
  : result (list (list Q)) :=
  _ ← guard_or (bool_decide (p_data_dev p = m_device m)) EDeviceMismatch;
  forward (m_net m) batch_size (b_data (p_batch p)).

(** ** Properties *)

Lemma model_to_device (h : host) (m0 m : model) (d : device) :
  model_to h m0 d = Ok m -> resolve_device h d = Ok (m_device m).
Proof. unfold model_to. destruct (resolve_device h d); [|done]. by intros [= <-]. Qed.

(** [model(data)] on a collated batch of any size other than the global
    [batch_size] raises a shape error. *)
Lemma model_call_short `{QExp} (bs : nat) (m : model) (c : list sample) (dd td : device) :
  m_device m = dd -> length c <> bs -> 0 < bs ->
  model_call bs m (mk_placed (collate c) dd td) = Err EShape.
Proof.
  intros Hdev Hlen Hbs. unfold model_call. simpl. rewrite bool_decide_eq_true_2 by done.
  simpl. unfold forward. simpl. by rewrite forward_batch_shape, decide_False.
Qed.

(** C18: once the model is moved to a device with [model.to(device)], moving
    any batch with [.to(device)] succeeds and puts data and target on the
    model's device, so [model(data)] never raises a device mismatch. *)
Theorem placement_consistent (h : host) (m m' : model) (d : device) (b : placed) :
  model_to h m d = Ok m' ->
  exists b', batch_to h b d = Ok b' /\
    p_data_dev b' = m_device m' /\ p_target_dev b' = m_device m' /\
    p_batch b' = p_batch b.
Proof.
  unfold model_to, batch_to. destruct (resolve_device h d) as [d'|]; [|done].
  simpl. intros [= <-]. eexists. split; [reflexivity|]. done.
Qed.

Lemma placement_consistent_witness :
  model_to gpu_host (SimpleNet zero_net) cuda0 = Ok (mk_model zero_net cuda0 true None) /\
  exists b', batch_to gpu_host (from_loader (collate [])) cuda0 = Ok b' /\
    p_data_dev b' = cuda0 /\ p_target_dev b' = cuda0 /\ p_batch b' = collate [].
Proof.
  split; [reflexivity|].
  apply (placement_consistent gpu_host (SimpleNet zero_net) (mk_model zero_net cuda0 true None)).
  reflexivity.
Defined.

End Model.
