(* ===== verification/Eval.v ===== *)
(** * The evaluation loop [test]

    [test(model, device, test_loader)] of [src/torch-use-gpu.ipynb] (the
    definition at lines 437-455, which replaces the identical one at lines
    410-427): switch to [model.eval()], then for each batch move it to the
    device, run the model, add the summed [F.nll_loss] of the batch to
    [test_loss], take [output.argmax(dim=1)] as the prediction and count
    the predictions equal to the target; finally divide the loss by the
    dataset size.  The [print] of the report is modelled by returning the
    report.  [torch.no_grad()] only disables gradient recording: [test]
    never touches [m_grad].

    The reference [spec_correct]/[spec_loss] is the same evaluation done
    sample by sample; [test_refines] shows the batched loop computes it. *)

From Stdlib Require Import QArith Lqa.
From stdpp Require Import base list option sets.
From S2P Require Import Prelude Device Shape Net Loader Model.

Module Eval.
Import Dev Shape Net Loader Model.

Local Open Scope Q_scope.

(** What [test] prints: the average loss, the correct count, the total. *)
Record report := mk_report { avg_loss : Q; correct : nat; total : nat }.

(** [output.argmax(dim=1, keepdim=True)]. *)
Definition argmax_rows (out : list (list Q)) : result (list nat) :=
  map_result (fun r => match argmax r with Some i => Ok i | None => Err EIndex end) out.

(** [pred.eq(target.view_as(pred)).sum().item()]: [view_as] needs as many
    targets as predictions. *)
Definition count_eq (preds targets : list nat) : result nat :=
  _ ← guard_or (bool_decide (length preds = length targets)) EShape;
  mret (length (filter (fun pt => pt.1 = pt.2) (zip preds targets))).

Section WithExp.
Context `{QExp}.

(** The body of the [for data, target in test_loader] loop (lines
    444-449); the accumulator is [(test_loss, correct)]. *)
Definition test_batch (h : host) (batch_size : nat) (device : device) (m : model)
    (acc : Q * nat) (b : batch) : result (Q * nat) :=
  p ← batch_to h (from_loader b) device;
  out ← model_call batch_size m p;
  _ ← guard_or (bool_decide (p_target_dev p = m_device m)) EDeviceMismatch;
  l ← nll_sum out (b_target (p_batch p));
  pred ← argmax_rows out;
  c ← count_eq pred (b_target (p_batch p));
  mret (acc.1 + l, (acc.2 + c)%nat).

(** [test(model, device, test_loader)] (lines 437-455).  Dividing by
    [len(test_loader.dataset)] raises on an empty dataset. *)
Definition test (h : host) (batch_size : nat) (m : model) (device : device)
    (dl : data_loader) : result (model * report) :=
  let m' := set_mode false m in
  '(loss, correct) ← fold_result (test_batch h batch_size device m') (0, 0%nat)
                       (batches dl);
  let n := length (dl_dataset dl) in
  _ ← guard_or (bool_decide (n <> 0%nat)) EZeroDivision;
  mret (m', mk_report (loss / inject_Z (Z.of_nat n)) correct n).

(** The first definition of [test] (lines 410-427), which the cell of
    lines 437-455 redefines; only the docstring and comments differ. *)
Definition test_first (h : host) (batch_size : nat) (m : model) (device : device)
    (dl : data_loader) : result (model * report) :=
  let m' := set_mode false m in
  '(loss, correct) ← fold_result (test_batch h batch_size device m') (0, 0%nat)
                       (batches dl);
  let n := length (dl_dataset dl) in
  _ ← guard_or (bool_decide (n <> 0%nat)) EZeroDivision;
  mret (m', mk_report (loss / inject_Z (Z.of_nat n)) correct n).

(** The per-sample reference: the model's output row for one sample, the
    loss [F.nll_loss] charges for it, and whether it is classified right. *)
Definition sample_out (n : simple_net) (s : sample) : list Q :=
  forward_row n (s_image s).

Definition sample_loss (n : simple_net) (s : sample) : Q :=
  - default 0 (sample_out n s !! s_label s).

Definition sample_correct (n : simple_net) (s : sample) : bool :=
  bool_decide (argmax (sample_out n s) = Some (s_label s)).

Definition spec_loss (n : simple_net) (ds : list sample) : Q :=
  sumQ (map (sample_loss n) ds).

Definition spec_correct (n : simple_net) (ds : list sample) : nat :=
  length (filter (fun s => sample_correct n s = true) ds).

(** A report of [test] is the one the reference gives for parameters [n]
    on the test set [ds]. *)
Definition report_matches (n : simple_net) (ds : list sample) (r : report) : Prop :=
  avg_loss r == spec_loss n ds / inject_Z (Z.of_nat (length ds)) /\
  correct r = spec_correct n ds /\ total r = length ds.

End WithExp.

(** One well-formed test sample: a blank image of class 3 ("Dress"). *)
Definition one_sample : list sample := [mk_sample (replicate 784 0) 3].

(** ** Properties *)

Lemma count_filter_zip {A} (f g : A -> nat) (P : A -> Prop)
    `{forall x, Decision (P x)} (c : list A) :
  (forall s, f s = g s <-> P s) ->
  length (filter (fun pt => pt.1 = pt.2) (zip (map f c) (map g c))) =
    length (filter P c).
Proof.
  intros HP. induction c as [|a c IH]; [done|]. simpl. rewrite !filter_cons. simpl.
  destruct (decide (f a = g a)) as [E|E], (decide (P a)) as [F|F]; simpl.
  - by rewrite IH.
  - exfalso. by apply F, HP.
  - exfalso. by apply E, HP.
  - exact IH.
Qed.

Section TestLemmas.
Context `{QExp}.
Variable n : simple_net.
Hypothesis Hn : net_wf n.

Lemma sample_out_length (s : sample) : length (sample_out n s) = 10%nat.
Proof. by apply forward_row_length. Qed.

Lemma nll_row_sample (s : sample) :
  sample_wf s -> nll_row (sample_out n s) (s_label s) = Ok (sample_loss n s).
Proof.
  intros [_ Hl]. unfold nll_row, sample_loss.
  destruct (sample_out n s !! s_label s) eqn:E; [done|].
  apply lookup_ge_None in E. rewrite sample_out_length in E. lia.
Qed.

Lemma nll_fold_samples (c : list sample) (a : Q) :
  Forall sample_wf c ->
  fold_result (fun acc '(p, t) => l ← nll_row p t; mret (acc + l)) a
    (zip (map (sample_out n) c) (map s_label c)) =
  Ok (foldl (fun acc s => acc + sample_loss n s) a c).
Proof.
  intros Hc. revert a. induction Hc as [|s c Hs Hc IH]; intros a; [done|].
  simpl. rewrite nll_row_sample by done. apply IH.
Qed.

Lemma nll_sum_samples (c : list sample) :
  Forall sample_wf c ->
  nll_sum (map (sample_out n) c) (map s_label c) =
    Ok (foldl (fun acc s => acc + sample_loss n s) 0 c).
Proof.
  intros Hc. unfold nll_sum. rewrite !length_map, bool_decide_eq_true_2 by done.
  apply nll_fold_samples, Hc.
Qed.

Lemma argmax_sample (s : sample) :
  exists i, argmax (sample_out n s) = Some i.
Proof.
  destruct (argmax (sample_out n s)) eqn:E; [eauto|].
  apply argmax_None in E. apply (f_equal length) in E.
  rewrite sample_out_length in E. done.
Qed.

Lemma argmax_rows_samples (c : list sample) :
  argmax_rows (map (sample_out n) c) =
    Ok (map (fun s => default 0%nat (argmax (sample_out n s))) c).
Proof.
  unfold argmax_rows. induction c as [|s c IH]; [done|]. simpl.
  destruct (argmax_sample s) as [i Hi]. rewrite Hi. simpl. rewrite IH. done.
Qed.

Lemma count_eq_samples (c : list sample) :
  count_eq (map (fun s => default 0%nat (argmax (sample_out n s))) c) (map s_label c) =
    Ok (spec_correct n c).
Proof.
  unfold count_eq, spec_correct. rewrite !length_map, bool_decide_eq_true_2 by done.
  simpl. f_equal. apply count_filter_zip. intros s.
  unfold sample_correct. destruct (argmax_sample s) as [i Hi]. rewrite Hi. simpl.
  rewrite bool_decide_eq_true. split; congruence.
Qed.

Lemma model_call_collate (bs : nat) (m : model) (c : list sample) (dd td : device) :
  m_net m = n -> m_device m = dd -> length c = bs -> (0 < bs)%nat ->
  Forall sample_wf c ->
  model_call bs m (mk_placed (collate c) dd td) = Ok (map (sample_out n) c).
Proof.
  intros Hnet Hdev Hlen Hbs Hc. unfold model_call. simpl.
  rewrite bool_decide_eq_true_2 by done. simpl. unfold forward. simpl.
  rewrite forward_batch_shape, decide_True by done. simpl.
  rewrite chunk_concat, Hnet, map_map; [done|simpl; lia|].
  apply Forall_map. eapply Forall_impl; [exact Hc|]. by intros s [? _].
Qed.

Variables (h : host) (d d' : device).
Hypothesis Hd : resolve_device h d = Ok d'.

Lemma test_batch_collate (bs : nat) (m : model) (acc : Q * nat) (c : list sample) :
  m_net m = n -> m_device m = d' -> length c = bs -> (0 < bs)%nat ->
  Forall sample_wf c ->
  test_batch h bs d m acc (collate c) =
    Ok (acc.1 + foldl (fun a s => a + sample_loss n s) 0 c,
        (acc.2 + spec_correct n c)%nat).
Proof.
  intros Hnet Hdev Hlen Hbs Hc. unfold test_batch, batch_to. rewrite Hd. simpl.
  rewrite model_call_collate by done. simpl.
  rewrite bool_decide_eq_true_2 by done. simpl.
  rewrite nll_sum_samples by done. simpl.
  rewrite argmax_rows_samples. simpl. rewrite count_eq_samples. done.
Qed.

Lemma spec_loss_app (l1 l2 : list sample) :
  spec_loss n (l1 ++ l2) == spec_loss n l1 + spec_loss n l2.
Proof. unfold spec_loss. rewrite map_app. apply sumQ_app. Qed.

Lemma spec_correct_app (l1 l2 : list sample) :
  spec_correct n (l1 ++ l2) = (spec_correct n l1 + spec_correct n l2)%nat.
Proof. unfold spec_correct. rewrite filter_app, length_app. done. Qed.

(** The loop over full batches accumulates the per-sample reference. *)
Lemma test_fold (bs : nat) (m : model) (L : list (list sample)) (acc : Q * nat) :
  m_net m = n -> m_device m = d' -> (0 < bs)%nat ->
  Forall (fun c => length c = bs /\ Forall sample_wf c) L ->
  exists r, fold_result (test_batch h bs d m) acc (map collate L) = Ok r /\
    r.1 == acc.1 + spec_loss n (concat L) /\
    r.2 = (acc.2 + spec_correct n (concat L))%nat.
Proof.
  intros Hnet Hdev Hbs HL. revert acc.
  induction HL as [|c L [Hlen Hc] HL IH]; intros [a k].
  - exists (a, k). simpl. split; [done|]. unfold spec_loss, spec_correct. simpl.
    split; [lra|lia].
  - simpl. rewrite test_batch_collate by done. simpl.
    destruct (IH (a + foldl (fun a s => a + sample_loss n s) 0 c,
                  (k + spec_correct n c)%nat)) as (r & Hr & H1 & H2).
    exists r. split; [done|]. simpl in H1, H2.
    rewrite spec_loss_app, spec_correct_app, H1, foldl_add_sumQ. split; [|lia].
    unfold spec_loss. lra.
Qed.

Lemma test_batch_short (bs : nat) (m : model) (acc : Q * nat) (c : list sample) :
  m_device m = d' -> length c <> bs -> (0 < bs)%nat ->
  test_batch h bs d m acc (collate c) = Err EShape.
Proof.
  intros Hdev Hlen Hbs. unfold test_batch, batch_to. rewrite Hd. simpl.
  by rewrite model_call_short.
Qed.

(** A test loop that reaches a batch of the wrong size raises there. *)
Lemma test_fold_short (bs : nat) (m : model) (L : list (list sample)) (acc : Q * nat) :
  m_net m = n -> m_device m = d' -> (0 < bs)%nat ->
  Forall (Forall sample_wf) L -> Exists (fun c => length c <> bs) L ->
  fold_result (test_batch h bs d m) acc (map collate L) = Err EShape.
Proof.
  intros Hnet Hdev Hbs HL HE. revert acc.
  induction HL as [|c L Hc HL IH]; intros acc; [by inversion HE|].
  cbn [map fold_result]. destruct (decide (length c = bs)) as [Hlen|Hlen].
  - rewrite test_batch_collate by done. simpl. by apply IH; inversion HE.
  - by rewrite test_batch_short.
Qed.

Lemma sample_loss_bounds (s : sample) :
  sample_wf s -> -1 <= sample_loss n s /\ sample_loss n s < 0.
Proof.
  intros Hs. pose proof (nll_row_sample s Hs) as E.
  destruct (nll_softmax_row (linear_apply (fc2 n) (relu (linear_apply (fc1 n) (s_image s))))
              (s_label s)) as (l & El & Hl).
  { rewrite (linear_apply_length fc2_dims) by apply Hn. destruct Hs as [_ ?]. done. }
  unfold sample_out, forward_row in E. rewrite El in E. injection E as <-. done.
Qed.

Lemma inject_nat_S (k : nat) : inject_Z (Z.of_nat (S k)) == inject_Z (Z.of_nat k) + 1.
Proof. rewrite Nat2Z.inj_succ, <- Z.add_1_r, inject_Z_plus. reflexivity. Qed.

Lemma spec_loss_bounds (ds : list sample) :
  Forall sample_wf ds ->
  - inject_Z (Z.of_nat (length ds)) <= spec_loss n ds /\
  (ds <> [] -> spec_loss n ds < 0).
Proof.
  induction 1 as [|s ds Hs Hds IH]; [split; [done|done]|].
  unfold spec_loss in *. simpl. rewrite inject_nat_S.
  pose proof (sample_loss_bounds s Hs). destruct IH as [IH1 IH2].
  split; [lra|]. intros _. destruct ds as [|s' ds]; simpl in *; [lra|].
  specialize (IH2 ltac:(done)). lra.
Qed.

Lemma spec_correct_le (ds : list sample) : (spec_correct n ds <= length ds)%nat.
Proof. unfold spec_correct. apply length_filter. Qed.

End TestLemmas.

Lemma one_sample_wf : Forall sample_wf one_sample.
Proof. constructor; [|constructor]. split; [apply length_replicate|simpl; lia]. Qed.

#[export] Hint Resolve one_sample_wf : gpu.

(** [test] on a model already on [device]. *)
Lemma test_on_device `{QExp} (h : host) (bs : nat) (m : model) (d : device)
    (ds : list sample) (dl : data_loader) :
  resolve_device h d = Ok (m_device m) -> net_wf (m_net m) ->
  DataLoader ds bs = Ok dl -> Forall sample_wf ds ->
  Nat.divide bs (length ds) -> length ds <> 0%nat ->
  exists r, test h bs m d dl = Ok (set_mode false m, r) /\
    avg_loss r == spec_loss (m_net m) ds / inject_Z (Z.of_nat (length ds)) /\
    correct r = spec_correct (m_net m) ds /\ total r = length ds.
Proof.
  intros Hd Hn Hdl Hwf Hdiv Hne.
  destruct (DataLoader_chunks ds bs dl Hdl Hwf Hdiv) as (-> & Hbs & Hch).
  destruct (test_fold (m_net m) Hn h d (m_device m) Hd bs (set_mode false m) (chunk bs ds) (0, 0%nat))
    as (r & Hr & H1 & H2); [done|done|done|done|].
  rewrite concat_chunk in H1, H2 by done.
  unfold test, batches. simpl. rewrite Hr. destruct r as [loss corr]. simpl in *.
  rewrite bool_decide_eq_true_2 by done. simpl.
  eexists. split; [reflexivity|]. simpl. split; [|lia]. rewrite H1. unfold Qdiv. lra.
Qed.

(** Redefining [test] at line 437 does not change the function the epoch
    loop calls. *)
Remark test_redefinition_same : test_first = test.
Proof. reflexivity. Qed.

(** C4: [test] computes, batch by batch, the same loss and accuracy as
    evaluating the model on each test sample separately: when the model and
    the batches are moved to the same device, the samples are well formed
    and the batch size divides the dataset, [test] returns (it raises no
    error) the mean per-sample loss and the number of samples whose
    [argmax] is their label, and leaves the parameters and gradients of the
    model untouched. *)
Theorem test_refines `{QExp} (h : host) (bs : nat) (m0 m : model) (d : device)
    (ds : list sample) (dl : data_loader) :
  model_to h m0 d = Ok m -> net_wf (m_net m) ->
  DataLoader ds bs = Ok dl -> Forall sample_wf ds ->
  Nat.divide bs (length ds) -> length ds <> 0%nat ->
  exists r, test h bs m d dl = Ok (set_mode false m, r) /\
    avg_loss r == spec_loss (m_net m) ds / inject_Z (Z.of_nat (length ds)) /\
    correct r = spec_correct (m_net m) ds /\ total r = length ds.
Proof. intros Hm. apply test_on_device. by eapply model_to_device. Qed.

Lemma test_refines_witness :
  model_to gpu_host (SimpleNet zero_net) cuda0 = Ok (mk_model zero_net cuda0 true None) /\
  net_wf zero_net /\
  DataLoader one_sample 1 = Ok (mk_loader one_sample 1) /\
  Forall sample_wf one_sample /\ Nat.divide 1 (length one_sample) /\
  length one_sample <> 0%nat /\
  exists r, test gpu_host 1 (mk_model zero_net cuda0 true None) cuda0
              (mk_loader one_sample 1) =
            Ok (set_mode false (mk_model zero_net cuda0 true None), r) /\
    avg_loss r == spec_loss zero_net one_sample / inject_Z (Z.of_nat (length one_sample)) /\
    correct r = spec_correct zero_net one_sample /\ total r = length one_sample.
Proof.
  split_and!; [gpu_side..|].
  apply (test_refines gpu_host 1 (SimpleNet zero_net));
    gpu_side.
Defined.

(** [test] on a model already on [device], with the bounds of its report. *)
Lemma test_on_device_bounds `{QExp} (h : host) (bs : nat) (m : model) (d : device)
    (ds : list sample) (dl : data_loader) :
  resolve_device h d = Ok (m_device m) -> net_wf (m_net m) ->
  DataLoader ds bs = Ok dl -> Forall sample_wf ds ->
  Nat.divide bs (length ds) -> length ds <> 0%nat ->
  exists r, test h bs m d dl = Ok (set_mode false m, r) /\
    avg_loss r == spec_loss (m_net m) ds / inject_Z (Z.of_nat (length ds)) /\
    correct r = spec_correct (m_net m) ds /\ total r = length ds /\
    (correct r <= total r)%nat /\ -1 <= avg_loss r /\ avg_loss r < 0.
Proof.
  intros Hd Hn Hdl Hwf Hdiv Hne.
  destruct (test_on_device h bs m d ds dl) as (r & Hr & Hl & Hc & Ht); try done.
  exists r. do 4 (split; [done|]). split; [rewrite Hc, Ht; apply spec_correct_le|].
  destruct (spec_loss_bounds (m_net m) Hn ds Hwf) as [Hlo Hhi].
  assert (HN : 0 < inject_Z (Z.of_nat (length ds))).
  { change 0 with (inject_Z 0). rewrite <- Zlt_Qlt. lia. }
  rewrite Hl. split.
  - apply Qle_shift_div_l; [done|]. lra.
  - apply Qlt_shift_div_r; [done|]. rewrite Qmult_0_l.
    apply Hhi. destruct ds; done.
Qed.

(** C5: the report [test] prints after training is bounded: the correct
    count is at most the dataset size, and the "Average loss" lies in
    [[-1, 0)]: the notebook applies [F.nll_loss] to softmax probabilities,
    not to log-probabilities, so the printed loss is minus the mean
    probability of the true class, never a positive cross-entropy. *)
Corollary test_report_bounds `{QExp} (h : host) (bs : nat) (m0 m : model)
    (d : device) (ds : list sample) (dl : data_loader) :
  model_to h m0 d = Ok m -> net_wf (m_net m) ->
  DataLoader ds bs = Ok dl -> Forall sample_wf ds ->
  Nat.divide bs (length ds) -> length ds <> 0%nat ->
  exists r, test h bs m d dl = Ok (set_mode false m, r) /\
    (correct r <= total r)%nat /\ -1 <= avg_loss r /\ avg_loss r < 0.
Proof.
  intros Hm Hn Hdl Hwf Hdiv Hne.
  destruct (test_on_device_bounds h bs m d ds dl) as (r & Hr & _ & _ & _ & Hb);
    try done; [by eapply model_to_device|].
  by exists r.
Qed.

Lemma test_report_bounds_witness :
  model_to gpu_host (SimpleNet zero_net) cuda0 = Ok (mk_model zero_net cuda0 true None) /\
  net_wf zero_net /\
  DataLoader one_sample 1 = Ok (mk_loader one_sample 1) /\
  Forall sample_wf one_sample /\ Nat.divide 1 (length one_sample) /\
  length one_sample <> 0%nat /\
  exists r, test gpu_host 1 (mk_model zero_net cuda0 true None) cuda0
              (mk_loader one_sample 1) =
            Ok (set_mode false (mk_model zero_net cuda0 true None), r) /\
    (correct r <= total r)%nat /\ -1 <= avg_loss r /\ avg_loss r < 0.
Proof.
  split_and!; [gpu_side..|].
  apply (test_report_bounds gpu_host 1 (SimpleNet zero_net) _ cuda0 one_sample);
    gpu_side.
Defined.

(** C10: the coupling of the global [batch_size] with the test set: when
    [batch_size] does not divide the number of test samples, the test
    loader's last batch is short, [model(data)] views it with the global
    [batch_size], and [test] raises a shape error instead of printing a
    report (with [test_refines], [test] on well-formed samples succeeds
    exactly when [batch_size] divides a nonempty test set). *)
Theorem test_short_batch_fails `{QExp} (h : host) (bs : nat) (m0 m : model) (d : device)
    (ds : list sample) (dl : data_loader) :
  model_to h m0 d = Ok m -> net_wf (m_net m) ->
  DataLoader ds bs = Ok dl -> Forall sample_wf ds -> ~ Nat.divide bs (length ds) ->
  test h bs m d dl = Err EShape.
Proof.
  intros Hm Hn Hdl Hwf Hdiv. apply DataLoader_Ok in Hdl as [-> Hbs].
  unfold test, batches. simpl.
  assert (Hd : resolve_device h d = Ok (m_device m)) by (by eapply model_to_device).
  rewrite (test_fold_short (m_net m) Hn h d (m_device m) Hd bs (set_mode false m));
    [done|done|done|done|by apply chunk_samples_wf|].
  apply not_Forall_Exists; [apply _|]. by rewrite chunk_all_full.
Qed.

Lemma test_short_batch_fails_witness :
  model_to gpu_host (SimpleNet zero_net) cuda0 = Ok (mk_model zero_net cuda0 true None) /\
  net_wf zero_net /\
  DataLoader one_sample 2 = Ok (mk_loader one_sample 2) /\
  Forall sample_wf one_sample /\ ~ Nat.divide 2 (length one_sample) /\
  test gpu_host 2 (mk_model zero_net cuda0 true None) cuda0 (mk_loader one_sample 2) =
    Err EShape.
Proof.
  assert (Hnd : ~ Nat.divide 2 (length one_sample)) by (simpl; intros [k Hk]; lia).
  split_and!; [gpu_side..|exact Hnd|].
  apply (test_short_batch_fails gpu_host 2 (SimpleNet zero_net)
           (mk_model zero_net cuda0 true None) cuda0 one_sample (mk_loader one_sample 2));
    [gpu_side..|exact Hnd].
Defined.

End Eval.
