(* ===== verification/Train.v ===== *)
(** * The training loop and the epoch driver

    [train(model, device, train_loader, optimizer, epoch)] of
    [src/torch-use-gpu.ipynb] (lines 390-400): [model.train()], then for
    each batch: move it to the device, [optimizer.zero_grad()],
    [output = model(data)], [loss = F.nll_loss(output, target)],
    [loss.backward()], [optimizer.step()].  The epoch driver (lines
    465-481) creates [optim.Adadelta(model.parameters(), lr=0.01)] and runs
    [train] then [test] for [epoch in range(1, EPOCHS + 1)].

    The numbers autograd computes are the framework's; they are the
    interface [Autograd] (the gradient of the batch loss at the current
    parameters), with the law that it preserves the parameter shapes.  The
    optimizer is the interface [Optimizer]: the state of a freshly built
    one, the update from parameters and gradient, and an invariant of its
    state that the update keeps together with the parameter shapes;
    [Adadelta] (file [Adadelta]) is the notebook's instance, [SGD] a
    simpler one.  What the notebook decides, and what is modelled
    exactly, is the order of the calls and what [.grad] holds at each call:
    PyTorch accumulates into [.grad] on [backward] and [zero_grad] (with
    [set_to_none=True], the default) clears it.  [train_refines] shows the
    loop is plain gradient descent on per-batch gradients: each [step] sees
    the gradient of its own batch only; [run_epochs_refines] shows the
    epoch loop interleaves the two functions as intended: the report after
    each epoch is the reference evaluation of the parameters that epoch's
    training produced.  The prints of the loop are not modelled. *)

From Stdlib Require Import QArith Lqa.
From stdpp Require Import base list option sets.
From S2P Require Import Prelude Device Shape Net Loader Model Eval.

Module Train.
Import Dev Shape Net Loader Model Eval.

Local Open Scope Q_scope.

(** ** Interfaces to the framework *)

(** [loss.backward()]: the gradient of [F.nll_loss(model(data), target)]
    with respect to the parameters. *)
Class Autograd := {
  loss_grad : simple_net -> batch -> simple_net;
  loss_grad_wf : forall p b, net_wf p -> net_wf (loss_grad p b)
}.

(** An optimizer: the state a freshly built one has ([opt_init]),
    [optimizer.step()] on parameters [p] with gradient [g], and the
    invariant [opt_inv] its state keeps with the parameters it updates. *)
Class Optimizer := {
  opt_state : Type;
  opt_init : opt_state;
  opt_inv : opt_state -> simple_net -> Prop;
  opt_step : opt_state -> simple_net -> simple_net -> opt_state * simple_net;
  opt_init_inv : forall p, net_wf p -> opt_inv opt_init p;
  opt_step_wf : forall o p g, opt_inv o p -> net_wf p -> net_wf g ->
    opt_inv (opt_step o p g).1 (opt_step o p g).2 /\ net_wf (opt_step o p g).2
}.

(** Plain SGD, [p - lr * g], as a concrete optimizer. *)
Program Definition SGD (lr : Q) : Optimizer := {|
  opt_state := unit;
  opt_init := tt;
  opt_inv _ _ := True;
  opt_step o p g := (o, net_map2 (fun x y => vadd x (vscale (- lr) y)) p g)
|}.
Next Obligation. done. Qed.
Next Obligation.
  intros lr o p g _ Hp Hg. split; [done|]. apply net_map2_wf; [|done|done].
  intros x y Hxy. unfold vadd, vscale. rewrite length_zip_with, length_map. lia.
Qed.

(** The gradient of the loss [|p|^2 / 2], as a concrete autograd. *)
#[export] Program Instance norm_grad : Autograd := {| loss_grad p _ := p |}.
Next Obligation. done. Qed.

(** ** The optimizer protocol on the module *)

(** [optimizer.zero_grad()] (line 396): every [.grad] set to [None]. *)
Definition zero_grad (m : model) : model :=
  mk_model (m_net m) (m_device m) (m_training m) None.

(** [loss.backward()] (line 399): the gradient is added to [.grad]. *)
Definition backward (m : model) (g : simple_net) : model :=
  mk_model (m_net m) (m_device m) (m_training m)
    (Some (match m_grad m with None => g | Some g0 => net_add g0 g end)).

(** [optimizer.step()] (line 400): parameters without a gradient are
    skipped. *)
Definition step `{Optimizer} (o : opt_state) (m : model) : opt_state * model :=
  match m_grad m with
  | None => (o, m)
  | Some g =>
      let '(o', p) := opt_step o (m_net m) g in
      (o', mk_model p (m_device m) (m_training m) (m_grad m))
  end.

Section WithFramework.
Context `{QExp} `{Autograd} `{Optimizer}.

(** The body of the loop of [train] (lines 395-400). *)
Definition train_batch (h : host) (batch_size : nat) (device : device)
    (st : opt_state * model) (b : batch) : result (opt_state * model) :=
  let '(o, m) := st in
  p ← batch_to h (from_loader b) device;
  let m1 := zero_grad m in
  out ← model_call batch_size m1 p;
  _ ← guard_or (bool_decide (p_target_dev p = m_device m1)) EDeviceMismatch;
  _ ← nll_mean out (b_target (p_batch p));
  let m2 := backward m1 (loss_grad (m_net m1) (p_batch p)) in
  mret (step o m2).

(** [train(model, device, train_loader, optimizer, epoch)] (lines
    390-400). *)
Definition train (h : host) (batch_size : nat) (m : model) (device : device)
    (train_loader : data_loader) (o : opt_state) : result (opt_state * model) :=
  fold_result (train_batch h batch_size device) (o, set_mode true m)
    (batches train_loader).

(** Line 466. *)
Definition EPOCHS : nat := 5.

(** One iteration of the loop of lines 478-481: train, then test; the
    reports of [test] are collected in order. *)
Definition epoch_step (h : host) (batch_size : nat) (device : device)
    (train_loader test_loader : data_loader)
    (st : opt_state * model * list report) (epoch : nat)
    : result (opt_state * model * list report) :=
  let '(o, m, reps) := st in
  '(o', m') ← train h batch_size m device train_loader o;
  '(m'', r) ← test h batch_size m' device test_loader;
  mret (o', m'', reps ++ [r]).

(** Lines 465-481: [for epoch in range(1, EPOCHS + 1)]. *)
Definition run_epochs (h : host) (batch_size : nat) (device : device)
    (train_loader test_loader : data_loader) (o : opt_state) (m : model)
    : result (opt_state * model * list report) :=
  fold_result (epoch_step h batch_size device train_loader test_loader)
    (o, m, []) (seq 1 EPOCHS).

(** ** The reference: gradient descent on per-batch gradients *)

(** One step of the reference: the gradient of this batch at the current
    parameters, and the update it drives. *)
Definition spec_step (st : opt_state * simple_net * option simple_net) (b : batch)
  : opt_state * simple_net * option simple_net :=
  let '(o, p, _) := st in
  let g := loss_grad p b in
  let '(o', p') := opt_step o p g in (o', p', Some g).

Definition spec_train (st : opt_state * simple_net * option simple_net)
    (L : list batch) : opt_state * simple_net * option simple_net :=
  foldl spec_step st L.

(** [n] passes of the reference over the batches [L]. *)
Fixpoint spec_epochs (n : nat) (L : list batch)
    (st : opt_state * simple_net * option simple_net)
    : opt_state * simple_net * option simple_net :=
  match n with O => st | S n' => spec_epochs n' L (spec_train st L) end.

(** ** Properties *)

(** A step on a batch's gradient keeps the parameters well formed. *)
Lemma opt_step_grad_wf (o o1 : opt_state) (p p1 : simple_net) (b : batch) :
  opt_inv o p -> net_wf p -> opt_step o p (loss_grad p b) = (o1, p1) ->
  opt_inv o1 p1 /\ net_wf p1.
Proof.
  intros Hi Hp E.
  pose proof (opt_step_wf o p (loss_grad p b) Hi Hp (loss_grad_wf p b Hp)) as Hs.
  by rewrite E in Hs.
Qed.

(** The reference keeps the optimizer's invariant and well-formed
    parameters over any sequence of batches. *)
Lemma spec_train_inv (o : opt_state) (p : simple_net) (gr : option simple_net)
    (L : list batch) :
  opt_inv o p -> net_wf p ->
  opt_inv (spec_train (o, p, gr) L).1.1 (spec_train (o, p, gr) L).1.2 /\
  net_wf (spec_train (o, p, gr) L).1.2.
Proof.
  unfold spec_train. revert o p gr. induction L as [|b L IH]; intros o p gr Hi Hp; [done|].
  simpl. unfold spec_step at 2. destruct (opt_step o p (loss_grad p b)) as [o1 p1] eqn:E.
  destruct (opt_step_grad_wf o o1 p p1 b) as [Hi1 Hp1]; [done..|]. by apply IH.
Qed.

Section TrainLemmas.
Variables (h : host) (d d' : device).
Hypothesis Hd : resolve_device h d = Ok d'.

Lemma nll_mean_samples (n : simple_net) (c : list sample) :
  net_wf n -> Forall sample_wf c ->
  exists l, nll_mean (map (sample_out n) c) (map s_label c) = Ok l.
Proof.
  intros Hn Hc. unfold nll_mean. rewrite nll_sum_samples by done. simpl. eauto.
Qed.

(** One full batch: zero the gradients, then the step sees exactly the
    gradient of this batch. *)
Lemma train_batch_collate (bs : nat) (o : opt_state) (m : model) (c : list sample) :
  m_device m = d' -> net_wf (m_net m) -> length c = bs -> (0 < bs)%nat ->
  Forall sample_wf c ->
  train_batch h bs d (o, m) (collate c) =
    Ok (let g := loss_grad (m_net m) (collate c) in
        let '(o', p) := opt_step o (m_net m) g in
        (o', mk_model p (m_device m) (m_training m) (Some g))).
Proof.
  intros Hdev Hn Hlen Hbs Hc. unfold train_batch, batch_to. rewrite Hd. simpl.
  rewrite (model_call_collate (m_net m) bs) by done. simpl.
  rewrite bool_decide_eq_true_2 by done. simpl.
  destruct (nll_mean_samples (m_net m) c Hn Hc) as [l ->]. simpl.
  unfold step. simpl. destruct (opt_step _ _ _). done.
Qed.

Lemma train_fold (bs : nat) (L : list (list sample)) (o : opt_state) (m : model) :
  m_device m = d' -> net_wf (m_net m) -> opt_inv o (m_net m) -> (0 < bs)%nat ->
  Forall (fun c => length c = bs /\ Forall sample_wf c) L ->
  exists o' m', fold_result (train_batch h bs d) (o, m) (map collate L) = Ok (o', m') /\
    (o', m_net m', m_grad m') = spec_train (o, m_net m, m_grad m) (map collate L) /\
    m_device m' = m_device m /\ m_training m' = m_training m /\ net_wf (m_net m') /\
    opt_inv o' (m_net m').
Proof.
  intros Hdev Hn Hi Hbs HL. revert o m Hdev Hn Hi.
  induction HL as [|c L [Hlen Hc] HL IH]; intros o m Hdev Hn Hi.
  - exists o, m. done.
  - cbn [map fold_result]. rewrite train_batch_collate by done.
    cbn [spec_train foldl map]. unfold spec_step at 2.
    destruct (opt_step o (m_net m) (loss_grad (m_net m) (collate c))) as [o1 p1] eqn:E.
    simpl. destruct (opt_step_grad_wf o o1 (m_net m) p1 (collate c)) as [Hi1 Hp1]; [done..|].
    destruct (IH o1 (mk_model p1 (m_device m) (m_training m)
                        (Some (loss_grad (m_net m) (collate c)))))
      as (o' & m' & Hf & Hs & Hdv & Htr & Hw & Hi'); [done|done|done|].
    exists o', m'. rewrite Hf. done.
Qed.

Lemma train_batch_short (bs : nat) (o : opt_state) (m : model) (c : list sample) :
  m_device m = d' -> length c <> bs -> (0 < bs)%nat ->
  train_batch h bs d (o, m) (collate c) = Err EShape.
Proof.
  intros Hdev Hlen Hbs. unfold train_batch, batch_to. rewrite Hd. simpl.
  by rewrite model_call_short.
Qed.

(** A loop over batches that reaches a batch of the wrong size raises
    there: the full batches before it succeed. *)
Lemma train_fold_short (bs : nat) (L : list (list sample)) (o : opt_state) (m : model) :
  m_device m = d' -> net_wf (m_net m) -> opt_inv o (m_net m) -> (0 < bs)%nat ->
  Forall (Forall sample_wf) L -> Exists (fun c => length c <> bs) L ->
  fold_result (train_batch h bs d) (o, m) (map collate L) = Err EShape.
Proof.
  intros Hdev Hn Hi Hbs HL HE. revert o m Hdev Hn Hi.
  induction HL as [|c L Hc HL IH]; intros o m Hdev Hn Hi; [by inversion HE|].
  cbn [map fold_result]. destruct (decide (length c = bs)) as [Hlen|Hlen].
  - rewrite train_batch_collate by done. simpl.
    destruct (opt_step o (m_net m) (loss_grad (m_net m) (collate c))) as [o1 p1] eqn:E.
    destruct (opt_step_grad_wf o o1 (m_net m) p1 (collate c)) as [Hi1 Hp1]; [done..|].
    by apply IH; [inversion HE|..].
  - by rewrite train_batch_short.
Qed.

End TrainLemmas.

(** [train] on a model already on [device]. *)
Lemma train_on_device (h : host) (bs : nat) (m : model) (d : device)
    (ds : list sample) (dl : data_loader) (o : opt_state) :
  resolve_device h d = Ok (m_device m) -> net_wf (m_net m) -> opt_inv o (m_net m) ->
  DataLoader ds bs = Ok dl -> Forall sample_wf ds -> Nat.divide bs (length ds) ->
  exists o' m', train h bs m d dl o = Ok (o', m') /\
    (o', m_net m', m_grad m') = spec_train (o, m_net m, m_grad m) (batches dl) /\
    m_device m' = m_device m /\ m_training m' = true /\ net_wf (m_net m') /\
    opt_inv o' (m_net m').
Proof.
  intros Hd Hn Hi Hdl Hwf Hdiv.
  destruct (DataLoader_chunks ds bs dl Hdl Hwf Hdiv) as (-> & Hbs & Hch).
  destruct (train_fold h d (m_device m) Hd bs (chunk bs ds) o (set_mode true m))
    as (o' & m' & Hf & Hs & Hdv & Htr & Hw & Hi'); [done..|].
  exists o', m'. unfold train, batches. simpl. done.
Qed.

Section Epochs.
Variables (h : host) (bs : nat) (d : device) (ds dst : list sample)
  (dl dlt : data_loader).
Hypotheses (Hdl : DataLoader ds bs = Ok dl) (Hwf : Forall sample_wf ds)
  (Hdiv : Nat.divide bs (length ds)).
Hypotheses (Hdlt : DataLoader dst bs = Ok dlt) (Hwft : Forall sample_wf dst)
  (Hdivt : Nat.divide bs (length dst)) (Hne : length dst <> 0%nat).

(** The epoch loop over any list of epoch numbers, from any accumulated
    list of reports. *)
Lemma epochs_fold (es : list nat) (o : opt_state) (m : model) (reps0 : list report) :
  resolve_device h d = Ok (m_device m) -> net_wf (m_net m) -> opt_inv o (m_net m) ->
  exists o' m' reps,
    fold_result (epoch_step h bs d dl dlt) (o, m, reps0) es = Ok (o', m', reps0 ++ reps) /\
    length reps = length es /\
    (o', m_net m', m_grad m') = spec_epochs (length es) (batches dl) (o, m_net m, m_grad m) /\
    m_device m' = m_device m /\ net_wf (m_net m') /\ opt_inv o' (m_net m') /\
    forall k r, reps !! k = Some r ->
      report_matches (spec_epochs (S k) (batches dl) (o, m_net m, m_grad m)).1.2 dst r.
Proof.
  revert o m reps0. induction es as [|e es IH]; intros o m reps0 Hd Hn Hi.
  { exists o, m, []. rewrite app_nil_r. split_and!; [done..|]. by intros k r ?. }
  destruct (train_on_device h bs m d ds dl o Hd Hn Hi Hdl Hwf Hdiv)
    as (o1 & m1 & Ht & Hs & Hdv & _ & Hw & Hi1).
  destruct (test_on_device h bs m1 d dst dlt) as (r & Hr & Hrm);
    [by rewrite Hdv|done..|].
  assert (Hstep : epoch_step h bs d dl dlt (o, m, reps0) e =
                    Ok (o1, set_mode false m1, reps0 ++ [r])).
  { unfold epoch_step. rewrite Ht. simpl. by rewrite Hr. }
  cbn [fold_result]. rewrite Hstep. simpl.
  destruct (IH o1 (set_mode false m1) (reps0 ++ [r]))
    as (o' & m' & reps & Hf & Hl & Hs' & Hdv' & Hw' & Hi' & Hrs);
    [cbn; by rewrite Hdv|exact Hw|exact Hi1|].
  exists o', m', (r :: reps). rewrite Hf, <- app_assoc.
  split_and!; [done|simpl; lia|simpl; by rewrite Hs', <- Hs|simpl in Hdv'; congruence|done..|].
  intros [|k] r' Hk; simpl in Hk.
  - injection Hk as <-. simpl. by rewrite <- Hs.
  - cbn [spec_epochs]. rewrite <- Hs. exact (Hrs k r' Hk).
Qed.

End Epochs.

(** C2: [train] is gradient descent on per-batch gradients.  When the model
    and the batches are moved to the same device, the samples are well
    formed and [batch_size] divides the dataset, [train] returns (no error)
    and its optimizer state, parameters and [.grad] are those of the
    reference [spec_train], in which the step for each batch uses the
    gradient of that batch alone at the parameters reached so far; the
    model stays on its device, in training mode, with well-formed
    parameters. *)
Theorem train_refines (h : host) (bs : nat) (m0 m : model) (d : device)
    (ds : list sample) (dl : data_loader) (o : opt_state) :
  model_to h m0 d = Ok m -> net_wf (m_net m) -> opt_inv o (m_net m) ->
  DataLoader ds bs = Ok dl -> Forall sample_wf ds -> Nat.divide bs (length ds) ->
  exists o' m', train h bs m d dl o = Ok (o', m') /\
    (o', m_net m', m_grad m') = spec_train (o, m_net m, m_grad m) (batches dl) /\
    m_device m' = m_device m /\ m_training m' = true /\ net_wf (m_net m') /\
    opt_inv o' (m_net m').
Proof. intros Hm. apply train_on_device. by eapply model_to_device. Qed.

(** C9: the other side of the coupling between the global [batch_size]
    and the dataset: when [batch_size] does not divide the number of
    training samples, the loader's last batch is short, [model(data)] views
    it with the global [batch_size], and [train] raises a shape error after
    the steps on the full batches (with [train_refines], [train] succeeds
    exactly when [batch_size] divides the dataset). *)
Theorem train_short_batch_fails (h : host) (bs : nat) (m0 m : model) (d : device)
    (ds : list sample) (dl : data_loader) (o : opt_state) :
  model_to h m0 d = Ok m -> net_wf (m_net m) -> opt_inv o (m_net m) ->
  DataLoader ds bs = Ok dl -> Forall sample_wf ds -> ~ Nat.divide bs (length ds) ->
  train h bs m d dl o = Err EShape.
Proof.
  intros Hm Hn Hi Hdl Hwf Hdiv. apply DataLoader_Ok in Hdl as [-> Hbs].
  unfold train, batches. simpl.
  apply (train_fold_short h d (m_device m)); [by eapply model_to_device|done..|
    by apply chunk_samples_wf|].
  apply not_Forall_Exists; [apply _|]. by rewrite chunk_all_full.
Qed.

(** C3: the epoch loop of lines 478-481 interleaves training and testing:
    under the hypotheses of [train] and [test] for the two loaders, the
    [EPOCHS] iterations all succeed, the parameters at the end are those
    of [EPOCHS] passes of per-batch gradient descent, and the report [test]
    prints after epoch [k+1] is the reference loss and accuracy of the
    parameters after [k+1] passes: each test sees the model its epoch's
    training produced, and switching to [eval] mode between epochs does not
    disturb the next [train]. *)
Theorem run_epochs_refines (h : host) (bs : nat) (m0 m : model) (d : device)
    (ds dst : list sample) (dl dlt : data_loader) (o : opt_state) :
  model_to h m0 d = Ok m -> net_wf (m_net m) -> opt_inv o (m_net m) ->
  DataLoader ds bs = Ok dl -> Forall sample_wf ds -> Nat.divide bs (length ds) ->
  DataLoader dst bs = Ok dlt -> Forall sample_wf dst -> Nat.divide bs (length dst) ->
  length dst <> 0%nat ->
  exists o' m' reps, run_epochs h bs d dl dlt o m = Ok (o', m', reps) /\
    length reps = EPOCHS /\
    (o', m_net m', m_grad m') = spec_epochs EPOCHS (batches dl) (o, m_net m, m_grad m) /\
    forall k r, reps !! k = Some r ->
      report_matches (spec_epochs (S k) (batches dl) (o, m_net m, m_grad m)).1.2 dst r.
Proof.
  intros Hm Hn Hi Hdl Hwf Hdiv Hdlt Hwft Hdivt Hne.
  destruct (epochs_fold h bs d ds dst dl dlt Hdl Hwf Hdiv Hdlt Hwft Hdivt Hne
              (seq 1 EPOCHS) o m []) as (o' & m' & reps & Hf & Hl & Hs & _ & _ & _ & Hr);
    [by eapply model_to_device|done|done|].
  rewrite length_seq in Hl, Hs. exists o', m', reps. by unfold run_epochs.
Qed.

End WithFramework.

Definition sgd_lr001 : Optimizer := SGD (1 # 100).
#[local] Existing Instance sgd_lr001.

Lemma train_refines_witness :
  model_to gpu_host (SimpleNet zero_net) cuda0 = Ok (mk_model zero_net cuda0 true None) /\
  net_wf zero_net /\ opt_inv tt zero_net /\
  DataLoader one_sample 1 = Ok (mk_loader one_sample 1) /\
  Forall sample_wf one_sample /\ Nat.divide 1 (length one_sample) /\
  exists o' m', train gpu_host 1 (mk_model zero_net cuda0 true None) cuda0
                  (mk_loader one_sample 1) tt = Ok (o', m') /\
    (o', m_net m', m_grad m') =
      spec_train (tt, zero_net, None) (batches (mk_loader one_sample 1)) /\
    m_device m' = cuda0 /\ m_training m' = true /\ net_wf (m_net m') /\
    opt_inv o' (m_net m').
Proof.
  split_and!; [gpu_side..|].
  apply (@train_refines _ _ sgd_lr001 gpu_host 1 (SimpleNet zero_net) (mk_model zero_net cuda0 true None)
           cuda0 one_sample (mk_loader one_sample 1) tt);
    gpu_side.
Defined.

Lemma run_epochs_refines_witness :
  model_to gpu_host (SimpleNet zero_net) cuda0 = Ok (mk_model zero_net cuda0 true None) /\
  net_wf zero_net /\ opt_inv tt zero_net /\
  DataLoader one_sample 1 = Ok (mk_loader one_sample 1) /\
  Forall sample_wf one_sample /\ Nat.divide 1 (length one_sample) /\
  length one_sample <> 0%nat /\
  exists o' m' reps, run_epochs gpu_host 1 cuda0 (mk_loader one_sample 1)
                       (mk_loader one_sample 1) tt (mk_model zero_net cuda0 true None) =
                     Ok (o', m', reps) /\
    length reps = EPOCHS /\
    (o', m_net m', m_grad m') =
      spec_epochs EPOCHS (batches (mk_loader one_sample 1)) (tt, zero_net, None) /\
    forall k r, reps !! k = Some r ->
      report_matches
        (spec_epochs (S k) (batches (mk_loader one_sample 1)) (tt, zero_net, None)).1.2
        one_sample r.
Proof.
  split_and!; [gpu_side..|].
  apply (@run_epochs_refines _ _ sgd_lr001 gpu_host 1 (SimpleNet zero_net)
           (mk_model zero_net cuda0 true None) cuda0 one_sample one_sample
           (mk_loader one_sample 1) (mk_loader one_sample 1) tt);
    gpu_side.
Defined.

Lemma train_short_batch_fails_witness :
  model_to gpu_host (SimpleNet zero_net) cuda0 = Ok (mk_model zero_net cuda0 true None) /\
  net_wf zero_net /\ opt_inv tt zero_net /\
  DataLoader one_sample 2 = Ok (mk_loader one_sample 2) /\
  Forall sample_wf one_sample /\ ~ Nat.divide 2 (length one_sample) /\
  train gpu_host 2 (mk_model zero_net cuda0 true None) cuda0 (mk_loader one_sample 2) tt =
    Err EShape.
Proof.
  assert (Hnd : ~ Nat.divide 2 (length one_sample)) by (simpl; intros [k Hk]; lia).
  split_and!; [gpu_side..|exact Hnd|].
  apply (@train_short_batch_fails _ _ sgd_lr001 gpu_host 2 (SimpleNet zero_net)
           (mk_model zero_net cuda0 true None) cuda0 one_sample (mk_loader one_sample 2) tt);
    [gpu_side..|exact Hnd].
Defined.

End Train.
