(* ===== verification/Adadelta.v ===== *)
(** * [optim.Adadelta], the optimizer of torch-use-gpu

    Line 468 of [src/torch-use-gpu.ipynb] builds
    [optimizer = optim.Adadelta(model.parameters(), lr=0.01)] (so
    [rho = 0.9], [eps = 1e-6], no weight decay), and line 400 calls
    [optimizer.step()].  Its state is created at the first step: for each
    parameter a [square_avg] and an [acc_delta] tensor of zeros.  A step on
    parameter [p] with gradient [g] does, as torch's single-tensor
    implementation:
    [square_avg = rho * square_avg + (1 - rho) * g * g];
    [std = sqrt(square_avg + eps)];
    [delta = sqrt(acc_delta + eps) / std * g];
    [acc_delta = rho * acc_delta + (1 - rho) * delta * delta];
    [p = p - lr * delta].

    The square root is the interface [QSqrt] (positive on positive
    arguments), as the exponential of [softmax] is [QExp]; the instance
    [newton_QSqrt] (Newton's method with a fixed number of steps) makes
    the model executable.  [Adadelta] is an instance of the [Optimizer]
    interface of [Train]: its invariant is that both accumulators have
    the parameters' shapes and are nonnegative, which makes every [std]
    positive. *)

From Stdlib Require Import QArith Lqa Lra Psatz.
From stdpp Require Import base list option sets.
From S2P Require Import Prelude Shape Net Loader Eval Train.

Module Adadelta.
Import Shape Net Loader Eval Train.

Local Open Scope Q_scope.

(** ** The square root *)

Class QSqrt := {
  qsqrt : Q -> Q;
  qsqrt_pos : forall x, 0 < x -> 0 < qsqrt x
}.

(** Newton's iteration [y := (y + x / y) / 2] from [x + 1]. *)
Fixpoint newton (fuel : nat) (x y : Q) : Q :=
  match fuel with
  | O => y
  | S f => newton f x (Qred ((y + x / y) / 2))
  end.

Definition newton_sqrt (x : Q) : Q := newton 8 x (x + 1).

(** ** Parameter-shaped maps *)

Definition linear_map (f : Q -> Q) (L : linear) : linear :=
  mk_linear (map (map f) (weight L)) (map f (bias L)).

Definition net_map (f : Q -> Q) (n : simple_net) : simple_net :=
  mk_net (linear_map f (fc1 n)) (linear_map f (fc2 n)).

(** An element-wise operation of two parameter sets. *)
Definition net_zip (f : Q -> Q -> Q) : simple_net -> simple_net -> simple_net :=
  net_map2 (zip_with f).

(** [torch.zeros_like(p)]. *)
Definition zeros_like (p : simple_net) : simple_net := net_map (fun _ => 0) p.

(** Every entry of a parameter set satisfies [P]. *)
Definition linear_all (P : Q -> Prop) (L : linear) : Prop :=
  Forall (Forall P) (weight L) /\ Forall P (bias L).

Definition net_all (P : Q -> Prop) (n : simple_net) : Prop :=
  linear_all P (fc1 n) /\ linear_all P (fc2 n).

(** ** The optimizer *)

Record adadelta_state := mk_adadelta { square_avg : simple_net; acc_delta : simple_net }.

Section WithSqrt.
Context `{QSqrt}.

(** The state used by a step: the stored one, or zeros at the first step. *)
Definition state_or_zeros (st : option adadelta_state) (p : simple_net) : adadelta_state :=
  default (mk_adadelta (zeros_like p) (zeros_like p)) st.

Definition new_square_avg (rho : Q) (sa g : simple_net) : simple_net :=
  net_zip (fun a gi => rho * a + (1 - rho) * (gi * gi)) sa g.

Definition adadelta_std (eps : Q) (sa : simple_net) : simple_net :=
  net_map (fun a => qsqrt (a + eps)) sa.

Definition adadelta_delta (eps : Q) (ad std g : simple_net) : simple_net :=
  net_zip Qmult (net_zip Qdiv (net_map (fun a => qsqrt (a + eps)) ad) std) g.

(** [optimizer.step()] for [Adadelta(lr, rho, eps)]. *)
Definition adadelta_step (lr rho eps : Q) (st : option adadelta_state) (p g : simple_net)
  : option adadelta_state * simple_net :=
  let s := state_or_zeros st p in
  let sa := new_square_avg rho (square_avg s) g in
  let delta := adadelta_delta eps (acc_delta s) (adadelta_std eps sa) g in
  let ad := net_zip (fun a d => rho * a + (1 - rho) * (d * d)) (acc_delta s) delta in
  (Some (mk_adadelta sa ad), net_zip (fun x d => x + - lr * d) p delta).

(** The state keeps the parameters' shapes and nonnegative accumulators. *)
Definition adadelta_inv (st : option adadelta_state) (p : simple_net) : Prop :=
  match st with
  | None => True
  | Some s => net_wf (square_avg s) /\ net_wf (acc_delta s) /\
             net_all (Qle 0) (square_avg s) /\ net_all (Qle 0) (acc_delta s)
  end.

End WithSqrt.

(** ** Shapes and signs of element-wise operations *)

Lemma Forall_map_l {A B} (P : A -> Prop) (R : B -> Prop) (f : A -> B) xs :
  (forall x, P x -> R (f x)) -> Forall P xs -> Forall R (map f xs).
Proof. intros Hf Hx. induction Hx; simpl; constructor; auto. Qed.

Lemma Forall_zip_with_l {A B C} (P : A -> Prop) (R : C -> Prop) (f : A -> B -> C) xs ys :
  (forall x y, P x -> R (f x y)) -> Forall P xs -> Forall R (zip_with f xs ys).
Proof. intros Hf Hx. revert ys. induction Hx; intros [|y ys]; simpl; constructor; auto. Qed.

Lemma net_map_wf f n : net_wf n -> net_wf (net_map f n).
Proof.
  assert (forall d L, linear_wf d L -> linear_wf d (linear_map f L)) as Hl.
  { intros d L (Hw & Hb & Hr). unfold linear_wf, linear_map; simpl.
    rewrite !length_map. split_and!; [done|done|].
    eapply Forall_map_l; [|exact Hr]. intros w Hw'. by rewrite length_map. }
  intros [? ?]. split; by apply Hl.
Qed.

Lemma net_zip_wf f n1 n2 : net_wf n1 -> net_wf n2 -> net_wf (net_zip f n1 n2).
Proof.
  apply net_map2_wf. intros x y Hxy. rewrite length_zip_with. lia.
Qed.

Lemma net_map_all (P R : Q -> Prop) f n :
  (forall x, P x -> R (f x)) -> net_all P n -> net_all R (net_map f n).
Proof.
  intros Hf [[Hw1 Hb1] [Hw2 Hb2]].
  split; split; simpl; (eapply Forall_map_l; [|eassumption]); try done;
    intros; by eapply Forall_map_l.
Qed.

(** An entry of [net_zip f a b] keeps a property of the entry of [a]
    it comes from, whatever the entry of [b]. *)
Lemma net_zip_all_l (P : Q -> Prop) f a b :
  (forall x y, P x -> P (f x y)) -> net_all P a -> net_all P (net_zip f a b).
Proof.
  intros Hf [[Hw1 Hb1] [Hw2 Hb2]].
  split; split; simpl; (eapply Forall_zip_with_l; [|eassumption]); try done;
    intros; by eapply Forall_zip_with_l.
Qed.

Lemma zeros_like_wf p : net_wf p -> net_wf (zeros_like p).
Proof. apply net_map_wf. Qed.

Lemma zeros_like_nonneg p : net_all (Qle 0) (zeros_like p).
Proof.
  assert (forall xs : list Q, Forall (Qle 0) (map (fun _ => 0) xs)) as Hr.
  { intros xs. eapply (Forall_map_l (fun _ => True)); [|by apply Forall_true].
    intros _ _. apply Qle_refl. }
  assert (forall L, linear_all (Qle 0) (linear_map (fun _ => 0) L)) as Hl.
  { intros L. split; simpl; [|apply Hr].
    eapply (Forall_map_l (fun _ => True)); [|by apply Forall_true]. auto. }
  split; apply Hl.
Qed.

(** A running average [rho * a + (1 - rho) * x * x] of a nonnegative [a]
    is nonnegative. *)
Lemma running_avg_nonneg rho a x : 0 <= rho <= 1 -> 0 <= a -> 0 <= rho * a + (1 - rho) * (x * x).
Proof. intros Hr Ha. nra. Qed.

#[export] Hint Resolve net_zip_wf net_map_wf zeros_like_wf zeros_like_nonneg : gpu.

Section WithSqrtProps.
Context `{QSqrt}.

(** The state a step starts from keeps the invariant: a fresh state is
    zeros of the parameters' shapes. *)
Lemma state_or_zeros_inv st p :
  adadelta_inv st p -> net_wf p -> adadelta_inv (Some (state_or_zeros st p)) p.
Proof. destruct st as [s|]; simpl; [done|]. intros _ Hp. split_and!; auto with gpu. Qed.

Lemma adadelta_step_inv lr rho eps st p g :
  0 <= rho <= 1 -> adadelta_inv st p -> net_wf p -> net_wf g ->
  adadelta_inv (adadelta_step lr rho eps st p g).1 (adadelta_step lr rho eps st p g).2 /\
  net_wf (adadelta_step lr rho eps st p g).2.
Proof.
  intros Hr Hi Hp Hg. destruct (state_or_zeros_inv st p Hi Hp) as (Hs & Ha & Hs0 & Ha0).
  unfold adadelta_step, new_square_avg, adadelta_delta, adadelta_std; simpl.
  split_and!; auto 6 with gpu; apply net_zip_all_l; try done;
    intros; by apply running_avg_nonneg.
Qed.

(** With [eps > 0], [sqrt(square_avg + eps)] is positive wherever
    [square_avg] is nonnegative. *)
Lemma adadelta_std_pos eps sa : 0 < eps -> net_all (Qle 0) sa -> net_all (Qlt 0) (adadelta_std eps sa).
Proof. intros He. apply net_map_all. intros x Hx. apply qsqrt_pos. lra. Qed.

End WithSqrtProps.

(** [optim.Adadelta(params, lr, rho, eps)] as an [Optimizer]; torch
    raises [ValueError] unless [0 <= rho <= 1], which is the hypothesis
    [Hrho].  Its state is [None] until the first step. *)
Program Definition Adadelta `{QSqrt} (lr rho eps : Q) (Hrho : 0 <= rho <= 1) : Optimizer := {|
  opt_state := option adadelta_state;
  opt_init := None;
  opt_inv := adadelta_inv;
  opt_step := adadelta_step lr rho eps
|}.
Next Obligation. done. Qed.
Next Obligation. intros. by apply adadelta_step_inv. Qed.

(** Newton's iteration stays positive from a positive start. *)
Lemma newton_pos fuel x y : 0 < x -> 0 < y -> 0 < newton fuel x y.
Proof.
  revert y. induction fuel as [|f IH]; intros y Hx Hy; simpl; [done|].
  apply IH; [done|]. rewrite Qred_correct.
  assert (0 < x / y) by (apply Qlt_shift_div_l; [done|]; rewrite Qmult_0_l; done).
  apply Qlt_shift_div_l; [done|]. generalize dependent (x / y). intros. lra.
Qed.

Lemma newton_sqrt_pos x : 0 < x -> 0 < newton_sqrt x.
Proof. intros Hx. apply newton_pos; lra. Qed.

#[export] Instance newton_QSqrt : QSqrt := {| qsqrt := newton_sqrt; qsqrt_pos := newton_sqrt_pos |}.

Lemma notebook_rho_ok : 0 <= 9 # 10 <= 1.
Proof. split; vm_compute; discriminate. Qed.

(** The optimizer of line 468: [optim.Adadelta(model.parameters(),
    lr=0.01)] with torch's defaults [rho = 0.9] and [eps = 1e-6]. *)
Definition notebook_adadelta : Optimizer :=
  Adadelta (1 # 100) (9 # 10) (1 # 1000000) notebook_rho_ok.

(** ** Properties *)

Section Claims.
Context `{Autograd} `{QSqrt}.

(** C11: Training with [optim.Adadelta(lr, rho, eps)] from a freshly built
    optimizer, over any sequence of batches, keeps the optimizer's
    invariant: parameters, [square_avg] and [acc_delta] keep the layers'
    shapes and both accumulators stay nonnegative.  Hence, when
    [eps > 0], the denominator [std = sqrt(square_avg + eps)] of the next
    step is positive in every entry, whatever the next gradient: no step
    of the training divides by zero. *)
Theorem adadelta_train_std_pos (lr rho eps : Q) (Hrho : 0 <= rho <= 1) (p : simple_net)
    (gr : option simple_net) (L : list batch) (g : simple_net) :
  0 < eps -> net_wf p ->
  let st := @spec_train _ (Adadelta lr rho eps Hrho) (None, p, gr) L in
  adadelta_inv st.1.1 st.1.2 /\ net_wf st.1.2 /\
  net_all (Qlt 0)
    (adadelta_std eps (new_square_avg rho (square_avg (state_or_zeros st.1.1 st.1.2)) g)).
Proof.
  intros He Hp st.
  destruct (@spec_train_inv _ (Adadelta lr rho eps Hrho) None p gr L) as [Hi Hw]; [done..|].
  split_and!; [done|done|].
  destruct (state_or_zeros_inv _ _ Hi Hw) as (_ & _ & Hs & _).
  apply adadelta_std_pos; [done|]. apply net_zip_all_l; [|done].
  intros; by apply running_avg_nonneg.
Qed.

End Claims.

Lemma adadelta_train_std_pos_witness :
  0 < 1 # 1000000 /\ net_wf zero_net /\
  (let st := @spec_train norm_grad notebook_adadelta (None, zero_net, None)
                (batches (mk_loader one_sample 1)) in
   adadelta_inv st.1.1 st.1.2 /\ net_wf st.1.2 /\
   net_all (Qlt 0)
     (adadelta_std (1 # 1000000)
        (new_square_avg (9 # 10) (square_avg (state_or_zeros st.1.1 st.1.2)) zero_net))).
Proof.
  split_and!; [reflexivity|apply zero_net_wf|].
  apply (adadelta_train_std_pos (1 # 100) (9 # 10) (1 # 1000000) notebook_rho_ok zero_net None
           (batches (mk_loader one_sample 1)) zero_net); [reflexivity|apply zero_net_wf].
Defined.

End Adadelta.
