(* ===== verification/Format.v ===== *)
(** * The printed text: Python's fixed-point format and the training cell's output

    [test] ends (lines 453-455 of [src/torch-use-gpu.ipynb]) with
    [print('\nTest set: Average loss: {:.4f}, Accuracy: {}/{} ({:.0f}%)\n'
    .format(test_loss, correct, len(test_loader.dataset),
    100. * correct / len(test_loader.dataset)))], [train] prints the
    device (line 393) and the epoch loop prints [f"EPOCH: {epoch}"]
    (line 479).  This file models Python's [format] of a number with
    [.<d>f] ([format_fixed]: the sign, then the magnitude rounded half to
    even at [d] decimals, at least one integer digit, exactly [d]
    fractional digits and no point when [d = 0]), [str] of an [int]
    ([index_str] of [Device]), the report line [report_text] and the
    text the epoch loop prints [epoch_stdout].  Values are exact
    rationals: the rounding of the float the notebook holds is not
    modelled, Python's correct rounding of that float is.

    A reader of decimal text, [parse_fixed], states what the text means:
    [format_fixed_roundtrip] shows reading the printed text gives the
    value rounded at [d] decimals, within half a unit of the last
    printed place. *)

From Stdlib Require Import String Ascii QArith Qround Qabs ZArith Lia Lqa.
From stdpp Require Import base list option.
From S2P Require Import Prelude Device Shape Net Loader Model Eval.

Module Fmt.
Import Dev Shape Net Loader Model Eval.

Local Open Scope Q_scope.

(** ** Decimal digits *)

(** The character of a decimal digit, as [str] prints it. *)
Definition digit_char (k : N) : ascii := ascii_of_N (48 + k).

Definition char_digit (c : ascii) : option N :=
  let k := N_of_ascii c in
  if ((48 <=? k) && (k <=? 57))%N then Some (k - 48)%N else None.

(** The last [w] decimal digits of [n], most significant first, padded
    with zeros: the fractional part of [.<w>f]. *)
Fixpoint fixed_digits (w : nat) (n : N) : list N :=
  match w with
  | O => []
  | S w' => fixed_digits w' (n / 10) ++ [(n mod 10)%N]
  end.

(** The number of decimal digits of [n], [1] for [0]; the binary size
    is enough fuel, since each step divides by [10]. *)
Fixpoint ndigits_go (fuel : nat) (n : N) : nat :=
  match fuel with
  | O => 1
  | S f => if (n <? 10)%N then 1 else S (ndigits_go f (n / 10))
  end.

Definition ndigits (n : N) : nat := ndigits_go (N.to_nat (N.size n)) n.

Definition digits_str (ds : list N) : string := string_of_list_ascii (map digit_char ds).

(** [str(n)] of a nonnegative [int] with these digits. *)
Definition N_str (n : N) : string := digits_str (fixed_digits (ndigits n) n).

(** ** Rounding and [format(x, '.<d>f')] *)

(** Round half to even, as Python's correctly rounded formatting. *)
Definition round_half_even (x : Q) : Z :=
  let f := Qfloor x in
  match Qcompare (x - inject_Z f) (1 # 2) with
  | Lt => f
  | Gt => (f + 1)%Z
  | Eq => if Z.even f then f else (f + 1)%Z
  end.

Definition pow10 (d : nat) : Q := inject_Z (10 ^ Z.of_nat d).

(** [format(x, '.<d>f')]: the sign of [x] (also when the magnitude rounds
    to zero: [-0.0000]), the integer part of the rounded magnitude [m]
    and, when [d > 0], a point and its last [d] digits. *)
Definition format_fixed (d : nat) (x : Q) : string :=
  let m := Z.to_N (round_half_even (Qabs x * pow10 d)) in
  let sign := if Qlt_le_dec x 0 then "-" else "" in
  let int := N_str (m / 10 ^ N.of_nat d)%N in
  match d with
  | O => sign ++ int
  | S _ => sign ++ int ++ "." ++ digits_str (fixed_digits d m)
  end.

(** The characters [format_fixed] prints after the sign. *)
Definition int_digits (d : nat) (m : N) : list N :=
  fixed_digits (ndigits (m / 10 ^ N.of_nat d)) (m / 10 ^ N.of_nat d).

Definition frac_chars (d : nat) (m : N) : list ascii :=
  match d with O => [] | S _ => "."%char :: map digit_char (fixed_digits d m) end.

(** ** Reading decimal text *)

Fixpoint span_digits (cs : list ascii) : list N * list ascii :=
  match cs with
  | c :: cs' =>
      match char_digit c with
      | Some k => let '(ds, r) := span_digits cs' in (k :: ds, r)
      | None => ([], cs)
      end
  | [] => ([], [])
  end.

Definition digits_value (ds : list N) : N := foldl (fun a k => 10 * a + k)%N 0%N ds.

Definition NQ (n : N) : Q := inject_Z (Z.of_N n).

(** Digits, optionally followed by a point and digits, and nothing else. *)
Definition parse_unsigned (cs : list ascii) : option Q :=
  let '(ip, r) := span_digits cs in
  match ip, r with
  | [], _ => None
  | _, [] => Some (NQ (digits_value ip))
  | _, c :: r' =>
      if Ascii.eqb c "." then
        let '(fp, r'') := span_digits r' in
        match fp, r'' with
        | _ :: _, [] => Some (NQ (digits_value (ip ++ fp)) / pow10 (length fp))
        | _, _ => None
        end
      else None
  end.

(** The number a decimal text denotes, with an optional minus sign. *)
Definition parse_fixed (s : string) : option Q :=
  match list_ascii_of_string s with
  | c :: cs => if Ascii.eqb c "-" then Qopp <$> parse_unsigned cs else parse_unsigned (c :: cs)
  | [] => None
  end.

(** ** The text the training cell prints *)

Definition nl : string := String (ascii_of_nat 10) EmptyString.

(** [print(s)]: the text and a newline. *)
Definition print (s : string) : string := s ++ nl.

Definition NatQ (n : nat) : Q := inject_Z (Z.of_nat n).

(** The argument of the [print] of [test] (lines 453-455):
    ['\nTest set: Average loss: {:.4f}, Accuracy: {}/{} ({:.0f}%)\n']
    formatted with the mean loss, [correct], [len(test_loader.dataset)]
    and [100. * correct / len(test_loader.dataset)]. *)
Definition report_text (r : report) : string :=
  nl ++ "Test set: Average loss: " ++ format_fixed 4 (avg_loss r) ++
  ", Accuracy: " ++ index_str (correct r) ++ "/" ++ index_str (total r) ++
  " (" ++ format_fixed 0 (100 * NatQ (correct r) / NatQ (total r)) ++ "%)" ++ nl.

(** One iteration of the loop of lines 478-481: [print(f"EPOCH: {epoch}")],
    then [train] prints the device (line 393) and [test] its report. *)
Definition epoch_text (device : device) (epoch : nat) (r : report) : string :=
  print ("EPOCH: " ++ index_str epoch) ++ print (device_str device) ++ print (report_text r).

(** The text of the epoch cell for the reports of epochs [epoch],
    [epoch + 1], ... *)
Fixpoint epochs_stdout (device : device) (epoch : nat) (reps : list report) : string :=
  match reps with
  | [] => ""
  | r :: rs => epoch_text device epoch r ++ epochs_stdout device (S epoch) rs
  end.

(** ** Digits: printing and reading back *)

Lemma char_digit_digit_char k : (k < 10)%N -> char_digit (digit_char k) = Some k.
Proof.
  intros Hk. unfold char_digit, digit_char. rewrite N_ascii_embedding by lia.
  replace ((48 <=? 48 + k) && (48 + k <=? 57))%N with true; [f_equal; lia|].
  symmetry. apply andb_true_intro. split; apply N.leb_le; lia.
Qed.

(** A character that is not a digit differs from every printed digit. *)
Lemma digit_char_neq c k : char_digit c = None -> (k < 10)%N -> Ascii.eqb (digit_char k) c = false.
Proof.
  intros Hc Hk. apply Ascii.eqb_neq. intros <-. by rewrite char_digit_digit_char in Hc.
Qed.

Definition digit_lt (k : N) : Prop := (k < 10)%N.

Lemma span_digits_app ds rest :
  Forall digit_lt ds -> (forall c r, rest = c :: r -> char_digit c = None) ->
  span_digits (map digit_char ds ++ rest) = (ds, rest).
Proof.
  intros Hds Hr. induction Hds as [|k ds Hk Hds IH]; cbn [map app].
  - destruct rest as [|c r]; [reflexivity|]. cbn [span_digits]. by rewrite (Hr c r).
  - cbn [span_digits]. rewrite char_digit_digit_char by done. by rewrite IH.
Qed.

Lemma fixed_digits_lt w n : Forall digit_lt (fixed_digits w n).
Proof.
  revert n. induction w as [|w IH]; intros n; simpl; [done|].
  apply Forall_app. split; [apply IH|]. constructor; [|done]. apply N.mod_lt. lia.
Qed.

Lemma length_fixed_digits w n : length (fixed_digits w n) = w.
Proof. revert n. induction w as [|w IH]; intros n; simpl; [done|]. rewrite length_app, IH. simpl. lia. Qed.

Lemma digits_value_snoc ds k : digits_value (ds ++ [k]) = (10 * digits_value ds + k)%N.
Proof. unfold digits_value. by rewrite foldl_app. Qed.

(** Digits [ip] followed by the last [d] digits of [m] denote
    [ip * 10^d + m mod 10^d]. *)
Lemma digits_value_fixed ip d m :
  digits_value (ip ++ fixed_digits d m) =
    (digits_value ip * 10 ^ N.of_nat d + m mod 10 ^ N.of_nat d)%N.
Proof.
  revert m. induction d as [|d IH]; intros m; simpl.
  - rewrite app_nil_r, N.mod_1_r. lia.
  - rewrite app_assoc, digits_value_snoc, IH.
    rewrite Nat2N.inj_succ, N.pow_succ_r', N.Div0.mod_mul_r. lia.
Qed.

Lemma ndigits_go_bound fuel n : (n < 10 ^ N.of_nat fuel)%N -> (n < 10 ^ N.of_nat (ndigits_go fuel n))%N.
Proof.
  revert n. induction fuel as [|f IH]; intros n Hn; simpl.
  - simpl in Hn. assert (n = 0%N) as -> by lia. done.
  - destruct (N.ltb_spec n 10) as [Hlt|Hge]; [done|].
    rewrite Nat2N.inj_succ, N.pow_succ_r' in Hn |- *.
    assert (Hd : (n / 10 < 10 ^ N.of_nat f)%N) by (apply N.Div0.div_lt_upper_bound; lia).
    specialize (IH _ Hd). pose proof (N.mul_succ_div_gt n 10 ltac:(lia)). nia.
Qed.

(** [n] has at most [ndigits n] digits. *)
Lemma ndigits_bound n : (n < 10 ^ N.of_nat (ndigits n))%N.
Proof.
  apply ndigits_go_bound. rewrite N2Nat.id.
  eapply N.lt_le_trans; [apply N.size_gt|]. apply N.pow_le_mono_l. lia.
Qed.

Lemma ndigits_pos n : ndigits n <> O.
Proof. unfold ndigits. destruct (N.to_nat (N.size n)); simpl; [lia|]. case_match; lia. Qed.

(** ** Rounding *)

Lemma inject_Z_succ z : inject_Z (z + 1) == inject_Z z + 1.
Proof. by rewrite inject_Z_plus. Qed.

(** Rounding half to even moves a number by at most one half. *)
Lemma round_half_even_close x : Qabs (inject_Z (round_half_even x) - x) <= 1 # 2.
Proof.
  pose proof (Qfloor_le x) as Hl. pose proof (Qlt_floor x) as Hu.
  rewrite inject_Z_succ in Hu. apply Qabs_Qle_condition.
  unfold round_half_even. destruct (Qcompare_spec (x - inject_Z (Qfloor x)) (1 # 2)) as [He|Hlt|Hgt].
  - destruct (Z.even (Qfloor x)); [|rewrite inject_Z_succ]; split; lra.
  - split; lra.
  - rewrite inject_Z_succ. split; lra.
Qed.

Lemma round_half_even_nonneg x : 0 <= x -> (0 <= round_half_even x)%Z.
Proof.
  intros Hx. assert (0 <= Qfloor x)%Z.
  { change 0%Z with (Qfloor 0). by apply Qfloor_resp_le. }
  unfold round_half_even. repeat case_match; lia.
Qed.

Lemma pow10_pos d : 0 < pow10 d.
Proof. unfold pow10. change 0 with (inject_Z 0). rewrite <- Zlt_Qlt. lia. Qed.

(** Dividing by a positive scale: [|a / P - b| <= 1 / (2 P)] when
    [|a - b P| <= 1/2]. *)
Lemma scaled_close a b P : 0 < P -> Qabs (a - b * P) <= 1 # 2 -> Qabs (a / P - b) <= 1 / (2 * P).
Proof.
  intros HP Hab. assert (HP' : ~ P == 0) by (intros E; rewrite E in HP; discriminate).
  assert (E1 : a / P - b == (a - b * P) * / P) by (field; done).
  assert (E2 : 1 / (2 * P) == (1 # 2) * / P) by (field; done).
  rewrite E1, E2.
  rewrite Qabs_Qmult, (Qabs_pos (/ P)) by (apply Qlt_le_weak, Qinv_lt_0_compat, HP).
  apply Qmult_le_compat_r; [done|]. apply Qlt_le_weak, Qinv_lt_0_compat, HP.
Qed.

(** ** The printed text read back *)

Lemma list_ascii_of_string_app s1 s2 :
  list_ascii_of_string (s1 ++ s2) = (list_ascii_of_string s1 ++ list_ascii_of_string s2)%list.
Proof. induction s1 as [|c s1 IH]; simpl; [done|]. by rewrite IH. Qed.

Lemma list_ascii_of_digits_str ds : list_ascii_of_string (digits_str ds) = map digit_char ds.
Proof. apply list_ascii_of_string_of_list_ascii. Qed.

#[local] Hint Rewrite list_ascii_of_string_app list_ascii_of_digits_str : gpu.

Lemma format_fixed_chars d x :
  list_ascii_of_string (format_fixed d x) =
    ((if Qlt_le_dec x 0 then ["-"%char] else []) ++
     map digit_char (int_digits d (Z.to_N (round_half_even (Qabs x * pow10 d)))) ++
     frac_chars d (Z.to_N (round_half_even (Qabs x * pow10 d))))%list.
Proof.
  unfold format_fixed, N_str, int_digits, frac_chars.
  destruct d; destruct (Qlt_le_dec x 0); autorewrite with gpu; simpl;
    autorewrite with gpu; by rewrite ?app_nil_r.
Qed.

(** The integer digits and the fractional digits together denote [m]. *)
Lemma digits_value_int_frac d m :
  digits_value (int_digits d m ++ fixed_digits d m)%list = m.
Proof.
  unfold int_digits. rewrite digits_value_fixed, <- (app_nil_l (fixed_digits _ _)).
  rewrite digits_value_fixed, N.mod_small by apply ndigits_bound. simpl.
  pose proof (N.div_mod m (10 ^ N.of_nat d) ltac:(apply N.pow_nonzero; lia)). change (digits_value []) with 0%N. lia.
Qed.

Lemma char_digit_point : char_digit "." = None.
Proof. reflexivity. Qed.

Lemma char_digit_minus : char_digit "-" = None.
Proof. reflexivity. Qed.

Lemma int_digits_nonempty d m : int_digits d m <> [].
Proof.
  intros E. apply (ndigits_pos (m / 10 ^ N.of_nat d)).
  unfold int_digits in E. apply (f_equal length) in E. by rewrite length_fixed_digits in E.
Qed.

Lemma parse_unsigned_format d m :
  exists v, parse_unsigned (map digit_char (int_digits d m) ++ frac_chars d m)%list = Some v /\
    v == NQ m / pow10 d.
Proof.
  unfold parse_unsigned.
  rewrite span_digits_app;
    [|apply fixed_digits_lt|intros c r; destruct d; simpl; [done|intros [= <- _]; done]].
  pose proof (int_digits_nonempty d m) as Hne.
  destruct (int_digits d m) as [|k ip] eqn:Eip; [done|].
  destruct d as [|d].
  - simpl. eexists. split; [reflexivity|]. rewrite <- Eip.
    rewrite <- (app_nil_r (int_digits 0 m)). change [] with (fixed_digits 0 m).
    rewrite digits_value_int_frac. unfold Qdiv. change (/ pow10 0) with 1. symmetry. apply Qmult_1_r.
  - unfold frac_chars. remember (fixed_digits (S d) m) as fd eqn:Efd. simpl.
    rewrite <- (app_nil_r (map digit_char fd)).
    rewrite span_digits_app by (subst; apply fixed_digits_lt || done).
    destruct fd as [|f fs] eqn:Ef; [by apply (f_equal length) in Efd; rewrite length_fixed_digits in Efd|].
    eexists. split; [reflexivity|]. rewrite app_comm_cons, <- Eip, Efd, digits_value_int_frac.
    rewrite length_fixed_digits. done.
Qed.

(** The magnitude [m] [format_fixed] prints is [|x| * 10^d] rounded, and
    it lies within half a unit of the last place of [|x|]. *)
Lemma format_magnitude_close d x :
  Qabs (NQ (Z.to_N (round_half_even (Qabs x * pow10 d))) / pow10 d - Qabs x) <= 1 / (2 * pow10 d).
Proof.
  unfold NQ. rewrite Z2N.id.
  - apply scaled_close; [apply pow10_pos|apply round_half_even_close].
  - apply round_half_even_nonneg, Qmult_le_0_compat; [apply Qabs_nonneg|].
    apply Qlt_le_weak, pow10_pos.
Qed.

(** What [format_fixed] prints reads back as the signed, rounded
    magnitude, within half a unit of the last place of [x]. *)
Lemma format_fixed_read d x :
  exists v, parse_fixed (format_fixed d x) = Some v /\
    v == (if Qlt_le_dec x 0 then - (NQ (Z.to_N (round_half_even (Qabs x * pow10 d))) / pow10 d)
          else NQ (Z.to_N (round_half_even (Qabs x * pow10 d))) / pow10 d) /\
    Qabs (v - x) <= 1 / (2 * pow10 d).
Proof.
  unfold parse_fixed. rewrite format_fixed_chars.
  pose proof (format_magnitude_close d x) as Hc.
  set (m := Z.to_N (round_half_even (Qabs x * pow10 d))) in *.
  destruct (parse_unsigned_format d m) as (v & Hp & Hv).
  rewrite <- Hv in Hc.
  destruct (Qlt_le_dec x 0) as [Hx|Hx].
  - cbn [app]. rewrite Ascii.eqb_refl, Hp. exists (- v). split_and!; [done|by rewrite Hv|].
    assert (E : - v - x == - (v - Qabs x)) by (rewrite (Qabs_neg x) by lra; ring).
    by rewrite E, Qabs_opp.
  - pose proof (fixed_digits_lt (ndigits (m / 10 ^ N.of_nat d)) (m / 10 ^ N.of_nat d)) as Hlt.
    fold (int_digits d m) in Hlt.
    destruct (int_digits d m) as [|k ip] eqn:Eip; [by destruct (int_digits_nonempty d m)|].
    inversion Hlt as [|? ? Hk _]; subst.
    cbn [app map]. rewrite digit_char_neq by (done || apply char_digit_minus).
    rewrite app_comm_cons. change (digit_char k :: map digit_char ip) with (map digit_char (k :: ip)).
    rewrite Hp. exists v. split_and!; [done|done|]. by rewrite <- (Qabs_pos x Hx).
Qed.

(** [format_fixed] prints a minus sign exactly for negative numbers. *)
Lemma format_fixed_sign d x :
  x < 0 -> exists t, format_fixed d x = "-" ++ t.
Proof.
  intros Hx. unfold format_fixed. destruct (Qlt_le_dec x 0); [|lra].
  destruct d; eexists; reflexivity.
Qed.

(** C19: [format(x, '.<d>f')] prints a decimal number, and what it
    prints is [x] to [d] decimals: reading the text back gives a value
    within half a unit of the last printed place of [x] (for
    [{:.4f}], within [0.00005]; for [{:.0f}], within [0.5]). *)
Theorem format_fixed_roundtrip d x :
  exists v, parse_fixed (format_fixed d x) = Some v /\ Qabs (v - x) <= 1 / (2 * pow10 d).
Proof. destruct (format_fixed_read d x) as (v & ? & _ & ?). by exists v. Qed.

(** ** The text of the epoch loop *)

Lemma string_app_assoc (a b c : string) : (a ++ b) ++ c = a ++ (b ++ c).
Proof. induction a as [|x a IH]; simpl; [done|]. by rewrite IH. Qed.

Lemma string_app_nil_r (a : string) : a ++ "" = a.
Proof. induction a as [|x a IH]; simpl; [done|]. by rewrite IH. Qed.

(** The loop appends one report per epoch, and the text of the epoch
    after the last one printed. *)
Lemma epochs_stdout_snoc device e reps r :
  epochs_stdout device e (reps ++ [r])%list =
    epochs_stdout device e reps ++ epoch_text device (e + length reps) r.
Proof.
  revert e. induction reps as [|r' reps IH]; intros e; cbn [app epochs_stdout length String.append].
  - by rewrite Nat.add_0_r, string_app_nil_r.
  - by rewrite IH, string_app_assoc, Nat.add_succ_r.
Qed.

(** The first epoch of a run on [cuda:0] whose report has loss [-0.1]
    and no correct prediction out of one sample. *)
Lemma epoch_text_example :
  epoch_text cuda0 1 (mk_report (- (1 # 10)) 0 1) =
    "EPOCH: 1" ++ nl ++ "cuda:0" ++ nl ++
    nl ++ "Test set: Average loss: -0.1000, Accuracy: 0/1 (0%)" ++ nl ++ nl.
Proof. vm_compute. reflexivity. Qed.

(** ** The printed report *)

Lemma div_pow10_0 q : q / pow10 0 == q.
Proof. unfold Qdiv. change (/ pow10 0) with 1. apply Qmult_1_r. Qed.

Lemma NatQ_pos n : n <> O -> 0 < NatQ n.
Proof. intros. unfold NatQ. change 0 with (inject_Z 0). rewrite <- Zlt_Qlt. lia. Qed.

(** The accuracy [100. * correct / total] lies in [[0, 100]]. *)
Lemma percent_bounds c n : (c <= n)%nat -> n <> O -> 0 <= 100 * NatQ c / NatQ n <= 100.
Proof.
  intros Hc Hn. pose proof (NatQ_pos n Hn) as HN.
  assert (0 <= NatQ c /\ NatQ c <= NatQ n) as [H0 H1].
  { unfold NatQ. change 0 with (inject_Z 0). rewrite <- !Zle_Qle. lia. }
  split; [apply Qle_shift_div_l|apply Qle_shift_div_r]; try done; lra.
Qed.

(** [{:.0f}] of a percentage prints a whole number between [0] and [100]. *)
Lemma format_percent p : 0 <= p <= 100 ->
  exists v, parse_fixed (format_fixed 0 p) = Some v /\ 0 <= v <= 100 /\ Qabs (v - p) <= 1 # 2.
Proof.
  intros Hp. destruct (format_fixed_read 0 p) as (v & Hr & Hv & Hc).
  destruct (Qlt_le_dec p 0) as [|_]; [lra|]. rewrite div_pow10_0 in Hv.
  change (1 / (2 * pow10 0)) with (1 # 2) in Hc.
  exists v. split_and!; [done| | |done]; apply Qabs_Qle_condition in Hc; rewrite Hv in Hc |- *;
    unfold NQ in *.
  - change 0 with (inject_Z 0). rewrite <- Zle_Qle. lia.
  - assert (inject_Z (Z.of_N (Z.to_N (round_half_even (Qabs p * pow10 0)))) < inject_Z 101)
      as Hlt by (change (inject_Z 101) with (101 # 1); lra).
    rewrite <- Zlt_Qlt in Hlt. change 100 with (inject_Z 100). rewrite <- Zle_Qle. lia.
Qed.

(** C6: what [test] prints is the reference evaluation, to the printed
    precision: under the hypotheses of [test_refines], the line is
    ["\nTest set: Average loss: -<L>, Accuracy: <c>/<n> (<P>%)\n"] where
    [c] is the number of test samples the model classifies right and [n]
    the test-set size, [-<L>] reads back within [0.00005] of the mean
    per-sample loss (always with a minus sign: the loss is that of
    [nll_loss] on probabilities), and [<P>] is a whole number between [0]
    and [100] within [0.5] of the accuracy in percent. *)
Theorem test_prints_reference `{QExp} (h : host) (bs : nat) (m0 m : model) (d : device)
    (ds : list sample) (dl : data_loader) :
  model_to h m0 d = Ok m -> net_wf (m_net m) ->
  DataLoader ds bs = Ok dl -> Forall sample_wf ds ->
  Nat.divide bs (length ds) -> length ds <> 0%nat ->
  exists r loss pct vl vp,
    test h bs m d dl = Ok (set_mode false m, r) /\
    report_text r = nl ++ "Test set: Average loss: -" ++ loss ++ ", Accuracy: " ++
      index_str (spec_correct (m_net m) ds) ++ "/" ++ index_str (length ds) ++
      " (" ++ pct ++ "%)" ++ nl /\
    parse_fixed ("-" ++ loss) = Some vl /\
    Qabs (vl - spec_loss (m_net m) ds / inject_Z (Z.of_nat (length ds))) <= 1 # 20000 /\
    parse_fixed pct = Some vp /\ 0 <= vp <= 100 /\
    Qabs (vp - 100 * NatQ (spec_correct (m_net m) ds) / NatQ (length ds)) <= 1 # 2.
Proof.
  intros Hm Hn Hdl Hwf Hdiv Hne.
  destruct (test_on_device_bounds h bs m d ds dl) as (r & Hr & Hl & Hc & Ht & Hle & _ & Hneg);
    try done; [by eapply model_to_device|].
  destruct (format_fixed_sign 4 (avg_loss r) Hneg) as [loss Eloss].
  destruct (format_fixed_read 4 (avg_loss r)) as (vl & Hpl & _ & Hcl).
  destruct (format_percent (100 * NatQ (correct r) / NatQ (total r))) as (vp & Hpp & Hb & Hcp).
  { apply percent_bounds; [done|]. by rewrite Ht. }
  rewrite Hc, Ht in Hcp. rewrite Hl in Hcl. change (1 / (2 * pow10 4)) with (1 # 20000) in Hcl.
  exists r, loss, (format_fixed 0 (100 * NatQ (correct r) / NatQ (total r))), vl, vp.
  split_and!; try done; try apply Hb.
  - unfold report_text. rewrite Eloss, Hc, Ht. reflexivity.
  - by rewrite <- Eloss.
Qed.

Lemma test_prints_reference_witness :
  model_to gpu_host (SimpleNet zero_net) cuda0 = Ok (mk_model zero_net cuda0 true None) /\
  net_wf zero_net /\
  DataLoader one_sample 1 = Ok (mk_loader one_sample 1) /\
  Forall sample_wf one_sample /\ Nat.divide 1 (length one_sample) /\
  length one_sample <> 0%nat /\
  exists r loss pct vl vp,
    test gpu_host 1 (mk_model zero_net cuda0 true None) cuda0 (mk_loader one_sample 1) =
      Ok (set_mode false (mk_model zero_net cuda0 true None), r) /\
    report_text r = nl ++ "Test set: Average loss: -" ++ loss ++ ", Accuracy: " ++
      index_str (spec_correct zero_net one_sample) ++ "/" ++ index_str (length one_sample) ++
      " (" ++ pct ++ "%)" ++ nl /\
    parse_fixed ("-" ++ loss) = Some vl /\
    Qabs (vl - spec_loss zero_net one_sample / inject_Z (Z.of_nat (length one_sample)))
      <= 1 # 20000 /\
    parse_fixed pct = Some vp /\ 0 <= vp <= 100 /\
    Qabs (vp - 100 * NatQ (spec_correct zero_net one_sample) / NatQ (length one_sample))
      <= 1 # 2.
Proof.
  split_and!; [gpu_side..|].
  apply (test_prints_reference gpu_host 1 (SimpleNet zero_net)); gpu_side.
Defined.

End Fmt.
