(* ===== verification/Checkpoint.v ===== *)
(** * Saving and loading the trained weights

    The only contract between the two PyTorch notebooks: line 510 of
    [src/torch-use-gpu.ipynb] writes [torch.save(model.state_dict(),
    "mnist_fashion_SimpleNet.pt")], and lines 86 and 143-154 of
    [src/torch-test-model.ipynb] choose a device, build
    [SimpleNet().to(device)], call
    [model.load_state_dict(torch.load("mnist_fashion_SimpleNet.pt"))] and
    [model.eval()].

    The file system is a gmap from paths to saved state dicts; a state dict
    is a gmap from parameter names to stored tensors (shape, row-major data,
    device).  [torch.load] without [map_location] restores every tensor on
    the device it was saved from, which fails on a host without that
    device.  [load_state_dict] is strict: the keys must be exactly those of
    the model and the shapes must agree; the values are copied into the
    model's parameters, which stay on the model's device. *)

From Stdlib Require Import QArith.
From stdpp Require Import base list option sets gmap strings fin_maps.
From S2P Require Import Prelude Device Shape Net Model.

Module Checkpoint.
Import Dev Shape Net Model.
Local Open Scope gpu_scope.

(** A saved tensor. *)
Record stored := mk_stored { st_shape : list nat; st_data : list Q; st_device : device }.

(** A state dict, and the files of the notebook server. *)
Abbreviation state_dict := (gmap string stored).
Abbreviation files := (gmap string state_dict).

(** The second dimension of a weight matrix. *)
Definition row_len (L : linear) : nat :=
  match weight L with [] => 0 | w :: _ => length w end.

Definition stored_weight (L : linear) (d : device) : stored :=
  mk_stored [length (weight L); row_len L] (concat (weight L)) d.

Definition stored_bias (L : linear) (d : device) : stored :=
  mk_stored [length (bias L)] (bias L) d.

(** [model.state_dict()]: the parameters of [fc1] and [fc2] by name. *)
Definition model_state_dict (m : model) : state_dict :=
  list_to_map [("fc1.weight", stored_weight (fc1 (m_net m)) (m_device m));
               ("fc1.bias", stored_bias (fc1 (m_net m)) (m_device m));
               ("fc2.weight", stored_weight (fc2 (m_net m)) (m_device m));
               ("fc2.bias", stored_bias (fc2 (m_net m)) (m_device m))].

(** [torch.save(obj, path)]. *)
Definition torch_save (fs : files) (path : string) (sd : state_dict) : files :=
  <[path := sd]> fs.

(** Restoring one tensor on the device it was saved from. *)
Definition restore (h : host) (t : stored) : result stored :=
  d ← resolve_device h (st_device t); mret (mk_stored (st_shape t) (st_data t) d).

(** [torch.load(path)] without [map_location]. *)
Definition torch_load (h : host) (fs : files) (path : string) : result state_dict :=
  match fs !! path with
  | None => raise EFileNotFound
  | Some sd =>
      kvs ← map_result (fun kv => t ← restore h kv.2; mret (kv.1, t)) (map_to_list sd);
      mret (list_to_map kvs)
  end.

(** Copy one layer's saved weight and bias into [L], checking shapes. *)
Definition load_linear (kw kb : string) (L : linear) (sd : state_dict) : result linear :=
  match sd !! kw, sd !! kb with
  | Some w, Some b =>
      _ ← guard_or (bool_decide (st_shape w = [length (weight L); row_len L] /\
                                 st_shape b = [length (bias L)])) EStateDict;
      mret (mk_linear (chunk (row_len L) (st_data w)) (st_data b))
  | _, _ => Err EStateDict
  end.

(** [model.load_state_dict(sd)] (strict): a missing key fails the lookups,
    an unexpected one the size check. *)
Definition load_state_dict (m : model) (sd : state_dict) : result model :=
  _ ← guard_or (bool_decide (size sd = 4)) EStateDict;
  l1 ← load_linear "fc1.weight" "fc1.bias" (fc1 (m_net m)) sd;
  l2 ← load_linear "fc2.weight" "fc2.bias" (fc2 (m_net m)) sd;
  mret (mk_model (mk_net l1 l2) (m_device m) (m_training m) (m_grad m)).

Definition weights_path : string := "mnist_fashion_SimpleNet.pt".

(** Line 510 of torch-use-gpu. *)
Definition save_cell (m : model) (fs : files) : files :=
  torch_save fs weights_path (model_state_dict m).

(** Lines 86-87 of torch-test-model: the device cell of torch-use-gpu
    again, choosing the device and printing it. *)
Definition tm_device_cell (h : host) : result (device * string) :=
  d ← select_device h; mret (d, device_str d).

(** Lines 86, 143-144 and 154 of torch-test-model: the fresh model's
    parameters [init] are torch's random initialisation. *)
Definition load_cells (h : host) (init : simple_net) (fs : files) : result model :=
  '(d, _) ← tm_device_cell h;
  m ← model_to h (SimpleNet init) d;
  sd ← torch_load h fs weights_path;
  m' ← load_state_dict m sd;
  mret (set_mode false m').

(** ** Properties *)

Lemma model_state_dict_lookup (m : model) :
  model_state_dict m !! "fc1.weight" = Some (stored_weight (fc1 (m_net m)) (m_device m)) /\
  model_state_dict m !! "fc1.bias" = Some (stored_bias (fc1 (m_net m)) (m_device m)) /\
  model_state_dict m !! "fc2.weight" = Some (stored_weight (fc2 (m_net m)) (m_device m)) /\
  model_state_dict m !! "fc2.bias" = Some (stored_bias (fc2 (m_net m)) (m_device m)).
Proof. split_and!; reflexivity. Qed.

Lemma model_state_dict_size (m : model) : size (model_state_dict m) = 4.
Proof. reflexivity. Qed.

Lemma model_state_dict_device (m : model) (k : string) (t : stored) :
  model_state_dict m !! k = Some t -> st_device t = m_device m.
Proof.
  intros Hk%elem_of_list_to_map_2. rewrite !elem_of_cons, elem_of_nil in Hk.
  destruct_or! Hk; simplify_eq; reflexivity.
Qed.

Lemma row_len_wf (d : linear_dims) (L : linear) :
  linear_wf d L -> 0 < out_features d -> row_len L = in_features d.
Proof.
  intros (Hw & _ & Hr) Hout. unfold row_len.
  destruct (weight L) as [|w W]; [simpl in Hw; lia|]. by inversion Hr.
Qed.

(** Loading a layer's own saved tensors into a layer of the same shape
    gives the saved layer back. *)
Lemma load_linear_roundtrip (d : linear_dims) (L L' : linear) (kw kb : string)
    (sd : state_dict) (dev : device) :
  0 < in_features d -> 0 < out_features d ->
  linear_wf d L -> linear_wf d L' ->
  sd !! kw = Some (stored_weight L dev) -> sd !! kb = Some (stored_bias L dev) ->
  load_linear kw kb L' sd = Ok L.
Proof.
  intros Hin Hout HL HL' Hw Hb. unfold load_linear. rewrite Hw, Hb.
  unfold stored_weight, stored_bias. simpl.
  rewrite (row_len_wf d L), (row_len_wf d L') by done.
  destruct HL as (HLw & HLb & HLr), HL' as (HL'w & HL'b & _).
  rewrite bool_decide_eq_true_2 by (rewrite HLw, HL'w, HLb, HL'b; done). simpl.
  rewrite chunk_concat by done. by destruct L.
Qed.

Lemma load_own_state_dict (m m' : model) :
  net_wf (m_net m) -> net_wf (m_net m') ->
  load_state_dict m' (model_state_dict m) =
    Ok (mk_model (m_net m) (m_device m') (m_training m') (m_grad m')).
Proof.
  intros [H1 H2] [H1' H2']. unfold load_state_dict.
  rewrite model_state_dict_size. simpl.
  destruct (model_state_dict_lookup m) as (Hw1 & Hb1 & Hw2 & Hb2).
  rewrite (load_linear_roundtrip fc1_dims (fc1 (m_net m)) (fc1 (m_net m'))
             "fc1.weight" "fc1.bias" _ (m_device m))
    by first [done | simpl; lia].
  rewrite (load_linear_roundtrip fc2_dims (fc2 (m_net m)) (fc2 (m_net m'))
             "fc2.weight" "fc2.bias" _ (m_device m))
    by first [done | simpl; lia].
  simpl. by destruct (m_net m).
Qed.

(** C29: [load_state_dict] of a model's own [state_dict] into a model with
    parameters of the same shapes copies the parameters exactly and keeps
    the target's device, mode and gradients. *)
Theorem state_dict_roundtrip (m m' : model) :
  net_wf (m_net m) -> net_wf (m_net m') ->
  load_state_dict m' (model_state_dict m) =
    Ok (mk_model (m_net m) (m_device m') (m_training m') (m_grad m')).
Proof. apply load_own_state_dict. Qed.

Lemma state_dict_roundtrip_witness :
  net_wf zero_net /\ net_wf zero_net /\
  load_state_dict (SimpleNet zero_net) (model_state_dict (mk_model zero_net cuda0 true None)) =
    Ok (mk_model zero_net cpu true None).
Proof.
  split_and!; [gpu_side..|].
  apply (state_dict_roundtrip (mk_model zero_net cuda0 true None) (SimpleNet zero_net));
    apply zero_net_wf.
Defined.

(** The device cell and [SimpleNet().to(device)] cannot fail, so the load
    cells end as [torch.load] and [load_state_dict] do. *)
Lemma load_cells_eq (h : host) (init : simple_net) (fs : files) :
  load_cells h init fs =
    (sd ← torch_load h fs weights_path;
     m' ← load_state_dict (mk_model init (if is_available h then cuda0 else cpu) true None) sd;
     mret (set_mode false m')).
Proof.
  unfold load_cells, tm_device_cell. rewrite select_device_value. simpl.
  unfold model_to. rewrite resolve_selected. reflexivity.
Qed.

Lemma torch_load_saved (h : host) (m : model) (fs : files) :
  resolve_device h (m_device m) = Ok (m_device m) ->
  torch_load h (save_cell m fs) weights_path = Ok (model_state_dict m).
Proof.
  intros Hres. unfold torch_load, save_cell, torch_save. rewrite lookup_insert_eq.
  rewrite (map_result_total _ (fun kv => kv)).
  - simpl. rewrite map_id, list_to_map_to_list. done.
  - intros [k t] Hkt%elem_of_map_to_list. unfold restore. simpl.
    rewrite (model_state_dict_device _ _ _ Hkt), Hres. simpl.
    rewrite <- (model_state_dict_device _ _ _ Hkt). by destruct t.
Qed.

Lemma map_to_list_state_dict_cons (m : model) :
  exists kv rest, map_to_list (model_state_dict m) = kv :: rest.
Proof.
  destruct (map_to_list (model_state_dict m)) as [|kv rest] eqn:E; [|eauto].
  apply map_to_list_empty_iff in E.
  destruct (model_state_dict_lookup m) as (Hw & _). rewrite E, lookup_empty in Hw. done.
Qed.

Lemma torch_load_no_gpu (h : host) (m : model) (fs : files) :
  gpu_names h = [] -> dev_type (m_device m) = CUDA ->
  torch_load h (save_cell m fs) weights_path = Err ENoCuda.
Proof.
  intros Hg Hd. unfold torch_load, save_cell, torch_save. rewrite lookup_insert_eq.
  destruct (map_to_list_state_dict_cons m) as ([k t] & rest & E). rewrite E. simpl.
  assert (Hkt : model_state_dict m !! k = Some t).
  { apply elem_of_map_to_list. rewrite E. by left. }
  unfold restore, resolve_device. rewrite (model_state_dict_device _ _ _ Hkt), Hd.
  destruct h as [g]. simpl in Hg. subst g. done.
Qed.

(** Loading what [save_cell] wrote, on the host whose selected device
    the saved model is on. *)
Lemma load_after_save (h : host) (init : simple_net) (m : model) (fs : files) :
  net_wf init -> net_wf (m_net m) ->
  m_device m = (if is_available h then cuda0 else cpu) ->
  load_cells h init (save_cell m fs) = Ok (mk_model (m_net m) (m_device m) false None).
Proof.
  intros Hi Hm Hd. rewrite load_cells_eq.
  rewrite torch_load_saved by (rewrite Hd; apply resolve_selected). simpl.
  rewrite load_own_state_dict by done. simpl. rewrite Hd. done.
Qed.

(** C14: the weights file is the contract between the two notebooks: on the
    same host, the model torch-test-model builds and loads (lines 86,
    143-154) has exactly the parameters torch-use-gpu saved (line 510), on
    the device line 86 selects, in evaluation mode, without gradients. *)
Theorem checkpoint_across_notebooks (h : host) (init : simple_net) (m : model)
    (fs : files) :
  net_wf init -> net_wf (m_net m) ->
  m_device m = (if is_available h then cuda0 else cpu) ->
  load_cells h init (save_cell m fs) = Ok (mk_model (m_net m) (m_device m) false None).
Proof. apply load_after_save. Qed.

Lemma checkpoint_across_notebooks_witness :
  net_wf zero_net /\ net_wf zero_net /\
  m_device (mk_model zero_net cuda0 true None) =
    (if is_available gpu_host then cuda0 else cpu) /\
  load_cells gpu_host zero_net (save_cell (mk_model zero_net cuda0 true None) ∅) =
    Ok (mk_model zero_net cuda0 false None).
Proof.
  split_and!; [gpu_side..|].
  apply (checkpoint_across_notebooks gpu_host zero_net (mk_model zero_net cuda0 true None));
    gpu_side.
Defined.

(** C30: the fallback of line 86 does not cover line 144: weights saved from
    a GPU cannot be loaded on a host without one, since [torch.load] is
    called without [map_location]. *)
Theorem load_without_gpu_fails (h : host) (init : simple_net) (m : model) (fs : files) :
  gpu_names h = [] -> dev_type (m_device m) = CUDA ->
  load_cells h init (save_cell m fs) = Err ENoCuda.
Proof.
  intros Hg Hd. rewrite load_cells_eq, torch_load_no_gpu by done. done.
Qed.

Lemma load_without_gpu_fails_witness :
  gpu_names cpu_host = [] /\ dev_type (m_device (mk_model zero_net cuda0 true None)) = CUDA /\
  load_cells cpu_host zero_net (save_cell (mk_model zero_net cuda0 true None) ∅) = Err ENoCuda.
Proof.
  split_and!; [reflexivity|reflexivity|].
  apply load_without_gpu_fails; reflexivity.
Defined.

(** C31: running torch-test-model before torch-use-gpu has saved the
    weights raises [FileNotFoundError] at [torch.load]. *)
Theorem load_before_save_fails (h : host) (init : simple_net) (fs : files) :
  fs !! weights_path = None -> load_cells h init fs = Err EFileNotFound.
Proof.
  intros Hf. rewrite load_cells_eq. unfold torch_load. rewrite Hf. done.
Qed.

Lemma load_before_save_fails_witness :
  (∅ : files) !! weights_path = None /\ load_cells gpu_host zero_net ∅ = Err EFileNotFound.
Proof. split; [reflexivity|]. apply load_before_save_fails. reflexivity. Defined.

End Checkpoint.
