(* ===== verification/Predict.v ===== *)
(** * Running the trained model on single test images

    The prediction part of [src/torch-test-model.ipynb]: the global
    [batch_size = 1] (line 110) and the notebook's own [SimpleNet] whose
    [forward] reads it (lines 113-125), the test loader and its iterator
    [testing_iterator = iter(test_loader)] with [labels_map] (lines
    164-191), [get_probs] (lines 201-212) and the cell run repeatedly to
    classify the next test image (lines 234-248).  Also the plotting cell of
    [src/torch-use-gpu.ipynb] (lines 349-372), which looks up [labels_map]
    for nine random training samples; [torch.randint] is a parameter (its
    nine draws), and the plot itself is not modelled.

    [labels_map] is a Python dict, modelled as a gmap with [dict_get]
    raising [KeyError]; the iterator is the list of batches not yet
    consumed, and [.next()] raises [StopIteration] at the end.  Running the
    cell again and again is the step relation [predict_step] on the model
    and the iterator: it terminates ([predict_terminates]) and reaches the
    end of the test set ([predict_reaches_stop]). *)

From Stdlib Require Import QArith Wellfounded.
From stdpp Require Import base list option sets gmap strings fin_maps.
From S2P Require Import Prelude Device Shape Net Loader Transform Model.

Module Predict.
Import Dev Shape Net Loader Transform Model.
Local Open Scope gpu_scope.

(** The class names (line 350 of torch-use-gpu, line 180 of
    torch-test-model). *)
Definition labels_map : gmap nat string :=
  list_to_map [(0, "T-Shirt"); (1, "Trouser"); (2, "Pullover"); (3, "Dress");
               (4, "Coat"); (5, "Sandal"); (6, "Shirt"); (7, "Sneaker");
               (8, "Bag"); (9, "Ankle Boot")].

(** [d[k]] on a Python dict. *)
Definition dict_get (d : gmap nat string) (k : nat) : result string :=
  match d !! k with Some v => Ok v | None => raise EKey end.

(** [lst[i]] on a Python sequence. *)
Definition list_get {A} (l : list A) (i : nat) : result A :=
  match l !! i with Some v => Ok v | None => raise EIndex end.

(** [iter(test_loader)] and its [.next()]. *)
Record iterator := mk_iter { it_rest : list batch }.

Definition iter (dl : data_loader) : iterator := mk_iter (batches dl).

Definition next (it : iterator) : result (batch * iterator) :=
  match it_rest it with
  | [] => raise EStopIteration
  | b :: rest => Ok (b, mk_iter rest)
  end.

(** The global of line 110. *)
Definition batch_size_tm : nat := 1.

(** Lines 166-175: [testset] with [test_transform] and [test_loader] with
    [batch_size = 1], [shuffle=False]. *)
Definition test_loader_tm (raw : list raw_sample) : result data_loader :=
  testset ← FashionMNIST raw test_transform;
  DataLoader testset batch_size_tm.

Section WithExp.
Context `{QExp}.

(** [SimpleNet.forward] as torch-test-model defines it (lines 113-125): the
    class of torch-use-gpu, reading this notebook's [batch_size = 1]. *)
Definition forward_tm (n : simple_net) (x : qtensor) : result (list (list Q)) :=
  forward n batch_size_tm x.

(** [get_probs(model, x, y, device)] (lines 201-212): the model and both
    tensors moved to [device], [model(x)] under [no_grad], [squeeze()],
    and [output[y]].  [squeeze] keeps the data and drops the batch
    dimension, so the probabilities are the output's data. *)
Definition get_probs (h : host) (m : model) (x : qtensor) (y : list nat)
    (device : device) : result (model * list Q * list Q) :=
  m' ← model_to h m device;
  xd ← resolve_device h device;
  _ ← resolve_device h device;
  _ ← guard_or (bool_decide (xd = m_device m')) EDeviceMismatch;
  out ← forward_tm (m_net m') x;
  let probs := concat out in
  gt ← map_result (list_get probs) y;
  mret (m', probs, gt).

(** What the prediction cell prints. *)
Record prediction := mk_prediction {
  predicted : string;
  confidence : Q;
  truth : string
}.

(** The cell of lines 234-248: take the next test image, squeeze its
    batch dimension, run [get_probs], take [torch.argmax(probs)] and print
    the class names of the prediction and of the label. *)
Definition predict_cell (h : host) (device : device) (m : model) (it : iterator)
  : result (model * iterator * prediction) :=
  '(b, it') ← next it;
  s ← squeeze_dim 0 (q_shape (b_data b));
  let image := mk_qtensor s (q_data (b_data b)) in
  '(m', probs, _) ← get_probs h m image (b_target b) device;
  i ← (match argmax probs with Some i => Ok i | None => Err EIndex end);
  name ← dict_get labels_map i;
  conf ← list_get probs i;
  t ← (match b_target b with [t] => Ok t | _ => Err EValue end);
  truth_name ← dict_get labels_map t;
  mret (m', it', mk_prediction name conf truth_name).

(** The cell run [k] times in a row. *)
Fixpoint run_predict (k : nat) (h : host) (device : device) (m : model) (it : iterator)
  : result (model * iterator * list prediction) :=
  match k with
  | O => Ok (m, it, [])
  | S k' =>
      '(m1, it1, p) ← predict_cell h device m it;
      '(m2, it2, ps) ← run_predict k' h device m1 it1;
      mret (m2, it2, p :: ps)
  end.

(** One successful run of the cell, as a step of the notebook's state
    (the model and the iterator). *)
Inductive predict_step (h : host) (device : device)
  : model * iterator -> model * iterator -> Prop :=
| predict_step_run m it m' it' p :
    predict_cell h device m it = Ok (m', it', p) ->
    predict_step h device (m, it) (m', it').

End WithExp.

(** What the cell prints for one sample, by the reference: the class of
    the largest probability, that probability, and the true class. *)
Definition spec_prediction `{QExp} (n : simple_net) (s : sample) : prediction :=
  let p := forward_row n (s_image s) in
  let i := default 0 (argmax p) in
  mk_prediction (default "" (labels_map !! i)) (default 0%Q (p !! i))
                (default "" (labels_map !! s_label s)).

(** Lines 364-372 of torch-use-gpu: for [i] in [1..9], a random index into
    [trainset], its label, and [labels_map[label]] as the title. *)
Definition plot_cell (trainset : list sample) (draws : list nat) : result (list string) :=
  map_result (fun idx => s ← list_get trainset idx; dict_get labels_map (s_label s))
    (take 9 draws).

(** ** Properties *)

(** A successful run of the cell consumes exactly the iterator's first
    batch. *)
Lemma predict_cell_consumes `{QExp} (h : host) (d : device) (m m' : model)
    (it it' : iterator) (p : prediction) :
  predict_cell h d m it = Ok (m', it', p) -> exists b, it_rest it = b :: it_rest it'.
Proof.
  unfold predict_cell, next. destruct it as [[|b rest]]; [done|]. simpl.
  intros Hc. exists b. inv_ok Hc. done.
Qed.

(** C17: termination: running the prediction cell again and again cannot
    succeed forever, whatever the host, device, model and iterator: the
    successful runs form a well-founded order, each one consuming a batch
    of the iterator. *)
Theorem predict_terminates `{QExp} (h : host) (d : device) :
  well_founded (fun s' s => predict_step h d s s').
Proof.
  apply (wf_incl _ _ (fun s' s => length (it_rest s'.2) < length (it_rest s.2))).
  - intros s' s [m it m' it' p Hc]. simpl.
    destruct (predict_cell_consumes h d m m' it it' p Hc) as [b ->]. simpl. lia.
  - apply (wf_inverse_image _ nat lt (fun s => length (it_rest s.2))), lt_wf.
Qed.

Lemma labels_map_total (i : nat) : i < 10 -> exists name, labels_map !! i = Some name.
Proof.
  intros Hi. do 10 (destruct i as [|i]; [eexists; reflexivity|]). lia.
Qed.

Lemma dict_get_labels (i : nat) :
  i < 10 -> dict_get labels_map i = Ok (default "" (labels_map !! i)).
Proof.
  intros Hi. destruct (labels_map_total i Hi) as [name Hn].
  unfold dict_get. by rewrite Hn.
Qed.

Section WithExp.
Context `{QExp}.
Variables (h : host) (d : device) (m : model).
Hypothesis Hd : resolve_device h d = Ok (m_device m).
Hypothesis Hn : net_wf (m_net m).

Lemma model_to_same : model_to h m d = Ok m.
Proof. unfold model_to. rewrite Hd. by destruct m. Qed.

Lemma probs_length (s : sample) : length (forward_row (m_net m) (s_image s)) = 10.
Proof. by apply forward_row_length. Qed.

(** One run of the prediction cell on the next test image [s]. *)
Lemma predict_cell_one (s : sample) (rest : list batch) :
  sample_wf s ->
  predict_cell h d m (mk_iter (collate [s] :: rest)) =
    Ok (m, mk_iter rest, spec_prediction (m_net m) s).
Proof.
  intros Hs. pose proof Hs as [Him Hl]. unfold predict_cell, next. simpl.
  unfold get_probs. rewrite model_to_same, Hd. simpl.
  rewrite bool_decide_eq_true_2 by done. simpl.
  replace (chunk 784 (s_image s ++ [])) with [s_image s]
    by (symmetry; apply (chunk_concat 784 [s_image s]); [lia|by constructor]).
  simpl. rewrite app_nil_r.
  set (p := forward_row (m_net m) (s_image s)).
  assert (Hp : length p = 10) by apply probs_length.
  destruct (lookup_lt_is_Some_2 p (s_label s)) as [q Ep]; [lia|].
  destruct (argmax p) as [i|] eqn:Ei;
    [|apply argmax_None in Ei; rewrite Ei in Hp; done].
  destruct (argmax_Some_max p i Ei) as (v & Hv & _).
  assert (i < 10) by (rewrite <- Hp; by eapply lookup_lt_Some).
  unfold list_get. rewrite Ep. simpl. rewrite Ei. simpl.
  rewrite dict_get_labels by done. simpl. rewrite Hv. simpl.
  rewrite dict_get_labels by done. simpl.
  unfold spec_prediction. subst p. simpl. rewrite Ei. simpl. rewrite Hv. done.
Qed.

Lemma run_predict_singletons (k : nat) (ds : list sample) :
  Forall sample_wf ds -> k <= length ds ->
  run_predict k h d m (mk_iter (map (fun s => collate [s]) ds)) =
    Ok (m, mk_iter (drop k (map (fun s => collate [s]) ds)),
        map (spec_prediction (m_net m)) (take k ds)).
Proof.
  revert ds. induction k as [|k IH]; intros ds Hwf Hk; [done|].
  destruct ds as [|s ds]; simpl in Hk; [lia|]. apply Forall_cons in Hwf as [Hs Hwf].
  simpl. rewrite predict_cell_one by done. simpl. rewrite IH by (done || lia). done.
Qed.

Lemma run_predict_past_end (k : nat) (ds : list sample) :
  Forall sample_wf ds -> length ds < k ->
  run_predict k h d m (mk_iter (map (fun s => collate [s]) ds)) = Err EStopIteration.
Proof.
  revert k. induction ds as [|s ds IH]; intros k Hwf Hk;
    (destruct k as [|k]; simpl in Hk; [lia|]); [done|].
  apply Forall_cons in Hwf as [Hs Hwf].
  simpl. rewrite predict_cell_one by done. simpl. rewrite IH by (done || lia). done.
Qed.

(** C15: running the prediction cell [k] times on a fresh
    [iter(test_loader)] with [batch_size = 1], for [k] up to the size of
    the test set, succeeds, leaves the model unchanged, consumes exactly
    the first [k] batches, and prints the predictions of the first [k]
    test images in order. *)
Theorem run_predict_spec (ds : list sample) (k : nat) :
  Forall sample_wf ds -> k <= length ds ->
  run_predict k h d m (iter (mk_loader ds batch_size_tm)) =
    Ok (m, mk_iter (drop k (batches (mk_loader ds batch_size_tm))),
        map (spec_prediction (m_net m)) (take k ds)).
Proof.
  intros Hwf Hk. unfold iter, batch_size_tm. rewrite batches_size_one.
  by apply run_predict_singletons.
Qed.

(** C33: one run more than there are test images raises [StopIteration]
    from [testing_iterator.next()]. *)
Theorem run_predict_exhausted (ds : list sample) (k : nat) :
  Forall sample_wf ds -> length ds < k ->
  run_predict k h d m (iter (mk_loader ds batch_size_tm)) = Err EStopIteration.
Proof.
  intros Hwf Hk. unfold iter, batch_size_tm. rewrite batches_size_one.
  by apply run_predict_past_end.
Qed.

(** C32: what the prediction cell prints: the predicted class is the name
    of a class whose probability is the printed confidence, that
    confidence is at least every other class probability and lies in
    (0, 1] (a fraction, not a percentage), and the correct label is the
    name of the image's class; no [KeyError] or [IndexError] is raised. *)
Theorem predict_cell_prints (s : sample) (rest : list batch) m' it' p :
  sample_wf s ->
  predict_cell h d m (mk_iter (collate [s] :: rest)) = Ok (m', it', p) ->
  (exists i, forward_row (m_net m) (s_image s) !! i = Some (confidence p) /\
             labels_map !! i = Some (predicted p)) /\
  (forall j w, forward_row (m_net m) (s_image s) !! j = Some w -> (w <= confidence p)%Q) /\
  (0 < confidence p /\ confidence p <= 1)%Q /\
  labels_map !! s_label s = Some (truth p).
Proof.
  intros Hs. pose proof Hs as [_ Hl]. rewrite predict_cell_one by done.
  intros [= <- <- <-]. unfold spec_prediction; simpl.
  set (q := forward_row (m_net m) (s_image s)).
  assert (Hq : length q = 10) by apply probs_length.
  destruct (argmax q) as [i|] eqn:Ei;
    [|apply argmax_None in Ei; rewrite Ei in Hq; done].
  destruct (argmax_Some_max q i Ei) as (v & Hv & Hle). simpl. rewrite Hv; simpl.
  assert (i < 10) by (rewrite <- Hq; by eapply lookup_lt_Some).
  destruct (labels_map_total i) as [ni Hni]; [done|].
  destruct (labels_map_total (s_label s)) as [nt Hnt]; [done|].
  rewrite Hni, Hnt. split_and!; [by exists i| exact Hle | | | done];
    apply (forward_row_bounds (m_net m) (s_image s) v), list_elem_of_lookup_2 with i; exact Hv.
Qed.

Lemma predict_nsteps_singletons (ds : list sample) :
  Forall sample_wf ds ->
  nsteps (predict_step h d) (length ds) (m, mk_iter (map (fun s => collate [s]) ds))
    (m, mk_iter []).
Proof.
  induction 1 as [|s ds Hs Hds IH]; simpl; [constructor|].
  eapply nsteps_l; [|exact IH]. econstructor. by apply predict_cell_one.
Qed.

(** C16: liveness of the prediction loop of torch-test-model: on the
    notebook's [test_loader] over any well-formed FashionMNIST test set,
    each run of the cell succeeds until, after exactly one run per test
    image, the iterator is exhausted and the next run raises
    [StopIteration]. *)
Theorem predict_reaches_stop (raw : list raw_sample) :
  Forall raw_wf raw ->
  exists dl, test_loader_tm raw = Ok dl /\
    nsteps (predict_step h d) (length raw) (m, iter dl) (m, mk_iter []) /\
    predict_cell h d m (mk_iter []) = Err EStopIteration.
Proof.
  intros Hraw. exists (mk_loader (map fmnist_sample raw) batch_size_tm). split_and!.
  - unfold test_loader_tm. change test_transform with train_transform.
    by rewrite FashionMNIST_notebook.
  - unfold iter, batch_size_tm. rewrite batches_size_one.
    rewrite <- (length_map fmnist_sample raw). apply predict_nsteps_singletons.
    apply Forall_map. eapply Forall_impl; [exact Hraw|]. apply fmnist_sample_wf.
  - reflexivity.
Qed.

End WithExp.

(** C34: the plotting cell of torch-use-gpu: when the draws of
    [torch.randint(len(training_data))] are indices of the training set and
    its labels are class indices, the cell raises no [IndexError] or
    [KeyError] and titles the nine plots with the class names of the first
    nine drawn samples, in order. *)
Theorem plot_cell_titles (trainset : list sample) (draws : list nat) :
  Forall (fun s => s_label s < 10) trainset ->
  Forall (fun i => i < length trainset) draws ->
  plot_cell trainset draws =
    Ok (map (fun idx => default "" (trainset !! idx ≫= fun s => labels_map !! s_label s))
            (take 9 draws)).
Proof.
  intros Hl Hd. apply map_result_total. intros idx (j & Hj & _)%elem_of_take.
  pose proof (proj1 (Forall_lookup _ _) Hd j idx Hj) as Hidx.
  destruct (lookup_lt_is_Some_2 trainset idx Hidx) as [s Hs].
  pose proof (proj1 (Forall_lookup _ _) Hl idx s Hs) as Hls.
  unfold list_get. rewrite Hs. simpl. rewrite dict_get_labels by done. done.
Qed.

(** A test image of class 3 (all pixels 0) and the trained model on the
    GPU, for concrete runs of the prediction cell. *)
Definition zero_image_sample : sample := mk_sample (replicate 784 0%Q) 3.

Definition gpu_model : model := mk_model zero_net cuda0 false None.

Lemma zero_image_sample_wf : sample_wf zero_image_sample.
Proof. split; [apply length_replicate|unfold zero_image_sample; simpl; lia]. Qed.

Lemma zero_image_sample_wf_all : Forall sample_wf [zero_image_sample].
Proof. constructor; [apply zero_image_sample_wf|constructor]. Qed.

#[export] Hint Resolve zero_image_sample_wf zero_image_sample_wf_all : gpu.

Lemma run_predict_spec_witness :
  resolve_device gpu_host cuda0 = Ok (m_device gpu_model) /\ net_wf (m_net gpu_model) /\
  Forall sample_wf [zero_image_sample] /\ 1 <= length [zero_image_sample] /\
  run_predict 1 gpu_host cuda0 gpu_model (iter (mk_loader [zero_image_sample] batch_size_tm)) =
    Ok (gpu_model, mk_iter (drop 1 (batches (mk_loader [zero_image_sample] batch_size_tm))),
        map (spec_prediction (m_net gpu_model)) (take 1 [zero_image_sample])).
Proof.
  split_and!; [gpu_side..|].
  apply (run_predict_spec gpu_host cuda0 gpu_model); gpu_side.
Defined.

Lemma run_predict_exhausted_witness :
  resolve_device gpu_host cuda0 = Ok (m_device gpu_model) /\ net_wf (m_net gpu_model) /\
  Forall sample_wf [zero_image_sample] /\ length [zero_image_sample] < 2 /\
  run_predict 2 gpu_host cuda0 gpu_model (iter (mk_loader [zero_image_sample] batch_size_tm)) =
    Err EStopIteration.
Proof.
  split_and!; [gpu_side..|].
  apply (run_predict_exhausted gpu_host cuda0 gpu_model); gpu_side.
Defined.

Lemma predict_cell_prints_witness :
  resolve_device gpu_host cuda0 = Ok (m_device gpu_model) /\ net_wf (m_net gpu_model) /\
  sample_wf zero_image_sample /\
  predict_cell gpu_host cuda0 gpu_model (mk_iter [collate [zero_image_sample]]) =
    Ok (gpu_model, mk_iter [], spec_prediction (m_net gpu_model) zero_image_sample) /\
  let p := spec_prediction (m_net gpu_model) zero_image_sample in
  (0 < confidence p /\ confidence p <= 1)%Q /\
  labels_map !! s_label zero_image_sample = Some (truth p).
Proof.
  assert (Hc : predict_cell gpu_host cuda0 gpu_model (mk_iter [collate [zero_image_sample]]) =
    Ok (gpu_model, mk_iter [], spec_prediction (m_net gpu_model) zero_image_sample))
    by (apply predict_cell_one; gpu_side).
  destruct (predict_cell_prints gpu_host cuda0 gpu_model ltac:(reflexivity) (zero_net_wf)
              zero_image_sample [] _ _ _ zero_image_sample_wf Hc) as (_ & _ & Hb & Ht).
  split_and!; [gpu_side..|exact Hc|exact (conj Hb Ht)].
Defined.

Lemma plot_cell_titles_witness :
  Forall (fun s => s_label s < 10) three_samples /\
  Forall (fun i => i < length three_samples) [2; 0; 1] /\
  plot_cell three_samples [2; 0; 1] = Ok ["Pullover"; "T-Shirt"; "Trouser"].
Proof.
  split_and!; [repeat constructor; simpl; lia|repeat constructor; simpl; lia|].
  rewrite plot_cell_titles by (repeat constructor; simpl; lia). reflexivity.
Defined.

Lemma predict_reaches_stop_witness :
  resolve_device gpu_host cuda0 = Ok (m_device gpu_model) /\ net_wf (m_net gpu_model) /\
  Forall raw_wf [raw0] /\
  exists dl, test_loader_tm [raw0] = Ok dl /\
    nsteps (predict_step gpu_host cuda0) 1 (gpu_model, iter dl) (gpu_model, mk_iter []) /\
    predict_cell gpu_host cuda0 gpu_model (mk_iter []) = Err EStopIteration.
Proof.
  assert (Hw : Forall raw_wf [raw0]) by (apply Forall_replicate with (n := 1), raw0_wf).
  split_and!; [gpu_side..|exact Hw|].
  apply (predict_reaches_stop gpu_host cuda0 gpu_model); [gpu_side..|exact Hw].
Defined.

End Predict.

