(* ===== verification/Notebook.v ===== *)
(** * The two PyTorch notebooks end to end

    How the components compose in [src/torch-use-gpu.ipynb]: the device
    cell (line 135), [model = SimpleNet().to(device)] (line 279), the
    datasets and loaders of lines 311-331 with [batch_size = 100] (line
    244), the epoch loop of lines 465-481 and the saving cell (line 510);
    then the loading cells of [src/torch-test-model.ipynb] on the same
    host.  The device cells that create [X_train] and [X_test] (lines
    157-213) are left out: they raise on a host without a GPU
    ([run_device_cells_cpu]) and do not touch the model.

    [notebooks_end_to_end] is the composition theorem: on any host, from
    well-formed FashionMNIST records whose counts are multiples of 100,
    the training notebook runs to the end, each printed report is the
    reference evaluation of the parameters after that many epochs of
    per-batch gradient descent on the normalised images, and the test
    notebook loads exactly the parameters after [EPOCHS] epochs. *)

From Stdlib Require Import QArith.
From stdpp Require Import base list option sets gmap strings.
From S2P Require Import Prelude Device Shape Net Loader Transform Model Eval Train Adadelta Checkpoint.

Module Notebook.
Import Dev Shape Net Loader Transform Model Eval Train Adadelta Checkpoint.

(** Line 244. *)
Definition batch_size_ug : nat := 100.

Section WithFramework.
Context `{QExp} `{Autograd} `{Optimizer}.

(** Lines 135, 279, 311-331, 465-481 and 510 of torch-use-gpu, in order;
    the optimizer built at line 468 starts in the state [opt_init], and
    [init] is the random initial parameters.  The result is the list of reports printed and the
    files afterwards. *)
Definition use_gpu_notebook (h : host) (init : simple_net)
    (raw_train raw_test : list raw_sample) (fs : files) : result (list report * files) :=
  '(device, _) ← cell_device h;
  model ← model_to h (SimpleNet init) device;
  trainset ← FashionMNIST raw_train train_transform;
  train_loader ← DataLoader trainset batch_size_ug;
  testset ← FashionMNIST raw_test test_transform;
  test_loader ← DataLoader testset batch_size_ug;
  let optimizer := opt_init in
  '(_, model', reps) ← run_epochs h batch_size_ug device train_loader test_loader optimizer model;
  mret (reps, save_cell model' fs).

(** The reference parameters after [n] epochs on the normalised training
    records. *)
Definition spec_params (init : simple_net) (raw_train : list raw_sample)
    (n : nat) : simple_net :=
  (spec_epochs n (batches (mk_loader (map fmnist_sample raw_train) batch_size_ug))
     (opt_init, init, None)).1.2.

(** ** Properties *)

Lemma fmnist_samples_wf (raw : list raw_sample) :
  Forall raw_wf raw -> Forall sample_wf (map fmnist_sample raw).
Proof. intros Hraw. apply Forall_map. eapply Forall_impl; [exact Hraw|]. apply fmnist_sample_wf. Qed.

(** C1: the two notebooks end to end, on any host: from well-formed
    FashionMNIST records whose counts are multiples of [batch_size = 100]
    (as 60000 and 10000 are) and a non-empty test set, torch-use-gpu runs
    to the end, prints [EPOCHS] reports of which the [k+1]-th is the
    reference loss and accuracy, on the normalised test images, of the
    parameters after [k+1] epochs of per-batch gradient descent on the
    normalised training images, and torch-test-model, run afterwards on the
    same host, loads exactly the parameters after [EPOCHS] epochs, on the
    selected device, in evaluation mode. *)
Theorem notebooks_end_to_end (h : host) (init init' : simple_net)
    (raw_train raw_test : list raw_sample) (fs : files) :
  net_wf init -> net_wf init' -> Forall raw_wf raw_train -> Forall raw_wf raw_test ->
  Nat.divide batch_size_ug (length raw_train) -> Nat.divide batch_size_ug (length raw_test) ->
  length raw_test <> 0%nat ->
  exists reps fs', use_gpu_notebook h init raw_train raw_test fs = Ok (reps, fs') /\
    length reps = EPOCHS /\
    (forall k r, reps !! k = Some r ->
       report_matches (spec_params init raw_train (S k)) (map fmnist_sample raw_test) r) /\
    load_cells h init' fs' =
      Ok (mk_model (spec_params init raw_train EPOCHS)
                   (if is_available h then cuda0 else cpu) false None).
Proof.
  intros Hi Hi' Htr Hte Hdtr Hdte Hne.
  set (sel := if is_available h then cuda0 else cpu).
  set (dl := mk_loader (map fmnist_sample raw_train) batch_size_ug).
  set (dlt := mk_loader (map fmnist_sample raw_test) batch_size_ug).
  assert (Hdl : DataLoader (map fmnist_sample raw_train) batch_size_ug = Ok dl) by done.
  assert (Hdlt : DataLoader (map fmnist_sample raw_test) batch_size_ug = Ok dlt) by done.
  destruct (epochs_fold h batch_size_ug sel (map fmnist_sample raw_train)
              (map fmnist_sample raw_test) dl dlt Hdl (fmnist_samples_wf _ Htr)
              ltac:(by rewrite length_map) Hdlt (fmnist_samples_wf _ Hte)
              ltac:(by rewrite length_map) ltac:(by rewrite length_map)
              (seq 1 EPOCHS) opt_init (mk_model init sel true None) [])
    as (o' & m' & reps & Hf & Hl & Hs & Hdv & Hw & _ & Hr);
    [apply resolve_selected|done|by apply opt_init_inv|].
  rewrite length_seq in Hl, Hs. cbn [m_net m_grad m_device] in Hs, Hdv, Hr.
  exists reps, (save_cell m' fs). split_and!; [|done| |].
  - unfold use_gpu_notebook, cell_device. rewrite select_device_value. simpl.
    unfold model_to. rewrite resolve_selected. simpl.
    rewrite FashionMNIST_notebook by done. simpl.
    change test_transform with train_transform.
    rewrite FashionMNIST_notebook by done. simpl.
    unfold run_epochs. subst sel dl dlt. rewrite Hf. done.
  - intros k r Hk. unfold spec_params. apply Hr, Hk.
  - rewrite load_after_save by done. unfold spec_params. fold dl. rewrite <- Hs. simpl.
    by rewrite Hdv.
Qed.

End WithFramework.

Lemma notebooks_end_to_end_witness :
  net_wf zero_net /\ Forall raw_wf (replicate 100 raw0) /\
  Nat.divide batch_size_ug (length (replicate 100 raw0)) /\
  length (replicate 100 raw0) <> 0%nat /\
  exists reps fs',
    @use_gpu_notebook _ _ notebook_adadelta gpu_host zero_net (replicate 100 raw0)
      (replicate 100 raw0) ∅ = Ok (reps, fs') /\
    length reps = EPOCHS /\
    (forall k r, reps !! k = Some r ->
       report_matches (@spec_params _ notebook_adadelta zero_net (replicate 100 raw0) (S k))
         (map fmnist_sample (replicate 100 raw0)) r) /\
    load_cells gpu_host zero_net fs' =
      Ok (mk_model (@spec_params _ notebook_adadelta zero_net (replicate 100 raw0) EPOCHS)
                   cuda0 false None).
Proof.
  assert (Hw : Forall raw_wf (replicate 100 raw0)) by (apply Forall_replicate, raw0_wf).
  assert (Hd : Nat.divide batch_size_ug (length (replicate 100 raw0)))
    by (rewrite length_replicate; apply Nat.divide_refl).
  split_and!; [gpu_side|exact Hw|exact Hd|rewrite length_replicate; lia|].
  apply (@notebooks_end_to_end _ _ notebook_adadelta gpu_host zero_net zero_net
           (replicate 100 raw0) (replicate 100 raw0) ∅);
    first [gpu_side|exact Hw|exact Hd|rewrite length_replicate; lia].
Defined.

End Notebook.
