(* ===== verification/TfPlacement.v ===== *)
(** * TensorFlow device placement ([src/tf-use-gpu.ipynb])

    The TensorFlow notebook counts the GPUs ([tf.config.list_physical_devices
    ('GPU')], line 59), adds two constant matrices with device-placement
    logging on (lines 93-101), and multiplies two matrices created inside a
    [with tf.device('/CPU:0')] scope, outside it (lines 113-126).

    TensorFlow's eager runtime keeps a stack of device scopes: an op runs on
    the device of the innermost scope, or, with no scope, on the first GPU
    when there is one and on the CPU otherwise; with soft placement (the
    eager default) a scope naming a device the host lacks falls back to
    that default instead of raising.  The state of the runtime is the
    record [tf_state]: the logging flag, the scope stack and the placement
    log ([Executing op <name> in device <device>]).  Tensors here are
    matrices of rationals with the device they live on.  [tf.math.add] is
    modelled on equal shapes (the notebook does not broadcast); the log
    line of [tf.constant] itself, which differs between versions, is not
    modelled. *)

From Stdlib Require Import QArith String Ascii.
From stdpp Require Import base list option sets strings.
From S2P Require Import Prelude Device Shape Net.

Module Tf.
Import Dev Net.
Local Open Scope gpu_scope.

(** ** Devices *)

Inductive kind := KCPU | KGPU.

#[export] Instance kind_eq_dec : EqDecision kind.
Proof. solve_decision. Defined.

Record tf_device := mk_tfdev { td_kind : kind; td_index : nat }.

#[export] Instance tf_device_eq_dec : EqDecision tf_device.
Proof. solve_decision. Defined.

Definition kind_str (k : kind) : string :=
  match k with KCPU => "CPU" | KGPU => "GPU" end.

(** The full name [Tensor.device] prints. *)
Definition device_name (d : tf_device) : string :=
  "/job:localhost/replica:0/task:0/device:" ++ kind_str (td_kind d) ++ ":"
    ++ index_str (td_index d).

Definition cpu0 : tf_device := mk_tfdev KCPU 0.
Definition gpu0 : tf_device := mk_tfdev KGPU 0.

Definition parse_kind (s : string) : result kind :=
  if decide (s = "CPU") then Ok KCPU
  else if decide (s = "GPU") then Ok KGPU
  else raise EInvalidDevice.

(** The argument of [tf.device]: [/TYPE:N], or [/TYPE] for device 0. *)
Definition parse_spec (s : string) : result tf_device :=
  match s with
  | String "/"%char rest =>
      let '(t, i) := split_colon rest in
      k ← parse_kind t;
      idx ← parse_index i;
      mret (mk_tfdev k (default 0 idx))
  | _ => raise EInvalidDevice
  end.

(** [tf.config.list_physical_devices('GPU')]. *)
Definition list_physical_gpus (h : host) : list tf_device :=
  map (mk_tfdev KGPU) (seq 0 (device_count h)).

Definition device_exists (h : host) (d : tf_device) : bool :=
  match td_kind d with
  | KCPU => bool_decide (td_index d = 0)
  | KGPU => bool_decide (td_index d < device_count h)
  end.

(** The device of an op outside any scope. *)
Definition default_device (h : host) : tf_device :=
  if is_available h then gpu0 else cpu0.

(** ** The runtime state *)

Record tf_state := mk_tf {
  log_placement : bool;
  scopes : list tf_device;
  placement_log : list (string * tf_device)
}.

Definition init_tf : tf_state := mk_tf false [] [].

(** [tf.debugging.set_log_device_placement(b)]. *)
Definition set_log_device_placement (b : bool) (st : tf_state) : tf_state :=
  mk_tf b (scopes st) (placement_log st).

(** Where the next op runs: the innermost scope, soft-placed. *)
Definition place (h : host) (st : tf_state) : tf_device :=
  match scopes st with
  | d :: _ => if device_exists h d then d else default_device h
  | [] => default_device h
  end.

(** Running op [name] on [d] logs it when logging is on. *)
Definition log_op (name : string) (d : tf_device) (st : tf_state) : tf_state :=
  if log_placement st
  then mk_tf true (scopes st) (placement_log st ++ [(name, d)])%list
  else st.

(** [with tf.device(spec): body]: the scope is pushed for the body and the
    previous stack is restored on exit. *)
Definition with_device {A} (spec : string) (st : tf_state)
    (body : tf_state -> result (A * tf_state)) : result (A * tf_state) :=
  d ← parse_spec spec;
  '(x, st1) ← body (mk_tf (log_placement st) (d :: scopes st) (placement_log st));
  mret (x, mk_tf (log_placement st1) (scopes st) (placement_log st1)).

(** ** Tensors and ops *)

Record tft := mk_tft { tv : list (list Q); tdev : tf_device }.

Definition cols (m : list (list Q)) : nat :=
  match m with [] => 0 | r :: _ => length r end.

(** A nested list is a matrix when all its rows have the same length. *)
Definition rectangular (m : list (list Q)) : bool :=
  forallb (fun r => bool_decide (length r = cols m)) m.

(** [tf.constant(m)]: a ragged list raises [ValueError]. *)
Definition constant (h : host) (st : tf_state) (m : list (list Q)) : result tft :=
  _ ← guard_or (rectangular m) EValue;
  mret (mk_tft m (place h st)).

(** [tf.math.add(x, y)] on operands of the same shape. *)
Definition add (h : host) (st : tf_state) (x y : tft) : result (tft * tf_state) :=
  _ ← guard_or (bool_decide (length (tv x) = length (tv y) /\ cols (tv x) = cols (tv y)))
        EShape;
  let d := place h st in
  mret (mk_tft (zip_with (zip_with Qplus) (tv x) (tv y)) d, log_op "AddV2" d st).

(** Column [j] of a matrix, and its transpose. *)
Definition column (j : nat) (m : list (list Q)) : list Q :=
  map (fun r => default 0%Q (r !! j)) m.

Definition transpose (m : list (list Q)) : list (list Q) :=
  map (fun j => column j m) (seq 0 (cols m)).

(** [tf.matmul(a, b)]: the inner dimensions must agree. *)
Definition matmul (h : host) (st : tf_state) (a b : tft) : result (tft * tf_state) :=
  _ ← guard_or (bool_decide (cols (tv a) = length (tv b))) EShape;
  let d := place h st in
  mret (mk_tft (map (fun r => map (dot r) (transpose (tv b))) (tv a)) d,
        log_op "MatMul" d st).

(** ** The cells *)

(** What the cells print. *)
Inductive tf_out :=
| OText (s : string)
| OTensor (t : tft).

(** Line 59: [print("Num GPUs Available: ", n)] (print inserts a space). *)
Definition cell_count (h : host) : tf_out :=
  OText ("Num GPUs Available:  " ++ index_str (length (list_physical_gpus h))).

Definition x_vals : list (list Q) := ([[9 # 2; 4; 3]; [1; 1; 1]])%Q.
Definition y_vals : list (list Q) := ([[10; 20; 55]; [1; 1; 1]])%Q.
Definition a_vals : list (list Q) := ([[1; 2; 3]; [4; 5; 6]])%Q.
Definition b_vals : list (list Q) := ([[1; 2]; [3; 4]; [5; 6]])%Q.

(** Lines 93-101. *)
Definition cell_add (h : host) (st : tf_state) : result (list tf_out * tf_state) :=
  let st1 := set_log_device_placement true st in
  x ← constant h st1 x_vals;
  y ← constant h st1 y_vals;
  '(z, st2) ← add h st1 x y;
  mret ([OTensor z], set_log_device_placement false st2).

(** Lines 113-126. *)
Definition cell_matmul (h : host) (st : tf_state) : result (list tf_out * tf_state) :=
  let st1 := set_log_device_placement true st in
  '(ab, st2) ← with_device "/CPU:0" st1 (fun s =>
     a ← constant h s a_vals;
     b ← constant h s b_vals;
     mret ((a, b, [OText (device_name (tdev a))]), s));
  let '(a, b, printed) := ab in
  '(c, st3) ← matmul h st2 a b;
  mret ((printed ++ [OTensor c; OText (device_name (tdev c))])%list,
        set_log_device_placement false st3).

(** The notebook's cells in order. *)
Definition run_tf_cells (h : host) : result (list tf_out * tf_state) :=
  '(o1, st1) ← cell_add h init_tf;
  '(o2, st2) ← cell_matmul h st1;
  mret (cell_count h :: (o1 ++ o2)%list, st2).

(** ** Properties *)

Lemma length_list_physical_gpus (h : host) :
  length (list_physical_gpus h) = device_count h.
Proof. unfold list_physical_gpus. by rewrite length_map, length_seq. Qed.

Lemma length_transpose (m : list (list Q)) : length (transpose m) = cols m.
Proof. unfold transpose. by rewrite length_map, length_seq. Qed.

Lemma lookup_transpose (m : list (list Q)) (j : nat) :
  j < cols m -> transpose m !! j = Some (column j m).
Proof.
  intros Hj. unfold transpose. autorewrite with gpu.
  by rewrite (proj2 (lookup_seq 0 (cols m) j j)) by lia.
Qed.

(** C35: the TensorFlow cells never raise, on any host: the count printed is
    the host's number of GPUs, [x + y] and [a @ b] have the values of
    lines 95-96 and 117-118 added and multiplied, the constants created in
    the [/CPU:0] scope are on the CPU, and both ops run (and are logged) on
    the default device: the first GPU when there is one, else the CPU. *)
Theorem run_tf_cells_spec (h : host) :
  run_tf_cells h = Ok (
    [OText ("Num GPUs Available:  " ++ index_str (device_count h));
     OTensor (mk_tft ([[29 # 2; 24; 58]; [2; 2; 2]])%Q (default_device h));
     OText (device_name cpu0);
     OTensor (mk_tft ([[22; 28]; [49; 64]])%Q (default_device h));
     OText (device_name (default_device h))],
    mk_tf false [] [("AddV2", default_device h); ("MatMul", default_device h)]).
Proof.
  unfold run_tf_cells, cell_count. rewrite length_list_physical_gpus. reflexivity.
Qed.

Lemma place_pushed (h : host) (st : tf_state) (d : tf_device) :
  place h (mk_tf (log_placement st) (d :: scopes st) (placement_log st)) =
    if device_exists h d then d else default_device h.
Proof. reflexivity. Qed.

(** Each entry of a row times a matrix's [column j], read off the
    operands entry by entry. *)
Lemma zip_mult_column (xs : list Q) (rows : list (list Q)) (j : nat) :
  length xs = length rows ->
  zip_with Qmult xs (column j rows) =
    map (fun k => default 0 (xs !! k) * default 0 (rows !! k ≫= (.!! j)))%Q
      (seq 0 (length rows)).
Proof.
  revert rows. induction xs as [|x xs IH]; intros [|r rows] Hl; simpl in *; try done.
  f_equal. rewrite <- seq_shift, map_map, IH by lia. reflexivity.
Qed.

(** Every row of a rectangular matrix has [cols] entries. *)
Lemma rectangular_row (m : list (list Q)) (i : nat) (r : list Q) :
  rectangular m = true -> m !! i = Some r -> length r = cols m.
Proof.
  unfold rectangular. rewrite forallb_forall. intros Hm Hi.
  apply (bool_decide_eq_true _), Hm, list_elem_of_In. by eapply list_elem_of_lookup_2.
Qed.

(** [tf.config.list_physical_devices('GPU')] and the single CPU are the
    devices a scope can name without falling back. *)
Lemma device_exists_physical (h : host) (d : tf_device) :
  device_exists h d = bool_decide (d = cpu0 \/ d ∈ list_physical_gpus h).
Proof.
  destruct d as [k i]. unfold device_exists, list_physical_gpus, cpu0.
  destruct k; simpl; apply bool_decide_ext; rewrite list_elem_of_In, in_map_iff;
    setoid_rewrite in_seq.
  - split; [intros ->; by left|]. by intros [[= ->]|(x & [=] & _)].
  - split; [intros Hi; right; exists i; split; [done|lia]|].
    intros [[=]|(x & [= ->] & Hx)]. lia.
Qed.

(** C36: [tf.matmul(a, b)] on a matrix [a] whose rows are as long as [b]
    has rows returns the matrix product on the current device: one row per
    row of [a], one column per column of [b], and entry [(i, j)] equal to
    [sum_k a[i][k] * b[k][j]]; the op is logged when logging is on. *)
Theorem matmul_spec (h : host) (st : tf_state) (a b : tft) :
  rectangular (tv a) = true -> cols (tv a) = length (tv b) ->
  exists c, matmul h st a b = Ok (c, log_op "MatMul" (place h st) st) /\
    tdev c = place h st /\ length (tv c) = length (tv a) /\
    Forall (fun r => length r = cols (tv b)) (tv c) /\
    forall i j ri, tv a !! i = Some ri -> j < cols (tv b) ->
      (tv c !! i ≫= (.!! j)) =
        Some (sumQ (map (fun k => default 0 (ri !! k) * default 0 (tv b !! k ≫= (.!! j)))%Q
                        (seq 0 (length (tv b))))).
Proof.
  intros Ha Hd. unfold matmul. rewrite bool_decide_eq_true_2 by done. simpl.
  eexists. split_and!; [reflexivity|reflexivity|simpl; by rewrite length_map| |].
  - simpl. apply Forall_forall. intros r (ri & <- & _)%list_elem_of_In%in_map_iff.
    by rewrite length_map, length_transpose.
  - intros i j ri Hi Hj. simpl. rewrite lookup_map_Some, Hi. simpl.
    rewrite lookup_map_Some, lookup_transpose by done. simpl. unfold dot.
    rewrite zip_mult_column; [done|]. rewrite (rectangular_row _ i ri Ha Hi). done.
Qed.

(** C37: the scope the notebook opens at line 116: a [tf.constant] created
    inside [with tf.device(spec)] holds its values on the named device when
    the host has it (the CPU [/CPU:0], or a GPU that
    [tf.config.list_physical_devices('GPU')] lists) and, by soft
    placement, on the default device otherwise (a ['/GPU:0'] scope on a
    host without a GPU does not raise); after the [with] the runtime state
    is the one before it: the scope is popped and nothing is logged. *)
Theorem with_device_constant (h : host) (spec : string) (d : tf_device) (st : tf_state)
    (m : list (list Q)) :
  parse_spec spec = Ok d -> rectangular m = true ->
  with_device spec st (fun s => t ← constant h s m; mret (t, s)) =
    Ok (mk_tft m (if bool_decide (d = cpu0 \/ d ∈ list_physical_gpus h) then d
                  else default_device h), st).
Proof.
  intros Hp Hr. unfold with_device. rewrite Hp. simpl.
  unfold constant. rewrite Hr. simpl. unfold place. simpl.
  rewrite device_exists_physical. by destruct st.
Qed.

Lemma matmul_spec_witness :
  rectangular a_vals = true /\
  cols (tv (mk_tft a_vals cpu0)) = length (tv (mk_tft b_vals cpu0)) /\
  exists c, matmul gpu_host init_tf (mk_tft a_vals cpu0) (mk_tft b_vals cpu0) =
      Ok (c, log_op "MatMul" (place gpu_host init_tf) init_tf) /\
    tdev c = place gpu_host init_tf /\ length (tv c) = length a_vals /\
    Forall (fun r => length r = cols b_vals) (tv c) /\
    forall i j ri, a_vals !! i = Some ri -> j < cols b_vals ->
      (tv c !! i ≫= (.!! j)) =
        Some (sumQ (map (fun k => default 0 (ri !! k) * default 0 (b_vals !! k ≫= (.!! j)))%Q
                        (seq 0 (length b_vals)))).
Proof.
  split_and!; [reflexivity|reflexivity|].
  apply (matmul_spec gpu_host init_tf (mk_tft a_vals cpu0) (mk_tft b_vals cpu0));
    reflexivity.
Defined.

Lemma with_device_constant_witness :
  parse_spec "/GPU:0" = Ok gpu0 /\ rectangular a_vals = true /\
  with_device "/GPU:0" (mk_tf true [] [])
    (fun s => t ← constant cpu_host s a_vals; mret (t, s)) =
    Ok (mk_tft a_vals (if bool_decide (gpu0 = cpu0 \/ gpu0 ∈ list_physical_gpus cpu_host)
                       then gpu0 else default_device cpu_host), mk_tf true [] []).
Proof.
  split_and!; [reflexivity|reflexivity|].
  apply (with_device_constant cpu_host "/GPU:0" gpu0); reflexivity.
Defined.

End Tf.
